(** * Fitness tracker: the two scripts [homework.py] and [oop_refactor.py]

    The development embeds both scripts over a small model of the Python
    values they compute with: unbounded integers, binary64 floats, the
    exceptions the arithmetic raises, [str.format] and the lines written
    by [print].  The square of a float goes through the C library, which
    is a parameter of the embedding.  The two scripts are embedded
    separately, in the modules [Homework] and [OopRefactor], and compared
    afterwards. *)

From Stdlib Require Import ZArith QArith List String Ascii Bool Lia.
From Stdlib Require Import Floats.SpecFloat DecimalString.
From Stdlib Require DecimalPos DecimalN Qpower.
Import ListNotations.

Set Implicit Arguments.

(** ** Python values *)

Module Py.

(** Exceptions the scripts can raise. *)
Inductive exn : Set :=
| ZeroDivisionError
| OverflowError
| TypeError
| ValueError
| IndexError
| AttributeError
| NotImplementedError
| Unsupported.

(** The outcome of evaluating an expression: a value or a raised exception. *)
Inductive result (A : Type) : Type :=
| Ok (a : A)
| Raise (e : exn).

Arguments Ok {A} a.
Arguments Raise {A} e.

Definition bind {A B : Type} (r : result A) (k : A -> result B) : result B :=
  match r with
  | Ok a => k a
  | Raise e => Raise e
  end.

Notation "x <- r ;; k" := (bind r (fun x => k))
  (at level 61, r at next level, right associativity).

Definition map_result {A B : Type} (f : A -> B) (r : result A) : result B :=
  x <- r ;; Ok (f x).

(** *** binary64 floats

    A Python float is an IEEE 754 binary64 number: [spec_float] at precision
    53 and maximal exponent 1024, with round-to-nearest-even operations. *)

Definition float : Set := spec_float.
Definition prec : Z := 53.
Definition emax : Z := 1024.

Definition fadd : float -> float -> float := SFadd prec emax.
Definition fmul : float -> float -> float := SFmul prec emax.
Definition fdiv : float -> float -> float := SFdiv prec emax.

Definition fzero : float := S754_zero false.

Definition is_zero (f : float) : bool :=
  match f with
  | S754_zero _ => true
  | _ => false
  end.

Definition is_finite (f : float) : bool :=
  match f with
  | S754_zero _ | S754_finite _ _ _ => true
  | _ => false
  end.

(** The rational a finite float stands for. *)
Definition exact (f : float) : option Q :=
  match f with
  | S754_zero _ => Some 0%Q
  | S754_finite s m e =>
      Some ((if s then -1 else 1) * (Zpos m # 1) * Qpower 2 e)%Q
  | _ => None
  end.

(** Overflow of a conversion shows as an infinity, which Python reports as
    [OverflowError]. *)
Definition finite_or_overflow (f : float) : result float :=
  match f with
  | S754_infinity _ => Raise OverflowError
  | _ => Ok f
  end.

(** [float(z)]: the nearest float, ties to even. *)
Definition float_of_int (z : Z) : result float :=
  finite_or_overflow (binary_normalize prec emax z 0 false).

(** The quotient [a / b] of two integers, rounded once to the nearest float.
    [b] is not zero. *)
Definition ratio_to_float (a b : Z) : float :=
  let sign := xorb (a <? 0)%Z (b <? 0)%Z in
  if (a =? 0)%Z then S754_zero sign
  else
    let '(q, e, l) := SFdiv_core_binary prec emax (Z.abs a) 0 (Z.abs b) 0 in
    binary_round_aux prec emax sign q e l.

(** [a / b] on two ints (true division). *)
Definition int_true_divide (a b : Z) : result float :=
  if (b =? 0)%Z then Raise ZeroDivisionError
  else finite_or_overflow (ratio_to_float a b).

(** *** Numbers: [int] and [float] *)

Inductive num : Set :=
| PyInt (z : Z)
| PyFloat (f : float).

Definition to_float (v : num) : result float :=
  match v with
  | PyInt z => float_of_int z
  | PyFloat f => Ok f
  end.

(** [a * b] *)
Definition py_mul (a b : num) : result num :=
  match a, b with
  | PyInt x, PyInt y => Ok (PyInt (x * y))
  | _, _ => x <- to_float a ;; y <- to_float b ;; Ok (PyFloat (fmul x y))
  end.

(** [a + b] *)
Definition py_add (a b : num) : result num :=
  match a, b with
  | PyInt x, PyInt y => Ok (PyInt (x + y))
  | _, _ => x <- to_float a ;; y <- to_float b ;; Ok (PyFloat (fadd x y))
  end.

(** [a / b] *)
Definition py_truediv (a b : num) : result num :=
  match a, b with
  | PyInt x, PyInt y => f <- int_true_divide x y ;; Ok (PyFloat f)
  | _, _ =>
      x <- to_float a ;;
      y <- to_float b ;;
      if is_zero y then Raise ZeroDivisionError else Ok (PyFloat (fdiv x y))
  end.

(** *** The C library

    A power of floats is computed by the C library's [pow].  Its result
    is not fixed by the language: the C standard asks for no accuracy, and
    the libraries in use return, on some arguments, a neighbour of the
    float nearest to the exact power.  The scripts are therefore embedded
    over any library: [pow2 x] is what its [pow (x, 2.0)] returns. *)
Class Libm : Type := { pow2 : float -> float }.

(** The float 1.0. *)
Definition fone : float := S754_finite false 4503599627370496 (-52).

Definition fpred : float -> float := SFpred prec emax.
Definition fsucc : float -> float := SFsucc prec emax.

(** A library accurate to one unit in the last place on squares: it
    returns the float nearest to the exact square or one of the two floats
    next to it. *)
Definition within_one_ulp (libm : Libm) : Prop :=
  forall x : float,
    pow2 x = fmul x x \/ pow2 x = fpred (fmul x x)
    \/ pow2 x = fsucc (fmul x x).

(** The library that rounds every square correctly. *)
Definition correctly_rounded : Libm := {| pow2 := fun x => fmul x x |}.

(** [x ** 2.0] on a float, as CPython's [float_pow] computes it.  NaN,
    infinities and zeros are settled without the library; a negative base
    is replaced by its absolute value, the exponent being even; the base
    1.0 gives 1.0; any other base is handed to [pow], whose infinite
    result is reported as [OverflowError]. *)
Definition float_pow2 {libm : Libm} (x : float) : result float :=
  match x with
  | S754_nan => Ok S754_nan
  | S754_infinity _ => Ok (S754_infinity false)
  | S754_zero _ => Ok (S754_zero false)
  | S754_finite _ m e =>
      let iv := S754_finite false m e in
      if SFeqb iv fone then Ok fone else finite_or_overflow (pow2 iv)
  end.

(** [a ** 2] with the int literal [2] as exponent. *)
Definition py_pow2 {libm : Libm} (a : num) : result num :=
  match a with
  | PyInt x => Ok (PyInt (x * x))
  | PyFloat f => y <- float_pow2 f ;; Ok (PyFloat y)
  end.

(** The comparisons with the int [0] that the preconditions use.  Python
    compares an int and a float by value; a NaN is neither greater than
    nor equal to anything. *)
Definition gt0 (v : num) : bool :=
  match v with
  | PyInt z => (0 <? z)%Z
  | PyFloat f => SFltb fzero f
  end.

Definition ge0 (v : num) : bool :=
  match v with
  | PyInt z => (0 <=? z)%Z
  | PyFloat f => SFleb fzero f
  end.

Definition ne0 (v : num) : bool :=
  match v with
  | PyInt z => negb (z =? 0)%Z
  | PyFloat f => negb (SFeqb f fzero)
  end.

(** A divisor that raises no [ZeroDivisionError]. *)
Definition nonzero (v : num) : Prop :=
  match v with
  | PyInt z => z <> 0%Z
  | PyFloat f => is_zero f = false
  end.

(** *** Expressions

    Operators on outcomes: the left operand is evaluated first, and the
    first exception raised is the outcome. *)

Definition lift2 (op : num -> num -> result num) (x y : result num)
  : result num :=
  a <- x ;; b <- y ;; op a b.

Definition ret_num (v : num) : result num := Ok v.
Coercion ret_num : num >-> result.

(** *** Literals

    An integer literal is an int; a literal with a fractional part or an
    exponent is the float nearest to the decimal it writes. *)

Definition pow10 (k : nat) : Z := Z.pow 10 (Z.of_nat k).

Definition num_of_number (n : Number.number) : option num :=
  match n with
  | Number.Decimal (Decimal.Decimal (Decimal.Pos i) Decimal.Nil) =>
      Some (PyInt (Z.of_N (N.of_uint i)))
  | Number.Decimal (Decimal.Decimal (Decimal.Pos i) f) =>
      let k := Decimal.nb_digits f in
      Some (PyFloat (ratio_to_float
                       (Z.of_N (N.of_uint i) * pow10 k + Z.of_N (N.of_uint f))
                       (pow10 k)))
  | Number.Decimal (Decimal.DecimalExp (Decimal.Pos i) f e) =>
      let k := Decimal.nb_digits f in
      let n := (Z.of_N (N.of_uint i) * pow10 k + Z.of_N (N.of_uint f))%Z in
      match e with
      | Decimal.Pos u =>
          Some (PyFloat (ratio_to_float
                           (n * 10 ^ Z.of_N (N.of_uint u)) (pow10 k)))
      | Decimal.Neg u =>
          Some (PyFloat (ratio_to_float
                           n (pow10 k * 10 ^ Z.of_N (N.of_uint u))))
      end
  | _ => None
  end.

Definition number_of_num (v : num) : option Number.number :=
  match v with
  | PyInt (Zneg _) => None
  | PyInt z => Some (Number.Decimal
                       (Decimal.Decimal (Decimal.Pos (N.to_uint (Z.to_N z)))
                                        Decimal.Nil))
  | PyFloat _ => None
  end.

Declare Scope py_scope.
Delimit Scope py_scope with py.
Bind Scope py_scope with num.

Number Notation num num_of_number number_of_num : py_scope.

Notation "x * y" := (lift2 py_mul x y) : py_scope.
Notation "x + y" := (lift2 py_add x y) : py_scope.
Notation "x / y" := (lift2 py_truediv x y) : py_scope.
Notation "x ** 2" := (a <- x ;; py_pow2 a) (at level 1) : py_scope.

(** *** Formatting with [.3f]

    [format(x, '.3f')] writes the decimal with three digits after the point
    that is nearest to the exact value of the float, ties to even; an int
    is converted to a float first. *)

Local Open Scope string_scope.

Definition round_half_even (n d : Z) : Z :=
  let q := (n / d)%Z in
  match (2 * (n mod d) ?= d)%Z with
  | Lt => q
  | Gt => (q + 1)%Z
  | Eq => if Z.even q then q else (q + 1)%Z
  end.

Definition digit (d : Z) : ascii := ascii_of_nat (48 + Z.to_nat d).

Definition decimal (n : Z) : string :=
  NilZero.string_of_uint (N.to_uint (Z.to_N n)).

Definition three_digits (n : Z) : string :=
  String (digit (n / 100))
    (String (digit (n / 10 mod 10)) (String (digit (n mod 10)) "")).

(** [n] counts thousandths. *)
Definition fixed3 (negative : bool) (n : Z) : string :=
  (if negative then "-" else "")
    ++ decimal (n / 1000) ++ "." ++ three_digits (n mod 1000).

(** The number of thousandths nearest to [m * 2^e]. *)
Definition thousandths (m : positive) (e : Z) : Z :=
  match e with
  | Zneg k => round_half_even (Zpos m * 1000) (2 ^ Zpos k)
  | _ => (Zpos m * 2 ^ e * 1000)%Z
  end.

Definition float_format_3f (f : float) : string :=
  match f with
  | S754_nan => "nan"
  | S754_infinity s => if s then "-inf" else "inf"
  | S754_zero s => fixed3 s 0
  | S754_finite s m e => fixed3 s (thousandths m e)
  end.

Definition format_3f (v : num) : result string :=
  f <- to_float v ;; Ok (float_format_3f f).

(** *** [str.format]

    The arguments the scripts format are strings and numbers.  The model
    covers the replacement fields the scripts use, [{}] on a string and
    [{:.3f}], filled from the positional arguments in order; any other
    field, [str()] of a number and braces that do not delimit a field are
    outside it and give [Unsupported]. *)

Inductive value : Set :=
| VStr (s : string)
| VNum (n : num).

Definition format_field (field : string) (v : value) : result string :=
  if (field =? "")%string then
    match v with
    | VStr s => Ok s
    | VNum _ => Raise Unsupported
    end
  else if (field =? ":.3f")%string then
    match v with
    | VStr _ => Raise ValueError
    | VNum n => format_3f n
    end
  else Raise Unsupported.

(** [field] is [Some] of the characters read since an opening brace. *)
Fixpoint format_from (template : string) (field : option string)
  (args : list value) : result string :=
  match template, field with
  | "", None => Ok ""
  | "", Some _ => Raise ValueError
  | String "{" rest, None => format_from rest (Some "") args
  | String "}" rest, None => Raise Unsupported
  | String c rest, None =>
      r <- format_from rest None args ;; Ok (String c r)
  | String "{" rest, Some _ => Raise Unsupported
  | String "}" rest, Some f =>
      match args with
      | [] => Raise IndexError
      | a :: args' =>
          x <- format_field f a ;;
          r <- format_from rest None args' ;;
          Ok (x ++ r)
      end
  | String c rest, Some f =>
      format_from rest (Some (f ++ String c "")) args
  end.

Definition str_format (template : string) (args : list value)
  : result string :=
  format_from template None args.

(** *** Dictionaries with string keys, in insertion order *)

Fixpoint dict_get {A : Type} (key : string) (d : list (string * A))
  : option A :=
  match d with
  | [] => None
  | (k, v) :: d' => if (key =? k)%string then Some v else dict_get key d'
  end.

(** *** Statements: standard output and exceptions

    A statement runs on the lines written so far and gives the lines
    written afterwards and its outcome. *)

Definition stdout : Set := list string.

Definition io (A : Type) : Type := stdout -> stdout * result A.

Definition io_ret {A : Type} (a : A) : io A := fun out => (out, Ok a).

Definition io_raise {A : Type} (e : exn) : io A := fun out => (out, Raise e).

Definition io_bind {A B : Type} (c : io A) (k : A -> io B) : io B :=
  fun out =>
    match c out with
    | (out', Ok a) => k a out'
    | (out', Raise e) => (out', Raise e)
    end.

Definition eval {A : Type} (r : result A) : io A := fun out => (out, r).

Definition print (line : string) : io unit :=
  fun out => ((out ++ [line])%list, Ok tt).

Notation "x <~ c ;; k" := (io_bind c (fun x => k))
  (at level 61, c at next level, right associativity).

End Py.

(** ** homework.py *)

Module Homework.
Import Py.
Local Open Scope string_scope.
Local Open Scope py_scope.

(** The dataclass [InfoMessage]. *)
Module InfoMessage.

Record t : Set := new {
  training_type : string;
  duration : num;
  distance : num;
  speed : num;
  calories : num
}.

Definition TEXT : string :=
  "Тип тренировки: {}; "
  ++ "Длительность: {:.3f} ч.; "
  ++ "Дистанция: {:.3f} км; "
  ++ "Ср. скорость: {:.3f} км/ч; "
  ++ "Потрачено ккал: {:.3f}.".

(** [asdict(self).values()]: the fields in declaration order. *)
Definition asdict_values (self : t) : list value :=
  [VStr (training_type self); VNum (duration self); VNum (distance self);
   VNum (speed self); VNum (calories self)].

Definition get_message (self : t) : result string :=
  str_format TEXT (asdict_values self).

End InfoMessage.

(** The classes. *)
Inductive cls : Set := Training | Running | SportsWalking | Swimming.

Definition __name__ (c : cls) : string :=
  match c with
  | Training => "Training"
  | Running => "Running"
  | SportsWalking => "SportsWalking"
  | Swimming => "Swimming"
  end.

(** The attributes each class body defines. *)
Definition class_dict (c : cls) : list (string * num)%type :=
  match c with
  | Training =>
      [("M_IN_KM", 1000); ("H_IN_MIN", 60); ("LEN_STEP", 0.65)]
  | Running =>
      [("CALORIES_MEAN_SPEED_MULTIPLIER", 18);
       ("CALORIES_MEAN_SPEED_SHIFT", 1.79)]
  | SportsWalking =>
      [("COEF_1", 0.035); ("COEF_2", 0.029); ("KM_H_IN_M_S", 0.278);
       ("CM_IN_M", 100)]
  | Swimming =>
      [("LEN_STEP", 1.38); ("NUMBER_1", 1.1); ("NUMBER_2", 2)]
  end.

(** Method resolution order: the class, then its base [Training]. *)
Definition mro (c : cls) : list cls :=
  match c with
  | Training => [Training]
  | _ => [c; Training]
  end.

Fixpoint lookup_in (classes : list cls) (name : string) : result num :=
  match classes with
  | [] => Raise AttributeError
  | c :: classes' =>
      match dict_get name (class_dict c) with
      | Some v => Ok v
      | None => lookup_in classes' name
      end
  end.

(** Instances, with the attributes [__init__] sets. *)
Inductive training : Set :=
| new_Training (action duration weight : num)
| new_Running (action duration weight : num)
| new_SportsWalking (action duration weight height : num)
| new_Swimming (action duration weight length_pool count_pool : num).

Definition type_of (self : training) : cls :=
  match self with
  | new_Training _ _ _ => Training
  | new_Running _ _ _ => Running
  | new_SportsWalking _ _ _ _ => SportsWalking
  | new_Swimming _ _ _ _ _ => Swimming
  end.

Definition action (self : training) : num :=
  match self with
  | new_Training a _ _ | new_Running a _ _
  | new_SportsWalking a _ _ _ | new_Swimming a _ _ _ _ => a
  end.

Definition duration (self : training) : num :=
  match self with
  | new_Training _ d _ | new_Running _ d _
  | new_SportsWalking _ d _ _ | new_Swimming _ d _ _ _ => d
  end.

Definition weight (self : training) : num :=
  match self with
  | new_Training _ _ w | new_Running _ _ w
  | new_SportsWalking _ _ w _ | new_Swimming _ _ w _ _ => w
  end.

Definition height (self : training) : result num :=
  match self with
  | new_SportsWalking _ _ _ h => Ok h
  | _ => Raise AttributeError
  end.

Definition length_pool (self : training) : result num :=
  match self with
  | new_Swimming _ _ _ l _ => Ok l
  | _ => Raise AttributeError
  end.

Definition count_pool (self : training) : result num :=
  match self with
  | new_Swimming _ _ _ _ c => Ok c
  | _ => Raise AttributeError
  end.

(** [self.NAME] for a name defined in a class body. *)
Definition class_attr (self : training) (name : string) : result num :=
  lookup_in (mro (type_of self)) name.

(** [Training.get_distance]; no class overrides it. *)
Definition get_distance (self : training) : result num :=
  action self * class_attr self "LEN_STEP" / class_attr self "M_IN_KM".

Definition Training_get_mean_speed (self : training) : result num :=
  get_distance self / duration self.

Definition Swimming_get_mean_speed (self : training) : result num :=
  length_pool self * count_pool self
  / class_attr self "M_IN_KM" / duration self.

Definition get_mean_speed (self : training) : result num :=
  match type_of self with
  | Swimming => Swimming_get_mean_speed self
  | _ => Training_get_mean_speed self
  end.

Definition Training_get_spent_calories (self : training) : result num :=
  Raise NotImplementedError.

Definition Running_get_spent_calories (self : training) : result num :=
  (class_attr self "CALORIES_MEAN_SPEED_MULTIPLIER"
   * get_mean_speed self
   + class_attr self "CALORIES_MEAN_SPEED_SHIFT")
  * weight self / class_attr self "M_IN_KM"
  * (duration self * class_attr self "H_IN_MIN").

Definition SportsWalking_get_spent_calories {libm : Libm} (self : training)
  : result num :=
  (class_attr self "COEF_1" * weight self
   + ((get_mean_speed self * class_attr self "KM_H_IN_M_S") ** 2
      / (height self / class_attr self "CM_IN_M"))
     * class_attr self "COEF_2" * weight self)
  * (duration self * class_attr self "H_IN_MIN").

Definition Swimming_get_spent_calories (self : training) : result num :=
  (get_mean_speed self + class_attr self "NUMBER_1")
  * class_attr self "NUMBER_2" * weight self * duration self.

Definition get_spent_calories {libm : Libm} (self : training)
  : result num :=
  match type_of self with
  | Training => Training_get_spent_calories self
  | Running => Running_get_spent_calories self
  | SportsWalking => SportsWalking_get_spent_calories self
  | Swimming => Swimming_get_spent_calories self
  end.

(** [Training.show_training_info]; the arguments are evaluated in order. *)
Definition show_training_info {libm : Libm} (self : training)
  : result InfoMessage.t :=
  di <- get_distance self ;;
  sp <- get_mean_speed self ;;
  ca <- get_spent_calories self ;;
  Ok (InfoMessage.new (__name__ (type_of self)) (duration self) di sp ca).

Definition workout_code : list (string * cls)%type :=
  [("SWM", Swimming); ("RUN", Running); ("WLK", SportsWalking)].

(** Calling the class [c] on the unpacked list [data]: the call binds the
    elements to the parameters of [__init__] and raises [TypeError] when
    their numbers differ. *)
Definition instantiate (c : cls) (data : list num) : result training :=
  match c, data with
  | Training, [a; d; w] => Ok (new_Training a d w)
  | Running, [a; d; w] => Ok (new_Running a d w)
  | SportsWalking, [a; d; w; h] => Ok (new_SportsWalking a d w h)
  | Swimming, [a; d; w; l; c] => Ok (new_Swimming a d w l c)
  | _, _ => Raise TypeError
  end.

Definition unknown_type_warning : string :=
  "Данный тип тренировки неизвестен. "
  ++ "Попробуйте походить, поплавать или бег.".

(** [read_package] returns the instance, or [None] after the warning. *)
Definition read_package (workout_type : string) (data : list num)
  : io (option training) :=
  match dict_get workout_type workout_code with
  | Some c => t <~ eval (instantiate c data) ;; io_ret (Some t)
  | None => _ <~ print unknown_type_warning ;; io_ret None
  end.

(** [main]; [None] has no attribute [show_training_info]. *)
Definition main {libm : Libm} (training : option training) : io unit :=
  match training with
  | None => io_raise AttributeError
  | Some t =>
      info <~ eval (show_training_info t) ;;
      message <~ eval (InfoMessage.get_message info) ;;
      print message
  end.

(** The loop of the script over [packages]. *)
Fixpoint run {libm : Libm} (packages : list (string * list num)%type)
  : io unit :=
  match packages with
  | [] => io_ret tt
  | (workout_type, data) :: packages' =>
      training <~ read_package workout_type data ;;
      _ <~ main training ;;
      run packages'
  end.

Definition packages : list (string * list num)%type :=
  [("SWM", [720; 1; 80; 25; 40]);
   ("RUN", [15000; 1; 75]);
   ("WLK", [9000; 1; 75; 180])].

End Homework.

(** ** oop_refactor.py *)

Module OopRefactor.
Import Py.
Local Open Scope string_scope.
Local Open Scope py_scope.

(** The dataclass [InfoMessage]; its [__str__] is an f-string, whose
    fields are formatted from left to right. *)
Module InfoMessage.

Record t : Set := new {
  training_type : string;
  duration : num;
  distance : num;
  speed : num;
  calories : num
}.

Definition __str__ (self : t) : result string :=
  du <- format_3f (duration self) ;;
  di <- format_3f (distance self) ;;
  sp <- format_3f (speed self) ;;
  ca <- format_3f (calories self) ;;
  Ok ("Тип тренировки: " ++ training_type self ++ "; "
      ++ "Длительность: " ++ du ++ " ч.; "
      ++ "Дистанция: " ++ di ++ " км; "
      ++ "Ср. скорость: " ++ sp ++ " км/ч; "
      ++ "Потрачено ккал: " ++ ca ++ ".").

End InfoMessage.

Inductive cls : Set := Training | Running | SportsWalking | Swimming.

Definition __name__ (c : cls) : string :=
  match c with
  | Training => "Training"
  | Running => "Running"
  | SportsWalking => "SportsWalking"
  | Swimming => "Swimming"
  end.

Definition class_dict (c : cls) : list (string * num)%type :=
  match c with
  | Training =>
      [("M_IN_KM", 1000); ("H_IN_MIN", 60); ("len_step", 0.65)]
  | Running =>
      [("CALORIES_MEAN_SPEED_MULTIPLIER", 18);
       ("CALORIES_MEAN_SPEED_SHIFT", 1.79)]
  | SportsWalking =>
      [("COEF_1", 0.035); ("COEF_2", 0.029); ("KM_H_IN_M_S", 0.278);
       ("CM_IN_M", 100)]
  | Swimming =>
      [("COEF_1", 1.1); ("COEF_2", 2); ("len_step", 1.38)]
  end.

Definition mro (c : cls) : list cls :=
  match c with
  | Training => [Training]
  | _ => [c; Training]
  end.

Fixpoint lookup_in (classes : list cls) (name : string) : result num :=
  match classes with
  | [] => Raise AttributeError
  | c :: classes' =>
      match dict_get name (class_dict c) with
      | Some v => Ok v
      | None => lookup_in classes' name
      end
  end.

Inductive training : Set :=
| new_Training (action duration weight : num)
| new_Running (action duration weight : num)
| new_SportsWalking (action duration weight height : num)
| new_Swimming (action duration weight length_pool count_pool : num).

Definition type_of (self : training) : cls :=
  match self with
  | new_Training _ _ _ => Training
  | new_Running _ _ _ => Running
  | new_SportsWalking _ _ _ _ => SportsWalking
  | new_Swimming _ _ _ _ _ => Swimming
  end.

Definition action (self : training) : num :=
  match self with
  | new_Training a _ _ | new_Running a _ _
  | new_SportsWalking a _ _ _ | new_Swimming a _ _ _ _ => a
  end.

Definition duration (self : training) : num :=
  match self with
  | new_Training _ d _ | new_Running _ d _
  | new_SportsWalking _ d _ _ | new_Swimming _ d _ _ _ => d
  end.

Definition weight (self : training) : num :=
  match self with
  | new_Training _ _ w | new_Running _ _ w
  | new_SportsWalking _ _ w _ | new_Swimming _ _ w _ _ => w
  end.

Definition height (self : training) : result num :=
  match self with
  | new_SportsWalking _ _ _ h => Ok h
  | _ => Raise AttributeError
  end.

Definition length_pool (self : training) : result num :=
  match self with
  | new_Swimming _ _ _ l _ => Ok l
  | _ => Raise AttributeError
  end.

Definition count_pool (self : training) : result num :=
  match self with
  | new_Swimming _ _ _ _ c => Ok c
  | _ => Raise AttributeError
  end.

Definition class_attr (self : training) (name : string) : result num :=
  lookup_in (mro (type_of self)) name.

Definition get_distance (self : training) : result num :=
  action self * class_attr self "len_step" / class_attr self "M_IN_KM".

Definition Training_get_mean_speed (self : training) : result num :=
  get_distance self / duration self.

Definition Swimming_get_mean_speed (self : training) : result num :=
  length_pool self * count_pool self
  / class_attr self "M_IN_KM" / duration self.

Definition get_mean_speed (self : training) : result num :=
  match type_of self with
  | Swimming => Swimming_get_mean_speed self
  | _ => Training_get_mean_speed self
  end.

Definition Training_get_spent_calories (self : training) : result num :=
  Raise NotImplementedError.

Definition Running_get_spent_calories (self : training) : result num :=
  (class_attr self "CALORIES_MEAN_SPEED_MULTIPLIER" * get_mean_speed self
   + class_attr self "CALORIES_MEAN_SPEED_SHIFT")
  * weight self / class_attr self "M_IN_KM"
  * (duration self * class_attr self "H_IN_MIN").

Definition SportsWalking_get_spent_calories {libm : Libm} (self : training)
  : result num :=
  (class_attr self "COEF_1" * weight self
   + ((get_mean_speed self * class_attr self "KM_H_IN_M_S") ** 2
      / (height self / class_attr self "CM_IN_M"))
     * class_attr self "COEF_2" * weight self)
  * (duration self * class_attr self "H_IN_MIN").

Definition Swimming_get_spent_calories (self : training) : result num :=
  (get_mean_speed self + class_attr self "COEF_1")
  * class_attr self "COEF_2" * weight self * duration self.

Definition get_spent_calories {libm : Libm} (self : training)
  : result num :=
  match type_of self with
  | Training => Training_get_spent_calories self
  | Running => Running_get_spent_calories self
  | SportsWalking => SportsWalking_get_spent_calories self
  | Swimming => Swimming_get_spent_calories self
  end.

Definition show_training_info {libm : Libm} (self : training)
  : result InfoMessage.t :=
  di <- get_distance self ;;
  sp <- get_mean_speed self ;;
  ca <- get_spent_calories self ;;
  Ok (InfoMessage.new (__name__ (type_of self)) (duration self) di sp ca).

Definition workout_code : list (string * cls)%type :=
  [("SWM", Swimming); ("RUN", Running); ("WLK", SportsWalking)].

Definition instantiate (c : cls) (data : list num) : result training :=
  match c, data with
  | Training, [a; d; w] => Ok (new_Training a d w)
  | Running, [a; d; w] => Ok (new_Running a d w)
  | SportsWalking, [a; d; w; h] => Ok (new_SportsWalking a d w h)
  | Swimming, [a; d; w; l; c] => Ok (new_Swimming a d w l c)
  | _, _ => Raise TypeError
  end.

Definition unknown_type_warning : string :=
  "Данный тип тренировки неизвестен. "
  ++ "Попробуйте походить, поплавать или бег.".

(** [read_package] prints the summary itself and returns [None]. *)
Definition read_package {libm : Libm} (workout_type : string)
  (data : list num) : io unit :=
  match dict_get workout_type workout_code with
  | Some c =>
      training <~ eval (instantiate c data) ;;
      info <~ eval (show_training_info training) ;;
      line <~ eval (InfoMessage.__str__ info) ;;
      print line
  | None => print unknown_type_warning
  end.

(** [main]: the list comprehension over [packages]. *)
Fixpoint main {libm : Libm} (packages : list (string * list num)%type)
  : io (list unit) :=
  match packages with
  | [] => io_ret []
  | (workout_type, data) :: packages' =>
      r <~ read_package workout_type data ;;
      rs <~ main packages' ;;
      io_ret (r :: rs)
  end.

Definition packages : list (string * list num)%type :=
  [("SWM", [720; 1; 80; 25; 40]);
   ("RUN", [15000; 1; 75]);
   ("WLK", [9000; 1; 75; 180])].

End OopRefactor.

(** ** The specification's vocabulary *)

Module Spec.
Import Py.
Local Open Scope string_scope.

(** The type codes and the number of values each expects. *)
Definition expected_count (typeCode : string) : option nat :=
  if (typeCode =? "RUN")%string then Some 3%nat
  else if (typeCode =? "WLK")%string then Some 4%nat
  else if (typeCode =? "SWM")%string then Some 5%nat
  else None.

Definition recognized (typeCode : string) : Prop :=
  In typeCode ["SWM"; "RUN"; "WLK"].

(** The summary line, given the type name and the four rendered numbers. *)
Definition report (typeName duration distance speed calories : string)
  : string :=
  "Тип тренировки: " ++ typeName
  ++ "; Длительность: " ++ duration
  ++ " ч.; Дистанция: " ++ distance
  ++ " км; Ср. скорость: " ++ speed
  ++ " км/ч; Потрачено ккал: " ++ calories ++ ".".

Definition warning : string :=
  "Данный тип тренировки неизвестен. Попробуйте походить, поплавать или бег.".

(** Fixed-point notation with exactly three decimal digits: an optional
    minus sign, one or more digits, a decimal point, three digits, and
    nothing else. *)
Definition is_digit (c : ascii) : bool :=
  (48 <=? nat_of_ascii c)%nat && (nat_of_ascii c <=? 57)%nat.

Fixpoint all_digits (s : string) : bool :=
  match s with
  | "" => true
  | String c rest => is_digit c && all_digits rest
  end.

Fixpoint fixed3_from (s : string) (seen_digit : bool) : bool :=
  match s with
  | "" => false
  | String c rest =>
      if (c =? ".")%char
      then seen_digit && all_digits rest && (String.length rest =? 3)%nat
      else is_digit c && fixed3_from rest true
  end.

Definition is_fixed3 (s : string) : bool :=
  match s with
  | "" => false
  | String c rest =>
      if (c =? "-")%char then fixed3_from rest false else fixed3_from s false
  end.

(** A number that [.3f] renders in fixed-point notation: a float that is
    neither infinite nor NaN, or an int that converts to one. *)
Definition finite (v : num) : bool :=
  match to_float v with
  | Ok f => is_finite f
  | Raise _ => false
  end.

(** The line is the report of the four numbers, each rendered with [.3f]
    and in fixed-point notation with three decimal digits. *)
Definition rendered_as_specified (typeName : string)
  (duration distance speed calories : num) (line : result string) : Prop :=
  exists du di sp ca : string,
    format_3f duration = Ok du /\ format_3f distance = Ok di
    /\ format_3f speed = Ok sp /\ format_3f calories = Ok ca
    /\ line = Ok (report typeName du di sp ca)
    /\ is_fixed3 du = true /\ is_fixed3 di = true
    /\ is_fixed3 sp = true /\ is_fixed3 ca = true.

(** The outcome is a value, or the [OverflowError] of an int too large for
    a float or of a square too large. *)
Definition returns_or_overflows (r : result num) : Prop :=
  (exists v, r = Ok v) \/ r = Raise OverflowError.

(** The outcome is a float. *)
Definition returns_float (r : result num) : Prop :=
  exists f, r = Ok (PyFloat f).

(** An input of moderate size: any float, or an int below [2 ^ 500] in
    magnitude. *)
Definition moderate (v : num) : Prop :=
  match v with
  | PyInt z => (Z.abs z < 2 ^ 500)%Z
  | PyFloat _ => True
  end.

(** The outcome is a value the arithmetic converts to a float where it has
    to: any float, or an int below [2 ^ 1000] in magnitude. *)
Definition operand (r : result num) : Prop :=
  exists v, r = Ok v
            /\ match v with
               | PyInt z => (Z.abs z < 2 ^ 1000)%Z
               | PyFloat _ => True
               end.

(** The formulas of the calculators, in Python's arithmetic. *)
Definition getDistanceKm (stepCount stepLengthM : result num) : result num :=
  (stepCount * stepLengthM / 1000)%py.

Definition defaultMeanSpeedKmh (stepCount durationHours : result num)
  : result num :=
  ((stepCount * 0.65 / 1000) / durationHours)%py.

Definition poolMeanSpeedKmh (poolLengthM poolLaps durationHours : result num)
  : result num :=
  ((poolLengthM * poolLaps / 1000) / durationHours)%py.

Definition runningCalories (meanSpeedKmh weightKg durationHours : result num)
  : result num :=
  ((18 * meanSpeedKmh + 1.79) * weightKg / 1000 * (durationHours * 60))%py.

Definition sportsWalkingCalories {libm : Libm}
  (meanSpeedKmh weightKg heightCm durationHours : result num) : result num :=
  ((0.035 * weightKg
    + ((meanSpeedKmh * 0.278) ** 2 / (heightCm / 100)) * 0.029 * weightKg)
   * (durationHours * 60))%py.

Definition swimmingCalories (meanSpeedKmh weightKg durationHours : result num)
  : result num :=
  ((meanSpeedKmh + 1.1) * 2 * weightKg * durationHours)%py.

(** The sports walking formula over the rationals. *)
Definition sportsWalkingCaloriesExact
  (meanSpeedKmh weightKg heightCm durationHours : Q) : Q :=
  ((0.035 * weightKg
    + ((meanSpeedKmh * 0.278) ^ 2 / (heightCm / 100)) * 0.029 * weightKg)
   * (durationHours * 60))%Q.

(** The running formula over the rationals. *)
Definition runningCaloriesExact (meanSpeedKmh weightKg durationHours : Q)
  : Q :=
  ((18 * meanSpeedKmh + 1.79) * weightKg / 1000 * (durationHours * 60))%Q.

End Spec.

(** The fields of a summary, to compare the records of the two scripts. *)
Definition fields_of_homework (m : Homework.InfoMessage.t)
  : string * Py.num * Py.num * Py.num * Py.num :=
  (Homework.InfoMessage.training_type m, Homework.InfoMessage.duration m,
   Homework.InfoMessage.distance m, Homework.InfoMessage.speed m,
   Homework.InfoMessage.calories m).

Definition fields_of_refactor (m : OopRefactor.InfoMessage.t)
  : string * Py.num * Py.num * Py.num * Py.num :=
  (OopRefactor.InfoMessage.training_type m, OopRefactor.InfoMessage.duration m,
   OopRefactor.InfoMessage.distance m, OopRefactor.InfoMessage.speed m,
   OopRefactor.InfoMessage.calories m).

(** The class and the instance of [oop_refactor.py] that stand for a class
    and an instance of [homework.py]. *)
Definition refactor_class (c : Homework.cls) : OopRefactor.cls :=
  match c with
  | Homework.Training => OopRefactor.Training
  | Homework.Running => OopRefactor.Running
  | Homework.SportsWalking => OopRefactor.SportsWalking
  | Homework.Swimming => OopRefactor.Swimming
  end.

Definition to_refactor (t : Homework.training) : OopRefactor.training :=
  match t with
  | Homework.new_Training a d w => OopRefactor.new_Training a d w
  | Homework.new_Running a d w => OopRefactor.new_Running a d w
  | Homework.new_SportsWalking a d w h => OopRefactor.new_SportsWalking a d w h
  | Homework.new_Swimming a d w l c => OopRefactor.new_Swimming a d w l c
  end.

(** ** Vocabulary of the further properties *)

Module More.
Import Py.
Local Open Scope string_scope.

(** [v == 0]: the int 0 and the floats 0.0 and -0.0. *)
Definition eq0 (v : num) : bool :=
  match v with
  | PyInt z => (z =? 0)%Z
  | PyFloat f => SFeqb f fzero
  end.

(** The exceptions of the arithmetic. *)
Definition arithmetic (e : exn) : Prop :=
  e = ZeroDivisionError \/ e = OverflowError.

(** Every exception the outcome can be satisfies [P]. *)
Definition raises_only {A : Type} (P : exn -> Prop) (r : result A) : Prop :=
  forall e, r = Raise e -> P e.

(** The class name a recognized type code stands for. *)
Definition type_name (typeCode : string) : option string :=
  if (typeCode =? "SWM")%string then Some "Swimming"
  else if (typeCode =? "RUN")%string then Some "Running"
  else if (typeCode =? "WLK")%string then Some "SportsWalking"
  else None.

(** Floats by sign: zero or finite and positive; finite and positive; and
    the same or plus infinity. *)
Definition finite_nonneg (f : float) : Prop :=
  match f with
  | S754_zero _ | S754_finite false _ _ => True
  | _ => False
  end.

Definition finite_pos (f : float) : Prop :=
  match f with
  | S754_finite false _ _ => True
  | _ => False
  end.

Definition nonneg (f : float) : Prop :=
  match f with
  | S754_zero _ | S754_finite false _ _ | S754_infinity false => True
  | _ => False
  end.

(** The outcome is a float that is zero, positive or plus infinity. *)
Definition returns_nonneg (r : result num) : Prop :=
  exists f, r = Ok (PyFloat f) /\ nonneg f.

(** The outcome is a float [f] with [f >= 0]: no exception, no negative
    number and no NaN. *)
Definition not_negative (r : result num) : Prop :=
  exists f, r = Ok (PyFloat f) /\ ge0 (PyFloat f) = true.

(** Reading a rendered field back: an optional minus sign, digits, a point
    and three digits, read as the rational they write. *)
Fixpoint split_point (s : string) : option (string * string) :=
  match s with
  | "" => None
  | String c rest =>
      if (c =? ".")%char then Some ("", rest)
      else
        match split_point rest with
        | Some (before, after) => Some (String c before, after)
        | None => None
        end
  end.

Definition read_digits (s : string) : option Z :=
  match s with
  | "" => None
  | _ => option_map (fun u => Z.of_N (N.of_uint u))
           (NilEmpty.uint_of_string s)
  end.

Definition read_unsigned3 (s : string) : option Z :=
  match split_point s with
  | Some (before, after) =>
      if (String.length after =? 3)%nat then
        match read_digits before, read_digits after with
        | Some a, Some b => Some (a * 1000 + b)%Z
        | _, _ => None
        end
      else None
  | None => None
  end.

(** The thousandths are counted first, then signed. *)
Definition read_fixed3 (s : string) : option Q :=
  match s with
  | "" => None
  | String c rest =>
      if (c =? "-")%char
      then option_map (fun n => (- n # 1000)%Q) (read_unsigned3 rest)
      else option_map (fun n => (n # 1000)%Q) (read_unsigned3 s)
  end.

End More.

(** * Properties *)

Import Py.
Local Open Scope string_scope.
Local Open Scope py_scope.

Section Properties.

(** The properties hold over any C library, unless they say otherwise. *)
Context {libm : Libm}.

(** ** Conversion of an int to a float *)

Section IntToFloat.
Local Open Scope Z_scope.

Lemma shr_1_m : forall r, 0 <= shr_m r -> shr_m (shr_1 r) = Z.div2 (shr_m r).
Proof.
  intros [m r s]; simpl; intros H.
  destruct m as [|p|p]; [reflexivity| |lia].
  destruct p; reflexivity.
Qed.

Lemma iter_pos_shr_m : forall p r, 0 <= shr_m r ->
  shr_m (iter_pos shr_1 p r) = Z.shiftr (shr_m r) (Zpos p).
Proof.
  induction p as [p IH|p IH|]; intros r Hr; simpl iter_pos.
  - assert (H1 : 0 <= shr_m (shr_1 r)).
    { rewrite shr_1_m by assumption. apply Z.div2_nonneg; assumption. }
    assert (H2 : 0 <= shr_m (iter_pos shr_1 p (shr_1 r))).
    { rewrite IH by assumption. apply Z.shiftr_nonneg; assumption. }
    rewrite IH by assumption. rewrite IH by assumption.
    rewrite shr_1_m by assumption.
    rewrite Z.div2_spec, !Z.shiftr_shiftr by lia.
    f_equal; lia.
  - assert (H2 : 0 <= shr_m (iter_pos shr_1 p r)).
    { rewrite IH by assumption. apply Z.shiftr_nonneg; assumption. }
    rewrite IH by assumption. rewrite IH by assumption.
    rewrite Z.shiftr_shiftr by lia. f_equal; lia.
  - rewrite shr_1_m by assumption. apply Z.div2_spec.
Qed.

Lemma digits2_pos_le : forall m, 2 ^ (Zpos (digits2_pos m) - 1) <= Zpos m.
Proof.
  induction m as [m IH|m IH|]; simpl digits2_pos.
  - rewrite Pos2Z.inj_succ.
    replace (Z.succ (Zpos (digits2_pos m)) - 1)
      with (Z.succ (Zpos (digits2_pos m) - 1)) by lia.
    rewrite Z.pow_succ_r by lia. lia.
  - rewrite Pos2Z.inj_succ.
    replace (Z.succ (Zpos (digits2_pos m)) - 1)
      with (Z.succ (Zpos (digits2_pos m) - 1)) by lia.
    rewrite Z.pow_succ_r by lia. lia.
  - simpl. lia.
Qed.

Lemma shr_m_record_of_loc : forall m l, shr_m (shr_record_of_loc m l) = m.
Proof. intros m [|[]]; reflexivity. Qed.

Lemma round_nearest_even_pos : forall m l, 0 < m -> 0 < round_nearest_even m l.
Proof. intros m [|[]] H; simpl; try lia. destruct (Z.even m); lia. Qed.

Lemma digits2_pos_lt : forall m, Zpos m < 2 ^ Zpos (digits2_pos m).
Proof.
  induction m as [m IH|m IH|]; simpl digits2_pos;
    try (rewrite Pos2Z.inj_succ, Z.pow_succ_r by lia; lia).
  reflexivity.
Qed.

Lemma Zdigits2_le : forall m k, 0 < m -> 0 <= k -> m < 2 ^ k -> Zdigits2 m <= k.
Proof.
  intros [|p|p] k Hm Hk H; try lia. simpl.
  pose proof (digits2_pos_le p) as L.
  assert (2 ^ (Zpos (digits2_pos p) - 1) < 2 ^ k) by lia.
  apply Z.pow_lt_mono_r_iff in H0; lia.
Qed.

Lemma Zdigits2_bounds : forall m, 0 < m ->
  1 <= Zdigits2 m /\ 2 ^ (Zdigits2 m - 1) <= m < 2 ^ Zdigits2 m.
Proof.
  intros [|p|p] Hm; try lia. simpl.
  split; [lia|]. split; [apply digits2_pos_le|apply digits2_pos_lt].
Qed.

(** Shifting to the working precision: the exponent reached and the
    mantissa left. *)
Lemma shr_fexp_spec : forall m e l, 0 < m -> -1074 <= e ->
  let r := shr_fexp prec emax m e l in
  snd r = Z.max e (fexp prec emax (Zdigits2 m + e))
  /\ shr_m (fst r) = m / 2 ^ (snd r - e)
  /\ 0 < shr_m (fst r).
Proof.
  intros m e l Hm He. cbv zeta. unfold shr_fexp, shr.
  destruct (Zdigits2_bounds Hm) as (D1 & D2 & D3).
  set (d := Zdigits2 m) in *.
  destruct (fexp prec emax (d + e) - e) as [|n|n] eqn:En; simpl fst; simpl snd;
    rewrite ?shr_m_record_of_loc.
  - replace (e - e) with 0 by lia. rewrite Z.div_1_r. lia.
  - rewrite iter_pos_shr_m by (rewrite shr_m_record_of_loc; lia).
    rewrite shr_m_record_of_loc.
    replace (e + Zpos n - e) with (Zpos n) by lia.
    rewrite Z.shiftr_div_pow2 by lia.
    split; [lia|]. split; [reflexivity|].
    apply Z.div_str_pos. split; [apply Z.pow_pos_nonneg; lia|].
    transitivity (2 ^ (d - 1)); [|assumption].
    apply Z.pow_le_mono_r; [lia|].
    unfold fexp, emin, prec, emax in En. lia.
  - replace (e - e) with 0 by lia. rewrite Z.div_1_r. lia.
Qed.

(** Rounding a positive mantissa never gives a zero. *)
Lemma binary_round_aux_nonzero : forall s m e l, 0 < m -> -1074 <= e ->
  is_zero (binary_round_aux prec emax s m e l) = false.
Proof.
  intros s m e l Hm He. unfold binary_round_aux.
  destruct (shr_fexp_spec l Hm He) as (E1 & _ & P1).
  destruct (shr_fexp prec emax m e l) as [mrs' e']. simpl in E1, P1.
  assert (P2 := round_nearest_even_pos (loc_of_shr_record mrs') P1).
  assert (L1 : -1074 <= e') by lia.
  destruct (shr_fexp_spec loc_Exact P2 L1) as (_ & _ & P3).
  destruct (shr_fexp prec emax _ e' loc_Exact) as [mrs'' e'']. simpl in P3.
  destruct (shr_m mrs''); try lia.
  destruct (e'' <=? emax - prec); reflexivity.
Qed.

(** Rounding a mantissa whose value is below [2 ^ 1023] gives a finite
    float. *)
Lemma binary_round_aux_finite : forall s m e l,
  0 < m -> -1074 <= e <= 970 -> Zdigits2 m + e <= 1023 ->
  exists m' e', binary_round_aux prec emax s m e l = S754_finite s m' e'.
Proof.
  intros s m e l Hm He Hd. unfold binary_round_aux.
  destruct (shr_fexp_spec l Hm (proj1 He)) as (E1 & M1 & P1).
  destruct (shr_fexp prec emax m e l) as [mrs' e']. simpl in E1, M1, P1.
  set (m1 := shr_m mrs') in *.
  destruct (Zdigits2_bounds Hm) as (D1 & D2 & D3).
  assert (B1 : Zdigits2 m1 + e' <= Zdigits2 m + e).
  { assert (K : 0 <= e' - e <= Zdigits2 m).
    { unfold fexp, emin, prec, emax in E1. lia. }
    assert (m1 < 2 ^ (Zdigits2 m - (e' - e))).
    { rewrite M1. apply Z.div_lt_upper_bound; [apply Z.pow_pos_nonneg; lia|].
      rewrite <- Z.pow_add_r by lia.
      replace (e' - e + (Zdigits2 m - (e' - e))) with (Zdigits2 m) by lia.
      lia. }
    assert (Zdigits2 m1 <= Zdigits2 m - (e' - e))
      by (apply Zdigits2_le; lia).
    lia. }
  assert (L1 : -1074 <= e' <= 970).
  { unfold fexp, emin, prec, emax in E1. lia. }
  set (m2 := round_nearest_even m1 (loc_of_shr_record mrs')).
  assert (P2 : 0 < m2) by (apply round_nearest_even_pos; assumption).
  assert (U2 : m2 <= m1 + 1).
  { unfold m2. destruct (loc_of_shr_record mrs') as [|[]]; simpl; try lia.
    destruct (Z.even m1); lia. }
  assert (B2 : Zdigits2 m2 <= Zdigits2 m1 + 1).
  { destruct (Zdigits2_bounds P1) as (F1 & F2 & F3).
    apply Zdigits2_le; [assumption|lia|].
    rewrite Z.pow_add_r by lia. lia. }
  destruct (shr_fexp_spec loc_Exact P2 (proj1 L1)) as (E2 & _ & P3).
  destruct (shr_fexp prec emax m2 e' loc_Exact) as [mrs'' e''].
  simpl in E2, P3.
  destruct (shr_m mrs'') as [|p|p]; try lia.
  assert (e'' <= emax - prec).
  { unfold fexp, emin, prec, emax in *. lia. }
  apply Z.leb_le in H. rewrite H. eauto.
Qed.

Lemma finite_or_overflow_zero : forall g f,
  finite_or_overflow g = Ok f -> is_zero g = false -> is_zero f = false.
Proof.
  intros g f Hg Hn. destruct g; simpl in Hg; inversion Hg; subst; assumption.
Qed.

(** An int other than 0 converts to a float other than 0.0. *)
Lemma float_of_int_nonzero : forall z f, z <> 0 ->
  float_of_int z = Ok f -> is_zero f = false.
Proof.
  intros z f Hz. unfold float_of_int, binary_normalize.
  assert (R : forall s p, is_zero (binary_round prec emax s p 0) = false).
  { intros s p. unfold binary_round, shl_align.
    destruct (fexp prec emax (Zpos (digits2_pos p) + 0) - 0) eqn:E;
      apply binary_round_aux_nonzero; try lia.
    unfold fexp, emin, prec, emax in *. lia. }
  destruct z as [|p|p]; [lia| |];
    intros H; exact (finite_or_overflow_zero _ H (R _ p)).
Qed.

Lemma iter_xO : forall d p, Zpos (Pos.iter xO p d) = Zpos p * 2 ^ Zpos d.
Proof.
  induction d as [|d IH] using Pos.peano_ind; intros p.
  - simpl. lia.
  - rewrite Pos.iter_succ, Pos2Z.inj_succ, Z.pow_succ_r by lia.
    rewrite Pos2Z.inj_xO, IH. lia.
Qed.

(** An int below [2 ^ 1023] in magnitude converts to a float. *)
Lemma float_of_int_fits : forall z, Z.abs z < 2 ^ 1023 ->
  exists f, float_of_int z = Ok f.
Proof.
  intros z Hz. unfold float_of_int, binary_normalize.
  assert (R : forall s p, Zpos p < 2 ^ 1023 ->
              exists m e, binary_round prec emax s p 0 = S754_finite s m e).
  { intros s p Hp. unfold binary_round, shl_align.
    pose proof (digits2_pos_le p) as L. pose proof (digits2_pos_lt p) as U.
    assert (D : Zpos (digits2_pos p) <= 1023).
    { apply (@Zdigits2_le (Zpos p)); lia. }
    destruct (fexp prec emax (Zpos (digits2_pos p) + 0) - 0) as [|n|n] eqn:E;
      unfold fexp, emin, prec, emax in E.
    - apply binary_round_aux_finite; simpl Zdigits2; lia.
    - apply binary_round_aux_finite; simpl Zdigits2; lia.
    - apply binary_round_aux_finite;
        try (unfold fexp, emin, prec, emax; lia).
      assert (Zdigits2 (Zpos (Pos.iter xO p n)) <= 53);
        [|unfold fexp, emin, prec, emax; lia].
      apply Zdigits2_le; try lia. rewrite iter_xO.
      replace 53 with (Zpos (digits2_pos p) + Zpos n) by lia.
      rewrite Z.pow_add_r by lia.
      apply Z.mul_lt_mono_pos_r; [apply Z.pow_pos_nonneg; lia|assumption]. }
  destruct z as [|p|p].
  - eexists; reflexivity.
  - destruct (R false p) as (m & e & ->); [lia|]. eexists; reflexivity.
  - destruct (R true p) as (m & e & ->); [lia|]. eexists; reflexivity.
Qed.

(** The division of a nonzero int by a nonzero int below [2 ^ 100]: the
    quotient digits handed to the rounding. *)
Lemma div_core_small_divisor : forall a b : positive,
  Zpos b < 2 ^ 100 ->
  let '(q, e, l) := SFdiv_core_binary prec emax (Zpos a) 0 (Zpos b) 0 in
  0 < q /\ -1074 <= e <= 0
  /\ (Zpos a < 2 ^ 1000 -> Zdigits2 q + e <= 1023).
Proof.
  intros a b Hb. unfold SFdiv_core_binary. cbn [Zdigits2].
  set (d1 := Zpos (digits2_pos a)). set (d2 := Zpos (digits2_pos b)).
  pose proof (digits2_pos_le a) as La. pose proof (digits2_pos_lt a) as Ua.
  pose proof (digits2_pos_le b) as Lb. pose proof (digits2_pos_lt b) as Ub.
  fold d1 in La, Ua. fold d2 in Lb, Ub.
  assert (D2 : 1 <= d2 <= 100).
  { split; [unfold d2; lia|]. apply (@Zdigits2_le (Zpos b)); lia. }
  assert (D1 : 1 <= d1) by (unfold d1; lia).
  set (e' := IntDef.Z.min _ _).
  assert (He : e' = Z.min (d1 - d2 - 53) 0).
  { unfold e', fexp, emin, prec, emax. lia. }
  set (m' := match (0 - 0 - e') with Z0 => _ | _ => _ end).
  assert (Hm : m' = Zpos a * 2 ^ (- e')).
  { unfold m'. destruct (0 - 0 - e') eqn:E.
    - replace (- e') with 0 by lia. lia.
    - change (IntDef.Z.shiftl (Zpos a) (Zpos p))
        with (Z.shiftl (Zpos a) (Zpos p)).
      rewrite Z.shiftl_mul_pow2 by lia. f_equal. f_equal. lia.
    - lia. }
  assert (P : 0 < 2 ^ (- e')) by (apply Z.pow_pos_nonneg; lia).
  assert (Lm : 2 ^ 52 * Zpos b <= m').
  { rewrite Hm. transitivity (2 ^ 52 * 2 ^ d2); [nia|].
    rewrite <- Z.pow_add_r by lia.
    transitivity (2 ^ (d1 - 1) * 2 ^ (- e')); [|nia].
    rewrite <- Z.pow_add_r by lia. apply Z.pow_le_mono_r; lia. }
  pose proof (Z_div_mod m' (Zpos b) eq_refl) as Hq.
  change (Z.div_eucl m' (Zpos b)) with (IntDef.Z.div_eucl m' (Zpos b)) in Hq.
  destruct (IntDef.Z.div_eucl m' (Zpos b)) as [q r].
  assert (Q : 2 ^ 52 <= q) by nia.
  assert (2 ^ 52 = 4503599627370496) by reflexivity.
  split; [lia|]. split; [lia|].
  intros A.
  assert (d1 <= 1000) by (apply (@Zdigits2_le (Zpos a)); lia).
  assert (Zdigits2 q <= d1 - e'); [|lia].
  apply Zdigits2_le; [lia|lia|].
  replace (d1 - e') with (d1 + - e') by lia.
  rewrite Z.pow_add_r by lia. nia.
Qed.

(** Such a quotient is a float, and not 0.0. *)
Lemma int_true_divide_nonzero : forall a b f,
  a <> 0 -> b <> 0 -> Z.abs b < 2 ^ 100 ->
  int_true_divide a b = Ok f -> is_zero f = false.
Proof.
  intros a b f Ha Hb Bb. unfold int_true_divide.
  destruct (Z.eqb_spec b 0) as [|_]; [contradiction|].
  intros H. apply (finite_or_overflow_zero _ H). clear H.
  unfold ratio_to_float. destruct (Z.eqb_spec a 0) as [|_]; [contradiction|].
  assert (Pa : exists p, Z.abs a = Zpos p).
  { destruct a as [|p|p]; [contradiction|exists p|exists p]; reflexivity. }
  assert (Pb : exists p, Z.abs b = Zpos p).
  { destruct b as [|p|p]; [contradiction|exists p|exists p]; reflexivity. }
  destruct Pa as [p Ea], Pb as [q Eb]. rewrite Ea, Eb.
  pose proof (@div_core_small_divisor p q) as C. rewrite <- Eb in C at 1.
  specialize (C Bb).
  destruct (SFdiv_core_binary prec emax (Zpos p) 0 (Zpos q) 0) as [[m e] l].
  destruct C as (C1 & C2 & _).
  apply binary_round_aux_nonzero; lia.
Qed.

Lemma int_true_divide_fits : forall a b,
  Z.abs a < 2 ^ 1000 -> b <> 0 -> Z.abs b < 2 ^ 100 ->
  exists f, int_true_divide a b = Ok f.
Proof.
  intros a b Ba Hb Bb. unfold int_true_divide.
  destruct (Z.eqb_spec b 0) as [|_]; [contradiction|].
  unfold ratio_to_float. destruct (Z.eqb_spec a 0) as [|Ha].
  { eexists; reflexivity. }
  assert (Pa : exists p, Z.abs a = Zpos p).
  { destruct a as [|p|p]; [contradiction|exists p|exists p]; reflexivity. }
  assert (Pb : exists p, Z.abs b = Zpos p).
  { destruct b as [|p|p]; [contradiction|exists p|exists p]; reflexivity. }
  destruct Pa as [p Ea], Pb as [q Eb]. rewrite Ea, Eb.
  pose proof (@div_core_small_divisor p q) as C. rewrite <- Eb in C at 1.
  specialize (C Bb).
  destruct (SFdiv_core_binary prec emax (Zpos p) 0 (Zpos q) 0) as [[m e] l].
  destruct C as (C1 & C2 & C3).
  destruct (@binary_round_aux_finite (xorb (a <? 0) (b <? 0)) m e l)
    as (m' & e' & ->); try lia.
  eexists; reflexivity.
Qed.

End IntToFloat.

(** ** Which exceptions the arithmetic can raise *)

Lemma gt0_nonzero : forall d, gt0 d = true -> nonzero d.
Proof.
  intros [z|f] H; simpl in *.
  - lia.
  - destruct f; try discriminate; reflexivity.
Qed.

Lemma ne0_nonzero : forall d, ne0 d = true -> nonzero d.
Proof.
  intros [z|f] H; simpl in *.
  - destruct (Z.eqb_spec z 0); [discriminate|assumption].
  - destruct f; try discriminate; reflexivity.
Qed.

Lemma to_float_cases : forall v,
  (exists f, to_float v = Ok f) \/ to_float v = Raise OverflowError.
Proof.
  intros [z|f]; simpl; [|eauto].
  unfold float_of_int. destruct (binary_normalize prec emax z 0 false);
    simpl; eauto.
Qed.

Lemma to_float_nonzero : forall v f,
  nonzero v -> to_float v = Ok f -> is_zero f = false.
Proof.
  intros [z|g] f H E; simpl in *.
  - eapply float_of_int_nonzero; eassumption.
  - inversion E; subst; assumption.
Qed.

Lemma value_safe : forall v : num, Spec.returns_or_overflows v.
Proof. intros v. left. exists v. reflexivity. Qed.

Lemma mul_safe : forall x y,
  Spec.returns_or_overflows x -> Spec.returns_or_overflows y ->
  Spec.returns_or_overflows (x * y).
Proof.
  intros x y [[a ->] | ->] Hy; [|right; reflexivity].
  destruct Hy as [[b ->] | ->]; [|right; reflexivity].
  unfold lift2; simpl. destruct a as [p|f], b as [q|g]; simpl;
    try (left; eexists; reflexivity).
  - unfold Spec.returns_or_overflows.
    destruct (to_float_cases (PyInt p)) as [[u E]|E]; simpl in E; rewrite E;
      simpl; eauto.
  - destruct (to_float_cases (PyInt q)) as [[u E]|E]; simpl in E; rewrite E;
      unfold Spec.returns_or_overflows; simpl; eauto.
Qed.

Lemma add_safe : forall x y,
  Spec.returns_or_overflows x -> Spec.returns_or_overflows y ->
  Spec.returns_or_overflows (x + y).
Proof.
  intros x y [[a ->] | ->] Hy; [|right; reflexivity].
  destruct Hy as [[b ->] | ->]; [|right; reflexivity].
  unfold lift2; simpl. destruct a as [p|f], b as [q|g]; simpl;
    try (left; eexists; reflexivity).
  - unfold Spec.returns_or_overflows.
    destruct (to_float_cases (PyInt p)) as [[u E]|E]; simpl in E; rewrite E;
      simpl; eauto.
  - destruct (to_float_cases (PyInt q)) as [[u E]|E]; simpl in E; rewrite E;
      unfold Spec.returns_or_overflows; simpl; eauto.
Qed.

Lemma finite_or_overflow_cases : forall g,
  (exists f, finite_or_overflow g = Ok f)
  \/ finite_or_overflow g = Raise OverflowError.
Proof. intros [s|s| |s m e]; simpl; eauto. Qed.

Lemma float_pow2_cases : forall f,
  (exists y, float_pow2 f = Ok y) \/ float_pow2 f = Raise OverflowError.
Proof.
  intros [s|s| |s m e]; unfold float_pow2; eauto.
  cbv zeta. destruct (SFeqb (S754_finite false m e) fone); eauto.
  apply finite_or_overflow_cases.
Qed.

Lemma pow2_safe : forall x,
  Spec.returns_or_overflows x -> Spec.returns_or_overflows (x ** 2).
Proof.
  intros x [[a ->] | ->]; [|right; reflexivity].
  unfold Spec.returns_or_overflows. cbn [bind].
  destruct a as [p|f]; cbn [py_pow2]; [eauto|].
  destruct (float_pow2_cases f) as [[y E]|E]; rewrite E; cbn [bind]; eauto.
Qed.

(** A division raises [ZeroDivisionError] only on a zero divisor. *)
Lemma div_safe : forall x y,
  Spec.returns_or_overflows x -> Spec.returns_or_overflows y ->
  (forall v, y = Ok v -> nonzero v) ->
  Spec.returns_or_overflows (x / y).
Proof.
  intros x y [[a ->] | ->] Hy Hn; [|right; reflexivity].
  destruct Hy as [[b ->] | ->]; [|right; reflexivity].
  specialize (Hn b eq_refl).
  unfold lift2, Spec.returns_or_overflows; simpl.
  destruct a as [p|f], b as [q|g]; simpl in *.
  - unfold int_true_divide. destruct (Z.eqb_spec q 0); [contradiction|].
    destruct (ratio_to_float p q); simpl; eauto.
  - destruct (to_float_cases (PyInt p)) as [[u E]|E]; simpl in E; rewrite E;
      simpl; eauto.
    rewrite Hn. eauto.
  - destruct (to_float_cases (PyInt q)) as [[u E]|E]; simpl in E; rewrite E;
      simpl; eauto.
    rewrite (float_of_int_nonzero Hn E). eauto.
  - rewrite Hn. eauto.
Qed.

Lemma div_num_safe : forall x (v : num),
  Spec.returns_or_overflows x -> nonzero v ->
  Spec.returns_or_overflows (x / v).
Proof.
  intros x v Hx Hv. apply div_safe; [assumption|apply value_safe|].
  intros u E. inversion E; subst; assumption.
Qed.

(** ** When the arithmetic returns a float *)

Lemma operand_to_float : forall v,
  match v with
  | PyInt z => (Z.abs z < 2 ^ 1000)%Z
  | PyFloat _ => True
  end ->
  exists f, to_float v = Ok f.
Proof.
  intros [z|f] H; simpl; [|eauto].
  apply float_of_int_fits.
  eapply Z.lt_trans; [exact H|]. reflexivity.
Qed.

Lemma float_operand : forall x, Spec.returns_float x -> Spec.operand x.
Proof. intros x [f ->]. exists (PyFloat f). split; [reflexivity|exact I]. Qed.

Lemma moderate_operand : forall v : num, Spec.moderate v -> Spec.operand v.
Proof.
  intros [z|f] H; eexists; (split; [reflexivity|]); [|exact I].
  unfold Spec.moderate in H. cbv beta iota.
  eapply Z.lt_trans; [exact H|]. reflexivity.
Qed.

Lemma literal_float : forall f, Spec.returns_float (PyFloat f).
Proof. intros f. exists f. reflexivity. Qed.

Lemma mul_float_l : forall x y,
  Spec.returns_float x -> Spec.operand y -> Spec.returns_float (x * y).
Proof.
  intros x y [f ->] (v & -> & Hv).
  destruct (@operand_to_float v Hv) as [g E].
  unfold lift2, Spec.returns_float. cbn [bind].
  destruct v as [z|h]; cbn [py_mul to_float bind] in *;
    [rewrite E; cbn [bind]|]; eauto.
Qed.

Lemma mul_float_r : forall x y,
  Spec.operand x -> Spec.returns_float y -> Spec.returns_float (x * y).
Proof.
  intros x y (v & -> & Hv) [f ->].
  destruct (@operand_to_float v Hv) as [g E].
  unfold lift2, Spec.returns_float. cbn [bind].
  destruct v as [z|h]; cbn [py_mul to_float bind] in *;
    [rewrite E; cbn [bind]|]; eauto.
Qed.

Lemma add_float_l : forall x y,
  Spec.returns_float x -> Spec.operand y -> Spec.returns_float (x + y).
Proof.
  intros x y [f ->] (v & -> & Hv).
  destruct (@operand_to_float v Hv) as [g E].
  unfold lift2, Spec.returns_float. cbn [bind].
  destruct v as [z|h]; cbn [py_add to_float bind] in *;
    [rewrite E; cbn [bind]|]; eauto.
Qed.

(** The product of two moderate inputs is an operand. *)
Lemma mul_moderate : forall u v : num,
  Spec.moderate u -> Spec.moderate v -> Spec.operand (u * v).
Proof.
  intros u v Hu Hv.
  destruct u as [a|f].
  - destruct v as [b|g].
    + exists (PyInt (a * b)). split; [reflexivity|].
      unfold Spec.moderate in Hu, Hv. cbv beta iota.
      rewrite Z.abs_mul.
      change (2 ^ 1000)%Z with (2 ^ 500 * 2 ^ 500)%Z.
      apply Z.mul_lt_mono_nonneg; try assumption; apply Z.abs_nonneg.
    + apply float_operand, mul_float_r;
        [apply moderate_operand; assumption|apply literal_float].
  - apply float_operand, mul_float_l;
      [apply literal_float|apply moderate_operand; assumption].
Qed.

Lemma div_float : forall x (v : num),
  Spec.returns_float x -> Spec.operand v -> nonzero v ->
  Spec.returns_float (x / v).
Proof.
  intros x v [f ->] (u & Eu & Hu) Hn. inversion Eu; subst u.
  destruct (@operand_to_float v Hu) as [g E].
  pose proof (@to_float_nonzero v g Hn E) as Z.
  unfold lift2, Spec.returns_float. cbn [bind ret_num].
  destruct v as [z|h]; cbn [py_truediv to_float bind] in *.
  - rewrite E. cbn [bind]. rewrite Z. eauto.
  - inversion E; subst. rewrite Z. eauto.
Qed.

(** The quotient of an operand by a nonzero int literal. *)
Lemma div_literal : forall x b,
  Spec.operand x -> b <> 0%Z -> (Z.abs b < 2 ^ 100)%Z ->
  Spec.returns_float (x / PyInt b).
Proof.
  intros x b (v & -> & Hv) Hb Bb.
  destruct v as [a|f].
  - destruct (@int_true_divide_fits a b Hv Hb Bb) as [q E].
    unfold lift2, Spec.returns_float. cbn [bind ret_num py_truediv].
    rewrite E. cbn [bind]. eauto.
  - apply div_float; [apply literal_float| |exact Hb].
    exists (PyInt b). split; [reflexivity|]. simpl.
    eapply Z.lt_trans; [exact Bb|]. reflexivity.
Qed.

Lemma distance_returns_float : forall (a : num) f,
  Spec.moderate a -> Spec.returns_float (Spec.getDistanceKm a (PyFloat f)).
Proof.
  intros a f Ha. unfold Spec.getDistanceKm.
  apply div_literal; [|discriminate|reflexivity].
  apply float_operand, mul_float_r;
    [apply moderate_operand; assumption|apply literal_float].
Qed.

Lemma default_speed_returns_float : forall a d : num,
  Spec.moderate a -> Spec.moderate d -> gt0 d = true ->
  Spec.returns_float (Spec.defaultMeanSpeedKmh a d).
Proof.
  intros a d Ha Hd Pd. unfold Spec.defaultMeanSpeedKmh.
  apply div_float;
    [|apply moderate_operand; assumption|apply gt0_nonzero; assumption].
  apply distance_returns_float; assumption.
Qed.

Lemma pool_speed_returns_float : forall l c d : num,
  Spec.moderate l -> Spec.moderate c -> Spec.moderate d -> gt0 d = true ->
  Spec.returns_float (Spec.poolMeanSpeedKmh l c d).
Proof.
  intros l c d Hl Hc Hd Pd. unfold Spec.poolMeanSpeedKmh.
  apply div_float;
    [|apply moderate_operand; assumption|apply gt0_nonzero; assumption].
  apply div_literal; [|discriminate|reflexivity].
  apply mul_moderate; assumption.
Qed.

Lemma running_returns_float : forall a d w : num,
  Spec.moderate a -> Spec.moderate d -> Spec.moderate w -> gt0 d = true ->
  Spec.returns_float
    (Spec.runningCalories (Spec.defaultMeanSpeedKmh a d) w d).
Proof.
  intros a d w Ha Hd Hw Pd. unfold Spec.runningCalories.
  apply mul_float_l; [|apply mul_moderate; [assumption|reflexivity]].
  apply div_literal; [|discriminate|reflexivity].
  apply float_operand, mul_float_l; [|apply moderate_operand; assumption].
  apply add_float_l; [|apply float_operand, literal_float].
  apply mul_float_r; [apply moderate_operand; reflexivity|].
  apply default_speed_returns_float; assumption.
Qed.

Lemma swimming_returns_float : forall l c d w : num,
  Spec.moderate l -> Spec.moderate c -> Spec.moderate d -> Spec.moderate w ->
  gt0 d = true ->
  Spec.returns_float
    (Spec.swimmingCalories (Spec.poolMeanSpeedKmh l c d) w d).
Proof.
  intros l c d w Hl Hc Hd Hw Pd. unfold Spec.swimmingCalories.
  apply mul_float_l; [|apply moderate_operand; assumption].
  apply mul_float_l; [|apply moderate_operand; assumption].
  apply mul_float_l; [|apply moderate_operand; reflexivity].
  apply add_float_l; [|apply float_operand, literal_float].
  apply pool_speed_returns_float; assumption.
Qed.

Ltac safe_arith := repeat first
  [ apply value_safe | apply mul_safe | apply add_safe | apply pow2_safe
  | apply div_num_safe; [|first [apply gt0_nonzero; assumption
                                 | simpl; discriminate]] ].

(** ** Distance *)

(** C6: [get_distance] is [action * step / 1000] with the step 0.65 for
    running and sports walking and 1.38 for swimming, in both scripts; the
    call raises nothing but [OverflowError] and returns a float on a
    moderate [action]; the mean speed of a swimming does not depend on the
    strokes the distance is computed from. *)
Theorem get_distance_by_step_length : forall a d w h l c : num,
  (Homework.get_distance (Homework.new_Running a d w)
     = Spec.getDistanceKm a 0.65
   /\ Homework.get_distance (Homework.new_SportsWalking a d w h)
     = Spec.getDistanceKm a 0.65
   /\ Homework.get_distance (Homework.new_Swimming a d w l c)
     = Spec.getDistanceKm a 1.38)
  /\ (OopRefactor.get_distance (OopRefactor.new_Running a d w)
     = Spec.getDistanceKm a 0.65
   /\ OopRefactor.get_distance (OopRefactor.new_SportsWalking a d w h)
     = Spec.getDistanceKm a 0.65
   /\ OopRefactor.get_distance (OopRefactor.new_Swimming a d w l c)
     = Spec.getDistanceKm a 1.38)
  /\ (Spec.returns_or_overflows (Spec.getDistanceKm a 0.65)
      /\ Spec.returns_or_overflows (Spec.getDistanceKm a 1.38))
  /\ (Spec.moderate a ->
      Spec.returns_float (Spec.getDistanceKm a 0.65)
      /\ Spec.returns_float (Spec.getDistanceKm a 1.38))
  /\ (forall a' : num,
        Homework.get_mean_speed (Homework.new_Swimming a d w l c)
        = Homework.get_mean_speed (Homework.new_Swimming a' d w l c)
        /\ OopRefactor.get_mean_speed (OopRefactor.new_Swimming a d w l c)
           = OopRefactor.get_mean_speed (OopRefactor.new_Swimming a' d w l c)).
Proof.
  intros a d w h l c.
  split; [repeat split; reflexivity|].
  split; [repeat split; reflexivity|].
  split; [split; unfold Spec.getDistanceKm; safe_arith|].
  split; [|intros a'; split; reflexivity].
  intros Ha. split; apply distance_returns_float; assumption.
Qed.

(** The distances of the three sample workouts. *)
Example sample_distances :
  Homework.get_distance (Homework.new_Running 15000 1 75) = 9.75
  /\ Homework.get_distance (Homework.new_SportsWalking 9000 1 75 180) = 5.85
  /\ (x <- Homework.get_distance (Homework.new_Swimming 720 1 80 25 40) ;;
      format_3f x) = Ok "0.994".
Proof. repeat split; vm_compute; reflexivity. Qed.

(** ** Mean speed and calories of a swimming *)

(** C3: the mean speed of a swimming is [(length_pool * count_pool / 1000)
    / duration] in both scripts; with a positive duration the call raises
    nothing but [OverflowError] and returns a float on moderate inputs; on
    the sample workout it is 1.0 and differs from the inherited
    [get_distance() / duration]. *)
Theorem swimming_mean_speed_from_pool : forall a d w l c : num,
  gt0 d = true ->
  Homework.get_mean_speed (Homework.new_Swimming a d w l c)
    = Spec.poolMeanSpeedKmh l c d
  /\ OopRefactor.get_mean_speed (OopRefactor.new_Swimming a d w l c)
    = Spec.poolMeanSpeedKmh l c d
  /\ Spec.returns_or_overflows (Spec.poolMeanSpeedKmh l c d)
  /\ (Spec.moderate l -> Spec.moderate c -> Spec.moderate d ->
      Spec.returns_float (Spec.poolMeanSpeedKmh l c d))
  /\ Homework.get_mean_speed (Homework.new_Swimming 720 1 80 25 40) = 1.0
  /\ OopRefactor.get_mean_speed (OopRefactor.new_Swimming 720 1 80 25 40)
     = 1.0
  /\ Homework.get_mean_speed (Homework.new_Swimming 720 1 80 25 40)
     <> Homework.Training_get_mean_speed
          (Homework.new_Swimming 720 1 80 25 40)
  /\ OopRefactor.get_mean_speed (OopRefactor.new_Swimming 720 1 80 25 40)
     <> OopRefactor.Training_get_mean_speed
          (OopRefactor.new_Swimming 720 1 80 25 40).
Proof.
  intros a d w l c Hd.
  split; [reflexivity|]. split; [reflexivity|].
  split; [unfold Spec.poolMeanSpeedKmh; safe_arith|].
  split; [intros; apply pool_speed_returns_float; assumption|].
  repeat split; try (vm_compute; reflexivity); vm_compute; discriminate.
Qed.

(** C4: the calories of a swimming are [(meanSpeed + 1.1) * 2 * weight *
    duration] on the pool-based mean speed, in both scripts; with a positive
    duration the call raises nothing but [OverflowError] and returns a float
    on moderate inputs; on the sample workout they are 336.0, which the
    distance-based speed would not give, neither by the default formula
    nor by the inherited method on the strokes of the swimming. *)
Theorem swimming_calories_from_pool_speed : forall a d w l c : num,
  gt0 d = true ->
  Homework.get_spent_calories (Homework.new_Swimming a d w l c)
    = Spec.swimmingCalories (Spec.poolMeanSpeedKmh l c d) w d
  /\ OopRefactor.get_spent_calories (OopRefactor.new_Swimming a d w l c)
    = Spec.swimmingCalories (Spec.poolMeanSpeedKmh l c d) w d
  /\ Spec.returns_or_overflows
       (Spec.swimmingCalories (Spec.poolMeanSpeedKmh l c d) w d)
  /\ (Spec.moderate l -> Spec.moderate c -> Spec.moderate d ->
      Spec.moderate w ->
      Spec.returns_float
        (Spec.swimmingCalories (Spec.poolMeanSpeedKmh l c d) w d))
  /\ Homework.get_spent_calories (Homework.new_Swimming 720 1 80 25 40)
     = 336.0
  /\ OopRefactor.get_spent_calories (OopRefactor.new_Swimming 720 1 80 25 40)
     = 336.0
  /\ Spec.swimmingCalories (Spec.defaultMeanSpeedKmh 720 1) 80 1 <> 336.0
  /\ Spec.swimmingCalories
       (Homework.Training_get_mean_speed
          (Homework.new_Swimming 720 1 80 25 40)) 80 1 <> 336.0.
Proof.
  intros a d w l c Hd.
  split; [reflexivity|]. split; [reflexivity|].
  split; [unfold Spec.swimmingCalories, Spec.poolMeanSpeedKmh; safe_arith|].
  split; [intros; apply swimming_returns_float; assumption|].
  repeat split; try (vm_compute; reflexivity); vm_compute; discriminate.
Qed.

(** ** Calories of a running *)

(** The calories of the sample running are not 798.000 to three decimal
    places, neither in the scripts nor by the formula over the rationals.
    A running never reaches the C library, so this holds over any. *)
Lemma running_sample_over_any_library :
  ~ (exists c, Homework.get_spent_calories (Homework.new_Running 15000 1 75)
               = Ok c /\ format_3f c = Ok "798.000")
  /\ ~ (exists c,
         OopRefactor.get_spent_calories (OopRefactor.new_Running 15000 1 75)
         = Ok c /\ format_3f c = Ok "798.000")
  /\ ~ (Spec.runningCaloriesExact 9.75 75 1 == 798)%Q.
Proof.
  repeat split.
  - intros [c [H F]]. vm_compute in H. injection H as <-.
    vm_compute in F. discriminate.
  - intros [c [H F]]. vm_compute in H. injection H as <-.
    vm_compute in F. discriminate.
  - vm_compute. discriminate.
Qed.

(** C2, amended: the calories of a running are [(18 * meanSpeed + 1.79) *
    weight / 1000 * (duration * 60)] on the mean speed [(action * 0.65 /
    1000) / duration], in both scripts; with a positive duration the call
    raises nothing but [OverflowError] and returns a float on moderate
    inputs; on the sample workout the distance and the mean speed are 9.75
    and the calories are 797.805 to three decimal places, which is the
    exact value of the formula. *)
Theorem running_calories : forall a d w : num,
  ge0 a = true -> gt0 d = true -> gt0 w = true ->
  Homework.get_spent_calories (Homework.new_Running a d w)
    = Spec.runningCalories (Spec.defaultMeanSpeedKmh a d) w d
  /\ OopRefactor.get_spent_calories (OopRefactor.new_Running a d w)
    = Spec.runningCalories (Spec.defaultMeanSpeedKmh a d) w d
  /\ Spec.returns_or_overflows
       (Spec.runningCalories (Spec.defaultMeanSpeedKmh a d) w d)
  /\ (Spec.moderate a -> Spec.moderate d -> Spec.moderate w ->
      Spec.returns_float
        (Spec.runningCalories (Spec.defaultMeanSpeedKmh a d) w d))
  /\ (Homework.get_distance (Homework.new_Running 15000 1 75) = 9.75
      /\ Homework.get_mean_speed (Homework.new_Running 15000 1 75) = 9.75
      /\ (c <- Homework.get_spent_calories (Homework.new_Running 15000 1 75) ;;
          format_3f c) = Ok "797.805")
  /\ (OopRefactor.get_distance (OopRefactor.new_Running 15000 1 75) = 9.75
      /\ OopRefactor.get_mean_speed (OopRefactor.new_Running 15000 1 75)
         = 9.75
      /\ (c <- OopRefactor.get_spent_calories
                 (OopRefactor.new_Running 15000 1 75) ;;
          format_3f c) = Ok "797.805")
  /\ (Spec.runningCaloriesExact 9.75 75 1 == 797.805)%Q.
Proof.
  intros a d w Ha Hd Hw.
  split; [reflexivity|]. split; [reflexivity|].
  split; [unfold Spec.runningCalories, Spec.defaultMeanSpeedKmh; safe_arith|].
  split; [intros; apply running_returns_float; assumption|].
  repeat split; vm_compute; reflexivity.
Qed.

(** ** Calories of a sports walking *)

(** The square of the speed is the one place where the C library is
    called.  [expose_square] evaluates the speed and leaves the call. *)
Ltac expose_square :=
  match goal with
  | |- context [bind ?x (fun a => py_pow2 a)] =>
      let v := eval vm_compute in x in
      replace x with v by (vm_compute; reflexivity)
  end;
  cbn [bind py_pow2 float_pow2];
  match goal with
  | |- context [SFeqb ?y fone] => change (SFeqb y fone) with false
  end;
  cbv iota.

Ltac evaluate_calories :=
  match goal with
  | |- exists c, ?e = _ /\ _ =>
      let v := eval vm_compute in e in
      match v with
      | Ok (PyFloat ?c0) =>
          exists c0; split; vm_compute; reflexivity
      end
  end.

(** On the sample workout the library's last place does not show in the
    third decimal. *)
Lemma walking_sample_calories : within_one_ulp libm ->
  exists c,
    Spec.sportsWalkingCalories (Spec.defaultMeanSpeedKmh 9000 1) 75 180 1
    = Ok (PyFloat c)
    /\ format_3f (PyFloat c) = Ok "349.252".
Proof.
  intros A. unfold Spec.sportsWalkingCalories. expose_square.
  match goal with
  | |- context [pow2 ?x] => destruct (A x) as [P|[P|P]]; rewrite P
  end; evaluate_calories.
Qed.

(** The library that rounds correctly is accurate. *)
Lemma correctly_rounded_is_accurate : within_one_ulp correctly_rounded.
Proof. intros x. left. reflexivity. Qed.

(** The calories follow the library.  On 1844 steps the speed in m/s is
    0.3332108000000001; its square is 0.11102943723664006 to the nearest
    float and 0.11102943723664005 one place below, which is what a
    library in use returns, and the calories differ in their last place. *)
Example walking_calories_follow_the_library : forall x,
  Spec.defaultMeanSpeedKmh 1844 1 * 0.278 = Ok (PyFloat x) ->
  (pow2 x = fmul x x ->
   Homework.get_spent_calories (Homework.new_SportsWalking 1844 1 75 180)
   = 165.54963419965645)
  /\ (pow2 x = fpred (fmul x x) ->
      Homework.get_spent_calories (Homework.new_SportsWalking 1844 1 75 180)
      = 165.54963419965642).
Proof.
  intros x E. vm_compute in E. inversion E; subst x. clear E.
  split; intros P;
    change (Homework.get_spent_calories
              (Homework.new_SportsWalking 1844 1 75 180))
      with (Spec.sportsWalkingCalories
              (Spec.defaultMeanSpeedKmh 1844 1) 75 180 1);
    unfold Spec.sportsWalkingCalories; expose_square;
    rewrite P; vm_compute; reflexivity.
Qed.

(** Even the third decimal may follow it: on 3794 steps and a weight of
    39.14914398897958 the calories are rendered 100.001 over the square
    rounded to the nearest float and 100.000 over the float below, which
    is what a library in use returns there. *)
Example walking_third_decimal_follows_the_library : forall x,
  Spec.defaultMeanSpeedKmh 3794 1 * 0.278 = Ok (PyFloat x) ->
  (pow2 x = fmul x x ->
   (c <- Homework.get_spent_calories
           (Homework.new_SportsWalking 3794 1 39.14914398897958 180) ;;
    format_3f c) = Ok "100.001")
  /\ (pow2 x = fpred (fmul x x) ->
      (c <- Homework.get_spent_calories
              (Homework.new_SportsWalking 3794 1 39.14914398897958 180) ;;
       format_3f c) = Ok "100.000").
Proof.
  intros x E. vm_compute in E. inversion E; subst x. clear E.
  split; intros P;
    change (Homework.get_spent_calories
              (Homework.new_SportsWalking 3794 1 39.14914398897958 180))
      with (Spec.sportsWalkingCalories
              (Spec.defaultMeanSpeedKmh 3794 1) 39.14914398897958 180 1);
    unfold Spec.sportsWalkingCalories; expose_square;
    rewrite P; vm_compute; reflexivity.
Qed.

(** C5: the calories of a sports walking are [(0.035 * weight +
    ((meanSpeed * 0.278) ** 2 / (height / 100)) * 0.029 * weight) *
    (duration * 60)] on the mean speed [(action * 0.65 / 1000) / duration],
    in both scripts and over any C library, the square being Python's
    [** 2]; with a positive duration the call raises nothing but
    [OverflowError] when [height / 100] is not zero, as it is for every int
    height other than 0; on the sample workout the distance and the mean
    speed are 5.85 and, over every library accurate to one unit in the
    last place, the calories are 349.252 to three decimal places, as is
    the exact value of the formula. *)
Theorem sports_walking_calories : forall a d w h : num,
  gt0 d = true -> ne0 h = true ->
  Homework.get_spent_calories (Homework.new_SportsWalking a d w h)
    = Spec.sportsWalkingCalories (Spec.defaultMeanSpeedKmh a d) w h d
  /\ OopRefactor.get_spent_calories (OopRefactor.new_SportsWalking a d w h)
    = Spec.sportsWalkingCalories (Spec.defaultMeanSpeedKmh a d) w h d
  /\ ((forall hm, h / 100 = Ok hm -> nonzero hm) ->
      Spec.returns_or_overflows
        (Spec.sportsWalkingCalories (Spec.defaultMeanSpeedKmh a d) w h d))
  /\ ((exists z, h = PyInt z) ->
      Spec.returns_or_overflows
        (Spec.sportsWalkingCalories (Spec.defaultMeanSpeedKmh a d) w h d))
  /\ (Homework.get_distance (Homework.new_SportsWalking 9000 1 75 180) = 5.85
      /\ Homework.get_mean_speed (Homework.new_SportsWalking 9000 1 75 180)
         = 5.85)
  /\ (OopRefactor.get_distance (OopRefactor.new_SportsWalking 9000 1 75 180)
      = 5.85
      /\ OopRefactor.get_mean_speed
           (OopRefactor.new_SportsWalking 9000 1 75 180) = 5.85)
  /\ (within_one_ulp libm ->
      (c <- Homework.get_spent_calories
              (Homework.new_SportsWalking 9000 1 75 180) ;;
       format_3f c) = Ok "349.252"
      /\ (c <- OopRefactor.get_spent_calories
                 (OopRefactor.new_SportsWalking 9000 1 75 180) ;;
          format_3f c) = Ok "349.252")
  /\ (349.2515 <= Spec.sportsWalkingCaloriesExact 5.85 75 180 1
      /\ Spec.sportsWalkingCaloriesExact 5.85 75 180 1 < 349.2525)%Q.
Proof.
  intros a d w h Hd Hh.
  assert (S : (forall hm, h / 100 = Ok hm -> nonzero hm) ->
              Spec.returns_or_overflows
                (Spec.sportsWalkingCalories
                   (Spec.defaultMeanSpeedKmh a d) w h d)).
  { intros Hz. unfold Spec.sportsWalkingCalories, Spec.defaultMeanSpeedKmh.
    apply mul_safe; [|safe_arith].
    apply add_safe; [safe_arith|].
    apply mul_safe; [|safe_arith]. apply mul_safe; [|safe_arith].
    apply div_safe; [safe_arith| |assumption].
    safe_arith. }
  split; [reflexivity|]. split; [reflexivity|]. split; [exact S|].
  split.
  { intros [z ->]. apply S. intros hm E.
    unfold lift2 in E. cbn [bind ret_num py_truediv] in E.
    destruct (int_true_divide z 100) as [f|] eqn:F; [|discriminate].
    cbn [bind] in E. inversion E; subst. simpl.
    apply (@int_true_divide_nonzero z 100); try assumption;
      [|discriminate|reflexivity].
    simpl in Hh. destruct (Z.eqb_spec z 0); [discriminate|assumption]. }
  split; [split; vm_compute; reflexivity|].
  split; [split; vm_compute; reflexivity|].
  split; [|split; [vm_compute; discriminate|vm_compute; reflexivity]].
  intros A. destruct (walking_sample_calories A) as (c & E & F).
  change (Homework.get_spent_calories
            (Homework.new_SportsWalking 9000 1 75 180))
    with (Spec.sportsWalkingCalories (Spec.defaultMeanSpeedKmh 9000 1)
            75 180 1).
  change (OopRefactor.get_spent_calories
            (OopRefactor.new_SportsWalking 9000 1 75 180))
    with (Spec.sportsWalkingCalories (Spec.defaultMeanSpeedKmh 9000 1)
            75 180 1).
  rewrite E. split; exact F.
Qed.

(** ** The factory *)

Lemma recognized_cases : forall code,
  Spec.recognized code <-> code = "SWM" \/ code = "RUN" \/ code = "WLK".
Proof.
  intros code. unfold Spec.recognized. simpl.
  split; intros H; repeat destruct H as [H|H]; subst; auto; contradiction.
Qed.

Lemma unknown_code_lookup : forall code,
  ~ Spec.recognized code ->
  dict_get code Homework.workout_code = None
  /\ dict_get code OopRefactor.workout_code = None.
Proof.
  intros code H. rewrite recognized_cases in H.
  unfold Homework.workout_code, OopRefactor.workout_code, dict_get.
  destruct (String.eqb_spec code "SWM"); [tauto|].
  destruct (String.eqb_spec code "RUN"); [tauto|].
  destruct (String.eqb_spec code "WLK"); [tauto|].
  split; reflexivity.
Qed.

(** On an unknown type code [read_package] writes the warning and returns
    [None] in both scripts. *)
Lemma read_package_unknown : forall code data out,
  ~ Spec.recognized code ->
  Homework.read_package code data out = ((out ++ [Spec.warning])%list, Ok None)
  /\ OopRefactor.read_package code data out
     = ((out ++ [Spec.warning])%list, Ok tt).
Proof.
  intros code data out H.
  destruct (unknown_code_lookup H) as [E1 E2].
  unfold Homework.read_package, OopRefactor.read_package.
  rewrite E1, E2. split; reflexivity.
Qed.

(** In [oop_refactor.py] the batch goes on after the warning. *)
Lemma refactor_main_unknown : forall code data rest out,
  ~ Spec.recognized code ->
  OopRefactor.main ((code, data) :: rest) out
  = (rs <~ OopRefactor.main rest ;; io_ret (tt :: rs))
      (out ++ [Spec.warning])%list.
Proof.
  intros code data rest out H.
  cbn [OopRefactor.main]. unfold io_bind at 1.
  destruct (read_package_unknown data out H) as [_ ->]. reflexivity.
Qed.

(** In [homework.py] the loop hands the [None] to [main], which raises, so
    the batch stops after the warning. *)
Lemma homework_run_unknown : forall code data rest out,
  ~ Spec.recognized code ->
  Homework.run ((code, data) :: rest) out
  = ((out ++ [Spec.warning])%list, Raise AttributeError).
Proof.
  intros code data rest out H.
  cbn [Homework.run]. unfold io_bind at 1.
  destruct (read_package_unknown data out H) as [-> _]. reflexivity.
Qed.

(** A summary line is never the warning. *)
Lemma report_is_not_warning : forall ty du di sp ca,
  Spec.report ty du di sp ca <> Spec.warning.
Proof. intros ty du di sp ca H. cbn in H. discriminate H. Qed.

(** The batch of [homework.py] holds recognized type codes only. *)
Lemma homework_packages_recognized :
  Forall (fun p => Spec.recognized (fst p)) Homework.packages.
Proof.
  unfold Homework.packages.
  repeat (apply Forall_cons; [rewrite recognized_cases; cbn; auto|]).
  apply Forall_nil.
Qed.

(** C1: on a type code other than SWM, RUN and WLK, whatever the data,
    [read_package] looks up no class, so builds no instance and no record,
    and raises nothing: in [homework.py] it writes the warning and returns
    [None]; in [oop_refactor.py] it writes the warning, which is no
    summary line, and returns, and [main] goes on with the packages that
    follow.  The loop of [homework.py] runs over its own batch, which
    holds recognized codes only. *)
Theorem unknown_type_is_warned_and_not_built : forall code data out,
  ~ Spec.recognized code ->
  (dict_get code Homework.workout_code = None
   /\ Homework.read_package code data out
      = ((out ++ [Spec.warning])%list, Ok None))
  /\ (dict_get code OopRefactor.workout_code = None
      /\ OopRefactor.read_package code data out
         = ((out ++ [Spec.warning])%list, Ok tt))
  /\ (forall ty du di sp ca, Spec.report ty du di sp ca <> Spec.warning)
  /\ (forall rest,
        OopRefactor.main ((code, data) :: rest) out
        = (rs <~ OopRefactor.main rest ;; io_ret (tt :: rs))
            (out ++ [Spec.warning])%list)
  /\ Forall (fun p => Spec.recognized (fst p)) Homework.packages.
Proof.
  intros code data out H.
  destruct (unknown_code_lookup H) as [L1 L2].
  destruct (read_package_unknown data out H) as [R1 R2].
  split; [split; assumption|]. split; [split; assumption|].
  split; [exact report_is_not_warning|].
  split; [|exact homework_packages_recognized].
  intros rest. apply refactor_main_unknown. assumption.
Qed.

Lemma expected_count_cases : forall code n,
  Spec.expected_count code = Some n ->
  (code = "RUN" /\ n = 3%nat) \/ (code = "WLK" /\ n = 4%nat)
  \/ (code = "SWM" /\ n = 5%nat).
Proof.
  intros code n. unfold Spec.expected_count.
  destruct (String.eqb_spec code "RUN");
    [intros H; inversion H; auto|].
  destruct (String.eqb_spec code "WLK");
    [intros H; inversion H; auto|].
  destruct (String.eqb_spec code "SWM");
    [intros H; inversion H; auto|discriminate].
Qed.

Ltac count_mismatch data :=
  let H := fresh in
  intros H;
  destruct data as [|? [|? [|? [|? [|? [|? ?]]]]]];
  simpl in H; try lia; split; reflexivity.

(** Calling a class on a list of the wrong length raises [TypeError]. *)
Lemma instantiate_wrong_count : forall data,
  (List.length data <> 3%nat ->
   Homework.instantiate Homework.Running data = Raise TypeError
   /\ OopRefactor.instantiate OopRefactor.Running data = Raise TypeError)
  /\ (List.length data <> 4%nat ->
      Homework.instantiate Homework.SportsWalking data = Raise TypeError
      /\ OopRefactor.instantiate OopRefactor.SportsWalking data
         = Raise TypeError)
  /\ (List.length data <> 5%nat ->
      Homework.instantiate Homework.Swimming data = Raise TypeError
      /\ OopRefactor.instantiate OopRefactor.Swimming data = Raise TypeError).
Proof.
  intros data. split; [|split]; count_mismatch data.
Qed.

(** C7: for a recognized type code and a list whose length is not the count
    the code expects, [read_package] raises [TypeError] and writes nothing,
    in both scripts, and the exception ends the batch; a list of the
    expected length is accepted. *)
Theorem wrong_count_is_type_error : forall code data n,
  Spec.expected_count code = Some n ->
  List.length data <> n ->
  (forall out, Homework.read_package code data out = (out, Raise TypeError))
  /\ (forall out,
        OopRefactor.read_package code data out = (out, Raise TypeError))
  /\ (forall rest out,
        Homework.run ((code, data) :: rest) out = (out, Raise TypeError))
  /\ (forall rest out,
        OopRefactor.main ((code, data) :: rest) out = (out, Raise TypeError))
  /\ (forall data' out, List.length data' = n ->
        exists t, Homework.read_package code data' out = (out, Ok (Some t))).
Proof.
  intros code data n Hc Hn.
  destruct (instantiate_wrong_count data) as [R [W S]].
  assert (G : forall out,
    Homework.read_package code data out = (out, Raise TypeError)
    /\ OopRefactor.read_package code data out = (out, Raise TypeError)).
  { intros out.
    destruct (expected_count_cases _ Hc) as [[-> ->]|[[-> ->]|[-> ->]]];
      unfold Homework.read_package, OopRefactor.read_package;
      cbn [dict_get Homework.workout_code OopRefactor.workout_code
           String.eqb Ascii.eqb Bool.eqb];
      unfold io_bind, eval.
    - destruct (R Hn) as [-> ->]. split; reflexivity.
    - destruct (W Hn) as [-> ->]. split; reflexivity.
    - destruct (S Hn) as [-> ->]. split; reflexivity. }
  split; [intros out; apply G|]. split; [intros out; apply G|].
  split; [|split].
  - intros rest out. cbn [Homework.run]. unfold io_bind at 1.
    destruct (G out) as [-> _]. reflexivity.
  - intros rest out. cbn [OopRefactor.main]. unfold io_bind at 1.
    destruct (G out) as [_ ->]. reflexivity.
  - intros data' out Hl.
    destruct (expected_count_cases _ Hc) as [[-> ->]|[[-> ->]|[-> ->]]];
      destruct data' as [|? [|? [|? [|? [|? [|? ?]]]]]];
      try discriminate Hl; eexists; reflexivity.
Qed.

(** ** The summary line *)

Lemma is_digit_digit : forall d,
  (0 <= d <= 9)%Z -> Spec.is_digit (digit d) = true.
Proof.
  intros d H.
  assert (C : (d = 0 \/ d = 1 \/ d = 2 \/ d = 3 \/ d = 4 \/ d = 5 \/ d = 6
               \/ d = 7 \/ d = 8 \/ d = 9)%Z) by lia.
  repeat destruct C as [C|C]; subst; reflexivity.
Qed.

Lemma digit_is_not_point : forall c,
  Spec.is_digit c = true -> (c =? ".")%char = false /\ (c =? "-")%char = false.
Proof.
  intros c H. split.
  - destruct (Ascii.eqb_spec c "."); [subst; discriminate|reflexivity].
  - destruct (Ascii.eqb_spec c "-"); [subst; discriminate|reflexivity].
Qed.

Lemma all_digits_app : forall s t,
  Spec.all_digits (s ++ t) = Spec.all_digits s && Spec.all_digits t.
Proof.
  induction s as [|c s IH]; intros t; simpl; [reflexivity|].
  rewrite IH. apply andb_assoc.
Qed.

Lemma all_digits_uint : forall u,
  Spec.all_digits (NilEmpty.string_of_uint u) = true.
Proof. induction u; simpl; auto. Qed.

Lemma decimal_digits : forall n,
  Spec.all_digits (decimal n) = true /\ decimal n <> "".
Proof.
  intros n. unfold decimal, NilZero.string_of_uint.
  destruct (N.to_uint (Z.to_N n)) eqn:E;
    try (split; [reflexivity|discriminate]);
    (split; [apply all_digits_uint|simpl; discriminate]).
Qed.

Lemma three_digits_shape : forall n, (0 <= n < 1000)%Z ->
  Spec.all_digits (three_digits n) = true
  /\ String.length (three_digits n) = 3%nat.
Proof.
  intros n H. unfold three_digits. split; [|reflexivity].
  cbn [Spec.all_digits].
  assert (H1 := Z.mod_pos_bound n 10 eq_refl).
  assert (H2 := Z.mod_pos_bound (n / 10) 10 eq_refl).
  assert (H3 : (0 <= n / 100 <= 9)%Z).
  { split; [apply Z.div_pos; lia|].
    apply Z.lt_succ_r. apply Z.div_lt_upper_bound; lia. }
  rewrite !is_digit_digit by lia. reflexivity.
Qed.

Lemma fixed3_from_digits : forall ds t seen,
  Spec.all_digits ds = true -> Spec.all_digits t = true ->
  String.length t = 3%nat -> seen = true \/ ds <> "" ->
  Spec.fixed3_from (ds ++ String "." t) seen = true.
Proof.
  induction ds as [|c ds IH]; intros t seen Hd Ht Hl Hs.
  - destruct Hs as [->|Hs]; [|contradiction].
    cbn. rewrite Ht, Hl. reflexivity.
  - cbn [Spec.all_digits] in Hd. apply andb_true_iff in Hd as [Hc Hd].
    cbn [append Spec.fixed3_from].
    destruct (digit_is_not_point _ Hc) as [-> _]. rewrite Hc.
    cbn [andb]. apply IH; auto.
Qed.

Lemma is_fixed3_digit_first : forall ds rest,
  Spec.all_digits ds = true -> ds <> "" ->
  Spec.is_fixed3 (ds ++ rest) = Spec.fixed3_from (ds ++ rest) false.
Proof.
  intros [|c ds] rest Hd He; [contradiction|].
  cbn [Spec.all_digits] in Hd. apply andb_true_iff in Hd as [Hc _].
  cbn [append]. unfold Spec.is_fixed3.
  destruct (digit_is_not_point _ Hc) as [_ ->]. reflexivity.
Qed.

(** A count of thousandths is written in fixed-point notation with three
    decimal digits. *)
Lemma is_fixed3_fixed3 : forall negative n, (0 <= n)%Z ->
  Spec.is_fixed3 (fixed3 negative n) = true.
Proof.
  intros negative n Hn. unfold fixed3.
  destruct (decimal_digits (n / 1000)) as [Hd He].
  destruct (three_digits_shape (n := n mod 1000)) as [Ht Hl];
    [apply Z.mod_pos_bound; lia|].
  assert (F : forall seen, Spec.fixed3_from
                (decimal (n / 1000) ++ "." ++ three_digits (n mod 1000)) seen
              = true).
  { intros seen. apply (@fixed3_from_digits _ _ seen Hd Ht Hl).
    right; assumption. }
  destruct negative.
  - change ("-" ++ decimal (n / 1000) ++ "." ++ three_digits (n mod 1000))
      with (String "-"
              (decimal (n / 1000) ++ "." ++ three_digits (n mod 1000))).
    unfold Spec.is_fixed3. change ("-" =? "-")%char with true.
    cbn iota. apply F.
  - change ("" ++ decimal (n / 1000) ++ "." ++ three_digits (n mod 1000))
      with (decimal (n / 1000) ++ "." ++ three_digits (n mod 1000)).
    rewrite is_fixed3_digit_first by assumption. apply F.
Qed.

Lemma round_half_even_nonneg : forall n d, (0 <= n)%Z -> (0 < d)%Z ->
  (0 <= round_half_even n d)%Z.
Proof.
  intros n d Hn Hd. unfold round_half_even.
  assert (0 <= n / d)%Z by (apply Z.div_pos; lia).
  destruct (2 * (n mod d) ?= d)%Z; [destruct (Z.even (n / d))| |]; lia.
Qed.

Lemma thousandths_nonneg : forall m e, (0 <= thousandths m e)%Z.
Proof.
  intros m e. unfold thousandths. destruct e as [|k|k].
  - lia.
  - assert (0 < 2 ^ Zpos k)%Z by (apply Z.pow_pos_nonneg; lia). lia.
  - apply round_half_even_nonneg; [lia|apply Z.pow_pos_nonneg; lia].
Qed.

(** [.3f] renders a finite number in fixed-point notation with three
    decimal digits. *)
Lemma format_3f_finite : forall v, Spec.finite v = true ->
  exists s, format_3f v = Ok s /\ Spec.is_fixed3 s = true.
Proof.
  intros v. unfold Spec.finite, format_3f.
  destruct (to_float v) as [f|]; [|discriminate].
  intros Hf. cbn [bind]. eexists. split; [reflexivity|].
  destruct f as [s|s| |s m e]; try discriminate; unfold float_format_3f;
    apply is_fixed3_fixed3; [lia|apply thousandths_nonneg].
Qed.

(** A number that is not finite is not rendered in fixed-point notation. *)
Lemma format_3f_not_finite : forall v s,
  format_3f v = Ok s -> Spec.finite v = false ->
  s = "inf" \/ s = "-inf" \/ s = "nan".
Proof.
  intros v s. unfold Spec.finite, format_3f.
  destruct (to_float v) as [f|]; [|discriminate].
  cbn [bind]. intros H Hf. inversion H; subst.
  destruct f as [z|[]| |z m e]; try discriminate; simpl; auto.
Qed.

(** Both scripts render a record as the report of its rendered numbers. *)
Lemma get_message_report : forall ty du di sp ca,
  Homework.InfoMessage.get_message (Homework.InfoMessage.new ty du di sp ca)
  = (a <- format_3f du ;; b <- format_3f di ;; c <- format_3f sp ;;
     d <- format_3f ca ;; Ok (Spec.report ty a b c d)).
Proof.
  intros. unfold Homework.InfoMessage.get_message, str_format.
  cbn -[format_3f].
  destruct (format_3f du); [|reflexivity].
  destruct (format_3f di); [|reflexivity].
  destruct (format_3f sp); [|reflexivity].
  destruct (format_3f ca); reflexivity.
Qed.

Lemma str_report : forall ty du di sp ca,
  OopRefactor.InfoMessage.__str__ (OopRefactor.InfoMessage.new ty du di sp ca)
  = (a <- format_3f du ;; b <- format_3f di ;; c <- format_3f sp ;;
     d <- format_3f ca ;; Ok (Spec.report ty a b c d)).
Proof. reflexivity. Qed.

(** The running of 15000 steps in one hour by an athlete of 1e308 kg has
    infinite calories, which both scripts render as [inf]; over any
    library, a running reaching none. *)
Lemma infinite_calories_over_any_library :
  Homework.show_training_info (Homework.new_Running 15000 1 1e308)
  = Ok (Homework.InfoMessage.new "Running" 1 9.75 9.75
          (PyFloat (S754_infinity false)))
  /\ ~ Spec.rendered_as_specified "Running" 1 9.75 9.75
         (PyFloat (S754_infinity false))
         (Homework.InfoMessage.get_message
            (Homework.InfoMessage.new "Running" 1 9.75 9.75
               (PyFloat (S754_infinity false))))
  /\ ~ Spec.rendered_as_specified "Running" 1 9.75 9.75
         (PyFloat (S754_infinity false))
         (OopRefactor.InfoMessage.__str__
            (OopRefactor.InfoMessage.new "Running" 1 9.75 9.75
               (PyFloat (S754_infinity false)))).
Proof.
  split; [vm_compute; reflexivity|].
  split; intros (du & di & sp & ca & _ & _ & _ & Hca & _ & _ & _ & _ & F);
    vm_compute in Hca; injection Hca as <-; discriminate F.
Qed.

(** C8, amended: a record whose four numbers are finite is rendered by both
    scripts as the line of [Spec.report], with each number rendered by
    [.3f] in fixed-point notation with three decimal digits. *)
Theorem summary_line_of_finite_record : forall ty du di sp ca,
  Spec.finite du = true -> Spec.finite di = true ->
  Spec.finite sp = true -> Spec.finite ca = true ->
  Spec.rendered_as_specified ty du di sp ca
    (Homework.InfoMessage.get_message
       (Homework.InfoMessage.new ty du di sp ca))
  /\ Spec.rendered_as_specified ty du di sp ca
       (OopRefactor.InfoMessage.__str__
          (OopRefactor.InfoMessage.new ty du di sp ca)).
Proof.
  intros ty du di sp ca H1 H2 H3 H4.
  destruct (format_3f_finite _ H1) as (s1 & E1 & F1).
  destruct (format_3f_finite _ H2) as (s2 & E2 & F2).
  destruct (format_3f_finite _ H3) as (s3 & E3 & F3).
  destruct (format_3f_finite _ H4) as (s4 & E4 & F4).
  rewrite get_message_report, str_report, E1, E2, E3, E4. cbn [bind].
  split; exists s1, s2, s3, s4; repeat split; assumption.
Qed.

(** ** The two scripts compared *)

Lemma classes_agree : forall t,
  Homework.get_distance t = OopRefactor.get_distance (to_refactor t)
  /\ Homework.get_mean_speed t = OopRefactor.get_mean_speed (to_refactor t)
  /\ Homework.get_spent_calories t
     = OopRefactor.get_spent_calories (to_refactor t).
Proof. intros []; repeat split; reflexivity. Qed.

Lemma instantiate_agree : forall c data,
  map_result to_refactor (Homework.instantiate c data)
  = OopRefactor.instantiate (refactor_class c) data.
Proof.
  intros c data.
  destruct c; destruct data as [|? [|? [|? [|? [|? [|? ?]]]]]]; reflexivity.
Qed.

Lemma show_agree : forall t,
  map_result fields_of_homework (Homework.show_training_info t)
  = map_result fields_of_refactor
      (OopRefactor.show_training_info (to_refactor t)).
Proof.
  intros t. unfold Homework.show_training_info, OopRefactor.show_training_info.
  destruct (classes_agree t) as (E1 & E2 & E3). rewrite <- E1, <- E2, <- E3.
  destruct (Homework.get_distance t); [|reflexivity].
  destruct (Homework.get_mean_speed t); [|reflexivity].
  destruct (Homework.get_spent_calories t); [|reflexivity].
  destruct t; reflexivity.
Qed.

Lemma messages_agree : forall hm om,
  fields_of_homework hm = fields_of_refactor om ->
  Homework.InfoMessage.get_message hm = OopRefactor.InfoMessage.__str__ om.
Proof.
  intros [ty du di sp ca] [ty' du' di' sp' ca'] E.
  unfold fields_of_homework, fields_of_refactor in E. cbn in E.
  inversion E; subst.
  rewrite get_message_report, str_report. reflexivity.
Qed.

Lemma summary_agree : forall t out,
  Homework.main (Some t) out
  = (info <~ eval (OopRefactor.show_training_info (to_refactor t)) ;;
     line <~ eval (OopRefactor.InfoMessage.__str__ info) ;;
     print line) out.
Proof.
  intros t out. unfold Homework.main, io_bind, eval.
  pose proof (show_agree t) as S.
  destruct (Homework.show_training_info t) as [hm|e];
    destruct (OopRefactor.show_training_info (to_refactor t)) as [om|e'];
    cbn in S; try discriminate.
  - assert (F : fields_of_homework hm = fields_of_refactor om)
      by congruence.
    rewrite (@messages_agree hm om F). reflexivity.
  - inversion S; subst. reflexivity.
Qed.

(** C9: on a recognized type code the two scripts select classes that stand
    for each other, build instances that stand for each other, compute the
    same distance, mean speed and calories, make records with equal fields,
    render records with equal fields as the same line, and so write the
    same line or raise the same exception. *)
Theorem scripts_agree : forall code data,
  Spec.recognized code ->
  (exists c,
     dict_get code Homework.workout_code = Some c
     /\ dict_get code OopRefactor.workout_code = Some (refactor_class c)
     /\ map_result to_refactor (Homework.instantiate c data)
        = OopRefactor.instantiate (refactor_class c) data)
  /\ (forall t,
        Homework.get_distance t = OopRefactor.get_distance (to_refactor t)
        /\ Homework.get_mean_speed t
           = OopRefactor.get_mean_speed (to_refactor t)
        /\ Homework.get_spent_calories t
           = OopRefactor.get_spent_calories (to_refactor t))
  /\ (forall t,
        map_result fields_of_homework (Homework.show_training_info t)
        = map_result fields_of_refactor
            (OopRefactor.show_training_info (to_refactor t)))
  /\ (forall hm om,
        fields_of_homework hm = fields_of_refactor om ->
        Homework.InfoMessage.get_message hm
        = OopRefactor.InfoMessage.__str__ om)
  /\ (forall out,
        (t <~ Homework.read_package code data ;; Homework.main t) out
        = OopRefactor.read_package code data out).
Proof.
  intros code data Hc.
  assert (L : exists c,
    dict_get code Homework.workout_code = Some c
    /\ dict_get code OopRefactor.workout_code = Some (refactor_class c)).
  { apply recognized_cases in Hc. destruct Hc as [-> | [-> | ->]].
    - exists Homework.Swimming. split; reflexivity.
    - exists Homework.Running. split; reflexivity.
    - exists Homework.SportsWalking. split; reflexivity. }
  destruct L as (c & L1 & L2).
  split; [exists c; repeat split; try assumption; apply instantiate_agree|].
  split; [apply classes_agree|]. split; [apply show_agree|].
  split; [apply messages_agree|].
  intros out. unfold Homework.read_package, OopRefactor.read_package.
  rewrite L1, L2, <- instantiate_agree.
  unfold io_bind at 1 2 4. unfold eval at 1 3.
  destruct (Homework.instantiate c data) as [t|e]; cbn [map_result bind];
    [|reflexivity].
  unfold io_ret. apply summary_agree.
Qed.

(** ** Mean speed against distance *)

Lemma homework_record_parts : forall t r,
  Homework.show_training_info t = Ok r ->
  Homework.get_distance t = Ok (Homework.InfoMessage.distance r)
  /\ Homework.get_mean_speed t = Ok (Homework.InfoMessage.speed r)
  /\ Homework.get_spent_calories t = Ok (Homework.InfoMessage.calories r)
  /\ Homework.InfoMessage.duration r = Homework.duration t.
Proof.
  intros t r. unfold Homework.show_training_info.
  destruct (Homework.get_distance t); [|discriminate].
  destruct (Homework.get_mean_speed t); [|discriminate].
  destruct (Homework.get_spent_calories t); [|discriminate].
  cbn [bind]. intros H. inversion H; subst. repeat split; reflexivity.
Qed.

Lemma refactor_record_parts : forall t r,
  OopRefactor.show_training_info t = Ok r ->
  OopRefactor.get_distance t = Ok (OopRefactor.InfoMessage.distance r)
  /\ OopRefactor.get_mean_speed t = Ok (OopRefactor.InfoMessage.speed r)
  /\ OopRefactor.get_spent_calories t
     = Ok (OopRefactor.InfoMessage.calories r)
  /\ OopRefactor.InfoMessage.duration r = OopRefactor.duration t.
Proof.
  intros t r. unfold OopRefactor.show_training_info.
  destruct (OopRefactor.get_distance t); [|discriminate].
  destruct (OopRefactor.get_mean_speed t); [|discriminate].
  destruct (OopRefactor.get_spent_calories t); [|discriminate].
  cbn [bind]. intros H. inversion H; subst. repeat split; reflexivity.
Qed.

(** A record whose class inherits [get_mean_speed] has the mean speed
    [distance / duration]. *)
Lemma homework_inherited_speed : forall t r,
  Homework.type_of t <> Homework.Swimming ->
  Homework.show_training_info t = Ok r ->
  Homework.InfoMessage.distance r / Homework.InfoMessage.duration r
  = Homework.InfoMessage.speed r.
Proof.
  intros t r Ht H.
  destruct (homework_record_parts _ H) as (D & S & _ & U).
  unfold ret_num. rewrite U, <- S. unfold Homework.get_mean_speed.
  destruct (Homework.type_of t); try contradiction;
    unfold Homework.Training_get_mean_speed; rewrite D; reflexivity.
Qed.

Lemma refactor_inherited_speed : forall t r,
  OopRefactor.type_of t <> OopRefactor.Swimming ->
  OopRefactor.show_training_info t = Ok r ->
  OopRefactor.InfoMessage.distance r / OopRefactor.InfoMessage.duration r
  = OopRefactor.InfoMessage.speed r.
Proof.
  intros t r Ht H.
  destruct (refactor_record_parts _ H) as (D & S & _ & U).
  unfold ret_num. rewrite U, <- S. unfold OopRefactor.get_mean_speed.
  destruct (OopRefactor.type_of t); try contradiction;
    unfold OopRefactor.Training_get_mean_speed; rewrite D; reflexivity.
Qed.

(** C10: with a positive duration the record of a running or of a sports
    walking has [speed = distance / duration] (the quotient is that very
    float), in both scripts, and the
    record of a running is produced unless the arithmetic overflows, as it
    does not on moderate inputs.  The
    record of the sample swimming has the stroke-based distance
    0.9935999999999999, which is 0.9936 up to rounding, and the pool-based
    speed 1.0, so the relation fails for it. *)
Theorem speed_is_distance_over_duration : forall a d w h : num,
  gt0 d = true ->
  (forall r,
     Homework.show_training_info (Homework.new_Running a d w) = Ok r
     \/ Homework.show_training_info (Homework.new_SportsWalking a d w h)
        = Ok r ->
     Homework.InfoMessage.distance r / Homework.InfoMessage.duration r
     = Homework.InfoMessage.speed r)
  /\ (forall r,
        OopRefactor.show_training_info (OopRefactor.new_Running a d w) = Ok r
        \/ OopRefactor.show_training_info
             (OopRefactor.new_SportsWalking a d w h) = Ok r ->
        OopRefactor.InfoMessage.distance r / OopRefactor.InfoMessage.duration r
        = OopRefactor.InfoMessage.speed r)
  /\ ((exists r,
         Homework.show_training_info (Homework.new_Running a d w) = Ok r)
      \/ Homework.show_training_info (Homework.new_Running a d w)
         = Raise OverflowError)
  /\ (Spec.moderate a -> Spec.moderate d -> Spec.moderate w ->
      exists r,
        Homework.show_training_info (Homework.new_Running a d w) = Ok r)
  /\ (Homework.show_training_info (Homework.new_Swimming 720 1 80 25 40)
      = Ok (Homework.InfoMessage.new "Swimming" 1 0.9935999999999999 1.0
              336.0)
      /\ OopRefactor.show_training_info
           (OopRefactor.new_Swimming 720 1 80 25 40)
         = Ok (OopRefactor.InfoMessage.new "Swimming" 1 0.9935999999999999
                 1.0 336.0)
      /\ 0.9935999999999999 / 1 <> 1.0
      /\ (exists q,
            to_float 0.9935999999999999 = Ok q
            /\ exists x, exact q = Some x
                         /\ (0.993599999999999 < x /\ x < 0.9936)%Q)).
Proof.
  intros a d w h Hd.
  split; [|split; [|split; [|split]]].
  - intros r [H|H]; (eapply homework_inherited_speed; [|exact H]);
      discriminate.
  - intros r [H|H]; (eapply refactor_inherited_speed; [|exact H]);
      discriminate.
  - unfold Homework.show_training_info.
    assert (D : Spec.returns_or_overflows
                  (Homework.get_distance (Homework.new_Running a d w))).
    { change (Spec.returns_or_overflows (a * 0.65 / 1000)). safe_arith. }
    assert (S : Spec.returns_or_overflows
                  (Homework.get_mean_speed (Homework.new_Running a d w))).
    { change (Spec.returns_or_overflows ((a * 0.65 / 1000) / d)).
      safe_arith. }
    assert (C : Spec.returns_or_overflows
                  (Homework.get_spent_calories (Homework.new_Running a d w))).
    { change (Spec.returns_or_overflows
                (Spec.runningCalories (Spec.defaultMeanSpeedKmh a d) w d)).
      unfold Spec.runningCalories, Spec.defaultMeanSpeedKmh. safe_arith. }
    destruct D as [[x ->] | ->]; [|right; reflexivity].
    destruct S as [[y ->] | ->]; [|right; reflexivity].
    destruct C as [[z ->] | ->]; [|right; reflexivity].
    left. eexists. reflexivity.
  - intros Ma Md Mw. unfold Homework.show_training_info.
    assert (D : Spec.returns_float
                  (Homework.get_distance (Homework.new_Running a d w))).
    { change (Spec.returns_float (Spec.getDistanceKm a 0.65)).
      apply distance_returns_float; assumption. }
    assert (S : Spec.returns_float
                  (Homework.get_mean_speed (Homework.new_Running a d w))).
    { change (Spec.returns_float (Spec.defaultMeanSpeedKmh a d)).
      apply default_speed_returns_float; assumption. }
    assert (C : Spec.returns_float
                  (Homework.get_spent_calories (Homework.new_Running a d w))).
    { change (Spec.returns_float
                (Spec.runningCalories (Spec.defaultMeanSpeedKmh a d) w d)).
      apply running_returns_float; assumption. }
    destruct D as [x ->], S as [y ->], C as [z ->]. eexists. reflexivity.
  - split; [vm_compute; reflexivity|]. split; [vm_compute; reflexivity|].
    split; [vm_compute; discriminate|].
    eexists. split; [reflexivity|]. eexists. split; [reflexivity|].
    split; vm_compute; reflexivity.
Qed.

(** * Further properties *)

(** ** Construction *)

(** X1: a class called on a list binds its elements in order: the first
    three are [action], [duration] and [weight], the fourth is the [height]
    of a sports walking or the [length_pool] of a swimming, the fifth the
    [count_pool] of a swimming, and no other instance has these attributes;
    both scripts build the same instance. *)
Theorem instantiate_binds_in_order : forall c data t,
  Homework.instantiate c data = Ok t ->
  Homework.type_of t = c
  /\ nth_error data 0 = Some (Homework.action t)
  /\ nth_error data 1 = Some (Homework.duration t)
  /\ nth_error data 2 = Some (Homework.weight t)
  /\ (forall h, Homework.height t = Ok h
                <-> c = Homework.SportsWalking /\ nth_error data 3 = Some h)
  /\ (forall l, Homework.length_pool t = Ok l
                <-> c = Homework.Swimming /\ nth_error data 3 = Some l)
  /\ (forall n, Homework.count_pool t = Ok n
                <-> c = Homework.Swimming /\ nth_error data 4 = Some n)
  /\ OopRefactor.instantiate (refactor_class c) data = Ok (to_refactor t).
Proof.
  intros c data t H.
  destruct c; destruct data as [|? [|? [|? [|? [|? [|? ?]]]]]];
    try discriminate H; cbn in H; inversion H; subst; cbn;
    repeat split; try reflexivity; intros; intuition congruence.
Qed.

(** ** Exceptions *)

Lemma to_float_raises : forall v,
  More.raises_only (fun e => e = OverflowError) (to_float v).
Proof.
  intros v e H. destruct (to_float_cases v) as [[f E]|E]; congruence.
Qed.

Lemma value_arith : forall v : num, More.raises_only More.arithmetic v.
Proof. intros v e H. discriminate H. Qed.

Lemma class_value_arith : forall v : num,
  More.raises_only More.arithmetic (Ok v).
Proof. intros v e H. discriminate H. Qed.

Lemma lift2_arith : forall op x y,
  (forall a b, More.raises_only More.arithmetic (op a b)) ->
  More.raises_only More.arithmetic x -> More.raises_only More.arithmetic y ->
  More.raises_only More.arithmetic (lift2 op x y).
Proof.
  intros op x y Hop Hx Hy e. unfold lift2.
  destruct x as [a|ex]; cbn [bind]; [|intros H; apply Hx; assumption].
  destruct y as [b|ey]; cbn [bind]; [|intros H; apply Hy; assumption].
  apply Hop.
Qed.

Lemma py_mul_arith : forall a b : num,
  More.raises_only More.arithmetic (py_mul a b).
Proof.
  intros a b e H. right.
  destruct (@mul_safe a b (value_safe a) (value_safe b)) as [[v E]|E];
    unfold lift2, ret_num in E; cbn [bind] in E; congruence.
Qed.

Lemma py_add_arith : forall a b : num,
  More.raises_only More.arithmetic (py_add a b).
Proof.
  intros a b e H. right.
  destruct (@add_safe a b (value_safe a) (value_safe b)) as [[v E]|E];
    unfold lift2, ret_num in E; cbn [bind] in E; congruence.
Qed.

Lemma py_truediv_arith : forall a b,
  More.raises_only More.arithmetic (py_truediv a b).
Proof.
  intros a b e. unfold More.arithmetic.
  destruct a as [p|f], b as [q|g]; cbn [py_truediv to_float bind].
  - unfold int_true_divide. destruct (q =? 0)%Z; cbn [bind];
      [intros H; inversion H; auto|].
    destruct (finite_or_overflow_cases (ratio_to_float p q)) as [[u ->]| ->];
      cbn [bind]; intros H; inversion H; auto.
  - destruct (to_float_cases (PyInt p)) as [[u E]|E]; cbn [to_float] in E;
      rewrite E; cbn [bind]; [|intros H; inversion H; auto].
    destruct (is_zero g); intros H; inversion H; auto.
  - destruct (to_float_cases (PyInt q)) as [[u E]|E]; cbn [to_float] in E;
      rewrite E; cbn [bind]; [|intros H; inversion H; auto].
    destruct (is_zero u); intros H; inversion H; auto.
  - destruct (is_zero g); intros H; inversion H; auto.
Qed.

Lemma mul_arith : forall x y,
  More.raises_only More.arithmetic x -> More.raises_only More.arithmetic y ->
  More.raises_only More.arithmetic (x * y).
Proof.
  intros x y. apply lift2_arith. apply py_mul_arith.
Qed.

Lemma add_arith : forall x y,
  More.raises_only More.arithmetic x -> More.raises_only More.arithmetic y ->
  More.raises_only More.arithmetic (x + y).
Proof.
  intros x y. apply lift2_arith. apply py_add_arith.
Qed.

Lemma div_arith : forall x y,
  More.raises_only More.arithmetic x -> More.raises_only More.arithmetic y ->
  More.raises_only More.arithmetic (x / y).
Proof. intros x y. apply lift2_arith. apply py_truediv_arith. Qed.

Lemma pow2_arith : forall x,
  More.raises_only More.arithmetic x ->
  More.raises_only More.arithmetic (x ** 2).
Proof.
  intros x Hx e. destruct x as [a|ex]; cbn [bind];
    [|intros H; apply Hx; assumption].
  intros H. right.
  destruct (@pow2_safe a (value_safe a)) as [[v E]|E];
    unfold ret_num in *; cbn [bind] in E; congruence.
Qed.

Ltac arith := repeat first
  [ apply value_arith | apply class_value_arith | apply mul_arith
  | apply add_arith | apply div_arith | apply pow2_arith ].

(** The methods of the three variants raise nothing but the exceptions of
    the arithmetic. *)
Lemma homework_methods_arith : forall t,
  Homework.type_of t <> Homework.Training ->
  More.raises_only More.arithmetic (Homework.get_distance t)
  /\ More.raises_only More.arithmetic (Homework.get_mean_speed t)
  /\ More.raises_only More.arithmetic (Homework.get_spent_calories t).
Proof.
  intros [a d w|a d w|a d w h|a d w l c] Ht; [contradiction| | |];
    repeat split.
  - change (More.raises_only More.arithmetic (Spec.getDistanceKm a 0.65)).
    unfold Spec.getDistanceKm. arith.
  - change (More.raises_only More.arithmetic (Spec.defaultMeanSpeedKmh a d)).
    unfold Spec.defaultMeanSpeedKmh. arith.
  - change (More.raises_only More.arithmetic
              (Spec.runningCalories (Spec.defaultMeanSpeedKmh a d) w d)).
    unfold Spec.runningCalories, Spec.defaultMeanSpeedKmh. arith.
  - change (More.raises_only More.arithmetic (Spec.getDistanceKm a 0.65)).
    unfold Spec.getDistanceKm. arith.
  - change (More.raises_only More.arithmetic (Spec.defaultMeanSpeedKmh a d)).
    unfold Spec.defaultMeanSpeedKmh. arith.
  - change (More.raises_only More.arithmetic
              (Spec.sportsWalkingCalories
                 (Spec.defaultMeanSpeedKmh a d) w h d)).
    unfold Spec.sportsWalkingCalories, Spec.defaultMeanSpeedKmh. arith.
  - change (More.raises_only More.arithmetic (Spec.getDistanceKm a 1.38)).
    unfold Spec.getDistanceKm. arith.
  - change (More.raises_only More.arithmetic (Spec.poolMeanSpeedKmh l c d)).
    unfold Spec.poolMeanSpeedKmh. arith.
  - change (More.raises_only More.arithmetic
              (Spec.swimmingCalories (Spec.poolMeanSpeedKmh l c d) w d)).
    unfold Spec.swimmingCalories, Spec.poolMeanSpeedKmh. arith.
Qed.

Lemma refactor_show_arith : forall t,
  Homework.type_of t <> Homework.Training ->
  More.raises_only More.arithmetic
    (OopRefactor.show_training_info (to_refactor t)).
Proof.
  intros t Ht e. unfold OopRefactor.show_training_info.
  destruct (classes_agree t) as (E1 & E2 & E3). rewrite <- E1, <- E2, <- E3.
  destruct (@homework_methods_arith t Ht) as (D & S & C).
  destruct (Homework.get_distance t) as [x|ex]; cbn [bind];
    [|intros H; inversion H; subst; apply D; reflexivity].
  destruct (Homework.get_mean_speed t) as [y|ey]; cbn [bind];
    [|intros H; inversion H; subst; apply S; reflexivity].
  destruct (Homework.get_spent_calories t) as [z|ez]; cbn [bind];
    [discriminate|intros H; inversion H; subst; apply C; reflexivity].
Qed.

Lemma str_raises : forall m,
  More.raises_only (fun e => e = OverflowError)
    (OopRefactor.InfoMessage.__str__ m).
Proof.
  intros [ty du di sp ca] e. rewrite str_report.
  assert (F : forall v, More.raises_only (fun e => e = OverflowError)
                          (format_3f v)).
  { intros v e' H. unfold format_3f in H.
    destruct (to_float_cases v) as [[f E]|E]; rewrite E in H;
      cbn [bind] in H; congruence. }
  destruct (format_3f du) eqn:E1; cbn [bind];
    [|intros H; inversion H; subst; apply (F du); assumption].
  destruct (format_3f di) eqn:E2; cbn [bind];
    [|intros H; inversion H; subst; apply (F di); assumption].
  destruct (format_3f sp) eqn:E3; cbn [bind];
    [|intros H; inversion H; subst; apply (F sp); assumption].
  destruct (format_3f ca) eqn:E4; cbn [bind];
    [|intros H; inversion H; subst; apply (F ca); assumption].
  discriminate.
Qed.

Lemma workout_code_classes : forall code c,
  dict_get code Homework.workout_code = Some c ->
  Spec.recognized code /\ c <> Homework.Training
  /\ dict_get code OopRefactor.workout_code = Some (refactor_class c).
Proof.
  intros code c. unfold Homework.workout_code, OopRefactor.workout_code.
  cbn [dict_get]. rewrite recognized_cases.
  destruct (String.eqb_spec code "SWM");
    [intros H; inversion H; subst; repeat split; auto; discriminate|].
  destruct (String.eqb_spec code "RUN");
    [intros H; inversion H; subst; repeat split; auto; discriminate|].
  destruct (String.eqb_spec code "WLK");
    [intros H; inversion H; subst; repeat split; auto; discriminate|].
  discriminate.
Qed.

Lemma refactor_lookup : forall code,
  dict_get code OopRefactor.workout_code
  = option_map refactor_class (dict_get code Homework.workout_code).
Proof.
  intros code. unfold Homework.workout_code, OopRefactor.workout_code.
  cbn [dict_get].
  destruct (code =? "SWM")%string; [reflexivity|].
  destruct (code =? "RUN")%string; [reflexivity|].
  destruct (code =? "WLK")%string; reflexivity.
Qed.

Lemma instantiate_raises : forall c data,
  More.raises_only (fun e => e = TypeError) (Homework.instantiate c data).
Proof.
  intros c data e.
  destruct c; destruct data as [|? [|? [|? [|? [|? [|? ?]]]]]]; cbn;
    intros H; inversion H; reflexivity.
Qed.

Lemma instantiate_type : forall c data t,
  Homework.instantiate c data = Ok t -> Homework.type_of t = c.
Proof.
  intros c data t.
  destruct c; destruct data as [|? [|? [|? [|? [|? [|? ?]]]]]]; cbn;
    intros H; inversion H; reflexivity.
Qed.

(** What [read_package] of [oop_refactor.py] does, case by case. *)
Lemma refactor_read_package_cases : forall code data out,
  (~ Spec.recognized code
   /\ OopRefactor.read_package code data out
      = ((out ++ [Spec.warning])%list, Ok tt))
  \/ (Spec.recognized code
      /\ exists e,
           (e = TypeError \/ More.arithmetic e)
           /\ OopRefactor.read_package code data out = (out, Raise e))
  \/ (Spec.recognized code
      /\ exists c t m line,
           dict_get code Homework.workout_code = Some c
           /\ Homework.instantiate c data = Ok t
           /\ OopRefactor.show_training_info (to_refactor t) = Ok m
           /\ OopRefactor.InfoMessage.__str__ m = Ok line
           /\ OopRefactor.read_package code data out
              = ((out ++ [line])%list, Ok tt)).
Proof.
  intros code data out.
  destruct (dict_get code Homework.workout_code) as [c|] eqn:L.
  - destruct (@workout_code_classes _ _ L) as (R & Nc & L').
    right. unfold OopRefactor.read_package. rewrite L'.
    rewrite <- instantiate_agree. unfold io_bind, eval.
    destruct (Homework.instantiate c data) as [t|e] eqn:I;
      cbn [map_result bind].
    + pose proof (@instantiate_type _ _ _ I) as Ty.
      assert (Nt : Homework.type_of t <> Homework.Training) by congruence.
      destruct (OopRefactor.show_training_info (to_refactor t)) as [m|e] eqn:S.
      * destruct (OopRefactor.InfoMessage.__str__ m) as [line|e] eqn:M.
        -- right. split; [assumption|]. exists c, t, m, line.
           repeat split; assumption || reflexivity.
        -- left. split; [assumption|]. exists e. split; [|reflexivity].
           right. right. eapply str_raises; exact M.
      * left. split; [assumption|]. exists e. split; [|reflexivity].
        right. eapply refactor_show_arith; [exact Nt|exact S].
    + left. split; [assumption|]. exists e. split; [|reflexivity].
      left. eapply instantiate_raises; exact I.
  - left.
    assert (N : ~ Spec.recognized code).
    { rewrite recognized_cases. intros [-> | [-> | ->]]; discriminate L. }
    split; [assumption|]. apply (read_package_unknown data out N).
Qed.

(** On a recognized code the loop body of [homework.py] does what
    [read_package] of [oop_refactor.py] does. *)
Lemma pipeline_agree : forall code data out,
  Spec.recognized code ->
  (t <~ Homework.read_package code data ;; Homework.main t) out
  = OopRefactor.read_package code data out.
Proof.
  intros code data out R.
  unfold Homework.read_package, OopRefactor.read_package.
  rewrite refactor_lookup.
  destruct (dict_get code Homework.workout_code) as [c|] eqn:L.
  - cbn [option_map]. rewrite <- instantiate_agree.
    unfold io_bind at 1 2 4. unfold eval at 1 3.
    destruct (Homework.instantiate c data) as [t|e]; cbn [map_result bind];
      [|reflexivity].
    unfold io_ret. apply summary_agree.
  - exfalso. apply recognized_cases in R.
    destruct R as [-> | [-> | ->]]; discriminate L.
Qed.

Lemma pipeline_unknown : forall code data out,
  ~ Spec.recognized code ->
  (t <~ Homework.read_package code data ;; Homework.main t) out
  = ((out ++ [Spec.warning])%list, Raise AttributeError).
Proof.
  intros code data out N. unfold io_bind.
  destruct (read_package_unknown data out N) as [-> _]. reflexivity.
Qed.

Lemma recognized_dec : forall code,
  Spec.recognized code \/ ~ Spec.recognized code.
Proof.
  intros code. rewrite recognized_cases.
  destruct (String.eqb_spec code "SWM"); [auto|].
  destruct (String.eqb_spec code "RUN"); [auto|].
  destruct (String.eqb_spec code "WLK"); [auto|].
  right. intros [H|[H|H]]; contradiction.
Qed.

(** X2: a package that fails writes nothing, and fails in one of three
    ways: [read_package] of [oop_refactor.py] raises only on a recognized
    code, and only [TypeError], [ZeroDivisionError] or [OverflowError]; the
    loop body of [homework.py] does the same on a recognized code and, on
    any other code, raises [AttributeError] after the warning. *)
Theorem failing_package_writes_nothing : forall code data out out' e,
  (OopRefactor.read_package code data out = (out', Raise e) ->
   out' = out /\ Spec.recognized code
   /\ (e = TypeError \/ e = ZeroDivisionError \/ e = OverflowError))
  /\ ((t <~ Homework.read_package code data ;; Homework.main t) out
      = (out', Raise e) ->
      (Spec.recognized code /\ out' = out
       /\ (e = TypeError \/ e = ZeroDivisionError \/ e = OverflowError))
      \/ (~ Spec.recognized code /\ out' = (out ++ [Spec.warning])%list
          /\ e = AttributeError)).
Proof.
  intros code data out out' e.
  assert (A : OopRefactor.read_package code data out = (out', Raise e) ->
              out' = out /\ Spec.recognized code
              /\ (e = TypeError \/ e = ZeroDivisionError
                  \/ e = OverflowError)).
  { intros H.
    destruct (refactor_read_package_cases code data out)
      as [(_ & E)|[(R & e' & He & E)
                  |(_ & c & t & m & line & _ & _ & _ & _ & E)]];
      rewrite E in H; inversion H; subst.
    split; [reflexivity|]. split; [assumption|].
    unfold More.arithmetic in He. tauto. }
  split; [exact A|].
  intros H. destruct (recognized_dec code) as [R|N].
  - left. rewrite (pipeline_agree data out R) in H.
    destruct (A H) as (E1 & _ & E2). auto.
  - right. rewrite (pipeline_unknown data out N) in H.
    inversion H; subst. auto.
Qed.

Lemma str_is_report : forall m line,
  OopRefactor.InfoMessage.__str__ m = Ok line ->
  exists du di sp ca,
    format_3f (OopRefactor.InfoMessage.duration m) = Ok du
    /\ format_3f (OopRefactor.InfoMessage.distance m) = Ok di
    /\ format_3f (OopRefactor.InfoMessage.speed m) = Ok sp
    /\ format_3f (OopRefactor.InfoMessage.calories m) = Ok ca
    /\ line = Spec.report (OopRefactor.InfoMessage.training_type m)
                du di sp ca.
Proof.
  intros [ty d i s c] line. rewrite str_report. cbn.
  destruct (format_3f d) as [du|]; [|discriminate].
  destruct (format_3f i) as [di|]; [|discriminate].
  destruct (format_3f s) as [sp|]; [|discriminate].
  destruct (format_3f c) as [ca|]; [|discriminate].
  cbn [bind]. intros H. inversion H. exists du, di, sp, ca. auto.
Qed.

(** X3: [read_package] of [oop_refactor.py] that returns has written exactly
    one line, and that line is the warning exactly when the type code is
    not one of the three recognized ones. *)
Theorem returning_package_writes_one_line : forall code data out out',
  OopRefactor.read_package code data out = (out', Ok tt) ->
  exists line,
    out' = (out ++ [line])%list
    /\ (line = Spec.warning <-> ~ Spec.recognized code).
Proof.
  intros code data out out' H.
  destruct (refactor_read_package_cases code data out)
    as [(N & E)|[(R & e' & He & E)|(R & c & t & m & line & _ & _ & _ & M & E)]];
    rewrite E in H; inversion H; subst.
  - exists Spec.warning. split; [reflexivity|]. tauto.
  - exists line. split; [reflexivity|].
    destruct (str_is_report _ M) as (du & di & sp & ca & _ & _ & _ & _ & ->).
    split; [intros W; exfalso; exact (report_is_not_warning W)|tauto].
Qed.

Lemma refactor_record_type : forall t m,
  OopRefactor.show_training_info t = Ok m ->
  OopRefactor.InfoMessage.training_type m
  = OopRefactor.__name__ (OopRefactor.type_of t).
Proof.
  intros t m. unfold OopRefactor.show_training_info.
  destruct (OopRefactor.get_distance t); [|discriminate].
  destruct (OopRefactor.get_mean_speed t); [|discriminate].
  destruct (OopRefactor.get_spent_calories t); [|discriminate].
  cbn [bind]. intros H. inversion H. reflexivity.
Qed.

Lemma instantiate_duration : forall c data t,
  Homework.instantiate c data = Ok t ->
  nth_error data 1 = Some (Homework.duration t).
Proof.
  intros c data t.
  destruct c; destruct data as [|? [|? [|? [|? [|? [|? ?]]]]]]; cbn;
    intros H; inversion H; reflexivity.
Qed.

Lemma type_name_class : forall code c name,
  dict_get code Homework.workout_code = Some c ->
  More.type_name code = Some name ->
  OopRefactor.__name__ (refactor_class c) = name.
Proof.
  intros code c name. unfold Homework.workout_code, More.type_name.
  cbn [dict_get].
  destruct (code =? "SWM")%string;
    [intros H N; inversion H; inversion N; reflexivity|].
  destruct (code =? "RUN")%string;
    [intros H N; inversion H; inversion N; reflexivity|].
  destruct (code =? "WLK")%string;
    [intros H N; inversion H; inversion N; reflexivity|].
  discriminate.
Qed.

Lemma to_refactor_type : forall t,
  OopRefactor.type_of (to_refactor t) = refactor_class (Homework.type_of t).
Proof. intros []; reflexivity. Qed.

Lemma to_refactor_duration : forall t,
  OopRefactor.duration (to_refactor t) = Homework.duration t.
Proof. intros []; reflexivity. Qed.

(** X4: the line [read_package] of [oop_refactor.py] writes for SWM, RUN or
    WLK reports the class name Swimming, Running or SportsWalking, the
    duration as the second value of the data, rendered, and the distance,
    the mean speed and the calories of the instance built from the data;
    the loop body of [homework.py] writes the same line. *)
Theorem summary_reports_name_and_duration : forall code data out out' name,
  More.type_name code = Some name ->
  OopRefactor.read_package code data out = (out', Ok tt) ->
  (exists c t d du di sp ca,
     dict_get code OopRefactor.workout_code = Some c
     /\ OopRefactor.instantiate c data = Ok t
     /\ nth_error data 1 = Some d /\ format_3f d = Ok du
     /\ (x <- OopRefactor.get_distance t ;; format_3f x) = Ok di
     /\ (x <- OopRefactor.get_mean_speed t ;; format_3f x) = Ok sp
     /\ (x <- OopRefactor.get_spent_calories t ;; format_3f x) = Ok ca
     /\ out' = (out ++ [Spec.report name du di sp ca])%list)
  /\ (t <~ Homework.read_package code data ;; Homework.main t) out
     = (out', Ok tt).
Proof.
  intros code data out out' name Hn H.
  assert (R : Spec.recognized code).
  { rewrite recognized_cases. unfold More.type_name in Hn.
    destruct (String.eqb_spec code "SWM"); [auto|].
    destruct (String.eqb_spec code "RUN"); [auto|].
    destruct (String.eqb_spec code "WLK"); [auto|discriminate]. }
  split; [|rewrite (pipeline_agree data out R); exact H].
  destruct (refactor_read_package_cases code data out)
    as [(N & _)|[(_ & e' & _ & E)|(_ & c & t & m & line & L & I & S & M & E)]];
    [contradiction|rewrite E in H; discriminate H|].
  rewrite E in H. inversion H; subst out'.
  destruct (str_is_report _ M) as (du & di & sp & ca & F1 & F2 & F3 & F4 & ->).
  destruct (refactor_record_parts _ S) as (D1 & D2 & D3 & D4).
  rewrite (refactor_record_type _ S), to_refactor_type,
    (@instantiate_type _ _ _ I), (type_name_class _ L Hn).
  rewrite D4, to_refactor_duration in F1.
  exists (refactor_class c), (to_refactor t), (Homework.duration t),
    du, di, sp, ca.
  rewrite D1, D2, D3. cbn [bind].
  repeat split; try assumption.
  - rewrite refactor_lookup, L. reflexivity.
  - rewrite <- instantiate_agree, I. reflexivity.
  - apply (instantiate_duration _ _ I).
Qed.

(** ** Batches *)

Lemma refactor_read_package_appends : forall code data out out' r,
  OopRefactor.read_package code data out = (out', r) ->
  exists lines,
    out' = (out ++ lines)%list
    /\ match r with
       | Ok _ => List.length lines = 1%nat
       | Raise _ => lines = []
       end.
Proof.
  intros code data out out' r H.
  destruct (refactor_read_package_cases code data out)
    as [(_ & E)|[(_ & e' & _ & E)|(_ & c & t & m & line & _ & _ & _ & _ & E)]];
    rewrite E in H; inversion H; subst.
  - exists [Spec.warning]. split; reflexivity.
  - exists []. split; [symmetry; apply app_nil_r|reflexivity].
  - exists [line]. split; reflexivity.
Qed.

Lemma refactor_main_appends : forall packages out out' r,
  OopRefactor.main packages out = (out', r) ->
  exists lines,
    out' = (out ++ lines)%list
    /\ match r with
       | Ok rs => List.length lines = List.length packages
                  /\ List.length rs = List.length packages
       | Raise _ => (List.length lines < List.length packages)%nat
       end.
Proof.
  induction packages as [|[code data] rest IH]; intros out out' r H.
  - cbn in H. inversion H; subst. exists [].
    split; [symmetry; apply app_nil_r|]. cbn. auto.
  - cbn [OopRefactor.main] in H. unfold io_bind at 1 in H.
    destruct (OopRefactor.read_package code data out) as [out1 r1] eqn:E1.
    destruct (refactor_read_package_appends _ _ _ E1) as (l1 & -> & S1).
    destruct r1 as [[]|e].
    + unfold io_bind at 1 in H.
      destruct (OopRefactor.main rest (out ++ l1)%list) as [out2 r2] eqn:E2.
      destruct (IH _ _ _ E2) as (l2 & -> & S2).
      exists (l1 ++ l2)%list. rewrite app_assoc, length_app.
      destruct r2 as [rs|e]; unfold io_ret in H; inversion H; subst;
        (split; [reflexivity|]); cbn [List.length]; lia.
    + inversion H; subst. exists []. split; [reflexivity|]. cbn. lia.
Qed.

(** X5: [main] of [oop_refactor.py] only appends to the output; when it
    returns it has written exactly one line per package and returns one
    [None] per package; when it raises it has written one line for each
    package before the failing one, so fewer lines than packages. *)
Theorem main_writes_one_line_per_package : forall packages out,
  exists lines,
    fst (OopRefactor.main packages out) = (out ++ lines)%list
    /\ match snd (OopRefactor.main packages out) with
       | Ok rs => List.length lines = List.length packages
                  /\ List.length rs = List.length packages
       | Raise _ => (List.length lines < List.length packages)%nat
       end.
Proof.
  intros packages out.
  destruct (OopRefactor.main packages out) as [out' r] eqn:E.
  apply (refactor_main_appends _ _ E).
Qed.

Lemma io_bind_assoc : forall (A B C : Type) (c : io A) (f : A -> io B)
  (g : B -> io C) out,
  (y <~ (x <~ c ;; f x) ;; g y) out = (x <~ c ;; y <~ f x ;; g y) out.
Proof.
  intros A B C c f g out. unfold io_bind.
  destruct (c out) as [out1 [a|e]]; reflexivity.
Qed.

(** The loop of [homework.py], one package at a time. *)
Lemma homework_run_cons : forall code data rest out,
  Homework.run ((code, data) :: rest) out
  = (_ <~ (t <~ Homework.read_package code data ;; Homework.main t) ;;
     Homework.run rest) out.
Proof.
  intros code data rest out. cbn [Homework.run].
  symmetry. apply io_bind_assoc.
Qed.

Lemma homework_body_cases : forall code data out,
  (Spec.recognized code
   /\ exists line,
        line <> Spec.warning
        /\ (t <~ Homework.read_package code data ;; Homework.main t) out
           = ((out ++ [line])%list, Ok tt))
  \/ (Spec.recognized code
      /\ exists e,
           (t <~ Homework.read_package code data ;; Homework.main t) out
           = (out, Raise e))
  \/ (~ Spec.recognized code
      /\ (t <~ Homework.read_package code data ;; Homework.main t) out
         = ((out ++ [Spec.warning])%list, Raise AttributeError)).
Proof.
  intros code data out. destruct (recognized_dec code) as [R|N].
  - rewrite (pipeline_agree data out R).
    destruct (refactor_read_package_cases code data out)
      as [(N & _)|[(_ & e' & _ & E)
                  |(_ & c & t & m & line & _ & _ & _ & M & E)]];
      [contradiction| |].
    + right. left. split; [assumption|]. exists e'. exact E.
    + left. split; [assumption|]. exists line. split; [|exact E].
      destruct (str_is_report _ M) as (du & di & sp & ca & _ & _ & _ & _ & ->).
      apply report_is_not_warning.
  - right. right. split; [assumption|]. apply (pipeline_unknown data out N).
Qed.

Lemma homework_run_appends : forall packages out out' r,
  Homework.run packages out = (out', r) ->
  exists lines,
    out' = (out ++ lines)%list
    /\ match r with
       | Ok _ => List.length lines = List.length packages
                 /\ Forall (fun p => Spec.recognized (fst p)) packages
                 /\ ~ In Spec.warning lines
       | Raise _ => (List.length lines <= List.length packages)%nat
       end.
Proof.
  induction packages as [|[code data] rest IH]; intros out out' r H.
  - cbn in H. inversion H; subst. exists [].
    split; [symmetry; apply app_nil_r|]. cbn. auto.
  - rewrite homework_run_cons in H. unfold io_bind at 1 in H.
    destruct (homework_body_cases code data out)
      as [(R & line & W & E)|[(R & e & E)|(N & E)]]; rewrite E in H.
    + destruct (Homework.run rest (out ++ [line])%list) as [out2 r2] eqn:E2.
      destruct (IH _ _ _ E2) as (l2 & -> & S2). inversion H; subst.
      exists (line :: l2). rewrite <- app_assoc. split; [reflexivity|].
      destruct r as [u|e]; cbn [List.length]; [|lia].
      destruct S2 as (L & F & I). split; [lia|]. split.
      * constructor; assumption.
      * intros [C|C]; [exact (W C)|exact (I C)].
    + inversion H; subst. exists []. split; [symmetry; apply app_nil_r|].
      cbn. lia.
    + inversion H; subst. exists [Spec.warning]. split; [reflexivity|].
      cbn. lia.
Qed.

(** X6: the loop of [homework.py] only appends to the output; when it
    returns, every type code was a recognized one and it has written
    exactly one line per package, none of them the warning; when it raises
    it has written at most one line per package. *)
Theorem run_writes_one_summary_per_package : forall packages out,
  exists lines,
    fst (Homework.run packages out) = (out ++ lines)%list
    /\ match snd (Homework.run packages out) with
       | Ok _ => List.length lines = List.length packages
                 /\ Forall (fun p => Spec.recognized (fst p)) packages
                 /\ ~ In Spec.warning lines
       | Raise _ => (List.length lines <= List.length packages)%nat
       end.
Proof.
  intros packages out.
  destruct (Homework.run packages out) as [out' r] eqn:E.
  apply (homework_run_appends _ _ E).
Qed.

Lemma refactor_main_app : forall p q out,
  OopRefactor.main (p ++ q)%list out
  = (rs1 <~ OopRefactor.main p ;;
     rs2 <~ OopRefactor.main q ;;
     io_ret (rs1 ++ rs2)%list) out.
Proof.
  induction p as [|[code data] p IH]; intros q out.
  - cbn [app OopRefactor.main]. unfold io_bind, io_ret.
    destruct (OopRefactor.main q out) as [out' [rs|e]]; reflexivity.
  - cbn [app OopRefactor.main]. unfold io_bind, io_ret.
    destruct (OopRefactor.read_package code data out) as [out1 [r|e]];
      [|reflexivity].
    rewrite (IH q out1). unfold io_bind, io_ret.
    destruct (OopRefactor.main p out1) as [out2 [rs1|e]]; [|reflexivity].
    destruct (OopRefactor.main q out2) as [out3 [rs2|e]]; reflexivity.
Qed.

Lemma homework_run_app : forall p q out,
  Homework.run (p ++ q)%list out = (_ <~ Homework.run p ;; Homework.run q) out.
Proof.
  induction p as [|[code data] p IH]; intros q out.
  - reflexivity.
  - change ((((code, data) :: p) ++ q)%list)
      with ((code, data) :: (p ++ q))%list.
    rewrite homework_run_cons. unfold io_bind.
    rewrite homework_run_cons. unfold io_bind.
    destruct (Homework.read_package code data out) as [out0 [t|e]];
      [|reflexivity].
    destruct (Homework.main t out0) as [out1 [r|e]]; [|reflexivity].
    rewrite (IH q out1). reflexivity.
Qed.

(** X7: a batch split in two is processed as the first part followed by the
    second: [main] of [oop_refactor.py] on [p ++ q] runs [main] on [p] and
    then, unless that raised, on [q], and returns the two lists joined; the
    loop of [homework.py] composes in the same way. *)
Theorem batches_compose : forall p q out,
  OopRefactor.main (p ++ q)%list out
  = (rs1 <~ OopRefactor.main p ;;
     rs2 <~ OopRefactor.main q ;;
     io_ret (rs1 ++ rs2)%list) out
  /\ Homework.run (p ++ q)%list out
     = (_ <~ Homework.run p ;; Homework.run q) out.
Proof.
  intros p q out. split; [apply refactor_main_app|apply homework_run_app].
Qed.

Lemma homework_run_as_main : forall packages out,
  Forall (fun p => Spec.recognized (fst p)) packages ->
  Homework.run packages out
  = (fst (OopRefactor.main packages out),
     map_result (fun _ => tt) (snd (OopRefactor.main packages out))).
Proof.
  induction packages as [|[code data] rest IH]; intros out F.
  - reflexivity.
  - inversion F as [|? ? R F']; subst. cbn [fst] in R.
    rewrite homework_run_cons. cbn [OopRefactor.main]. unfold io_bind at 1.
    rewrite (pipeline_agree data out R). unfold io_bind, io_ret.
    destruct (OopRefactor.read_package code data out) as [out1 [[]|e]];
      [|reflexivity].
    rewrite (IH out1 F').
    destruct (OopRefactor.main rest out1) as [out2 [rs|e]]; reflexivity.
Qed.

(** X8: on a batch of recognized type codes the two scripts write the same
    lines, and either both return or both raise the same exception. *)
Theorem batches_agree : forall packages out,
  Forall (fun p => Spec.recognized (fst p)) packages ->
  fst (Homework.run packages out) = fst (OopRefactor.main packages out)
  /\ snd (Homework.run packages out)
     = map_result (fun _ => tt) (snd (OopRefactor.main packages out)).
Proof.
  intros packages out F. rewrite (homework_run_as_main out F).
  split; reflexivity.
Qed.

(** The line of the sample sports walking. *)
Lemma walking_sample_line : within_one_ulp libm -> forall out,
  OopRefactor.read_package "WLK" [9000; 1; 75; 180] out
  = ((out ++ [Spec.report "SportsWalking" "1.000" "5.850" "5.850"
                "349.252"])%list, Ok tt).
Proof.
  intros A out. destruct (walking_sample_calories A) as (c & E & F).
  unfold OopRefactor.read_package.
  cbn [dict_get OopRefactor.workout_code String.eqb Ascii.eqb Bool.eqb
       OopRefactor.instantiate].
  unfold io_bind, eval, OopRefactor.show_training_info.
  change (OopRefactor.get_spent_calories
            (OopRefactor.new_SportsWalking 9000 1 75 180))
    with (Spec.sportsWalkingCalories (Spec.defaultMeanSpeedKmh 9000 1)
            75 180 1).
  rewrite E.
  replace (OopRefactor.get_distance
             (OopRefactor.new_SportsWalking 9000 1 75 180))
    with (ret_num 5.85) by (vm_compute; reflexivity).
  replace (OopRefactor.get_mean_speed
             (OopRefactor.new_SportsWalking 9000 1 75 180))
    with (ret_num 5.85) by (vm_compute; reflexivity).
  unfold ret_num. cbn [bind OopRefactor.duration OopRefactor.type_of].
  rewrite str_report, F.
  replace (format_3f 1) with (Ok "1.000") by (vm_compute; reflexivity).
  replace (format_3f 5.85) with (Ok "5.850") by (vm_compute; reflexivity).
  reflexivity.
Qed.

(** What the scripts write on their own packages, over a library accurate
    to one unit in the last place. *)
Example sample_batch : within_one_ulp libm ->
  Homework.run Homework.packages []
  = ([Spec.report "Swimming" "1.000" "0.994" "1.000" "336.000";
      Spec.report "Running" "1.000" "9.750" "9.750" "797.805";
      Spec.report "SportsWalking" "1.000" "5.850" "5.850" "349.252"],
     Ok tt)
  /\ OopRefactor.main OopRefactor.packages []
     = ([Spec.report "Swimming" "1.000" "0.994" "1.000" "336.000";
         Spec.report "Running" "1.000" "9.750" "9.750" "797.805";
         Spec.report "SportsWalking" "1.000" "5.850" "5.850" "349.252"],
        Ok [tt; tt; tt]).
Proof.
  intros A.
  assert (M : OopRefactor.main OopRefactor.packages []
              = ([Spec.report "Swimming" "1.000" "0.994" "1.000" "336.000";
                  Spec.report "Running" "1.000" "9.750" "9.750" "797.805";
                  Spec.report "SportsWalking" "1.000" "5.850" "5.850"
                    "349.252"],
                 Ok [tt; tt; tt])).
  { change OopRefactor.packages
      with ([("SWM", [720; 1; 80; 25; 40] : list num);
             ("RUN", [15000; 1; 75])]
            ++ [("WLK", [9000; 1; 75; 180])])%list.
    rewrite refactor_main_app. unfold io_bind at 1.
    replace (OopRefactor.main
               [("SWM", [720; 1; 80; 25; 40] : list num);
                ("RUN", [15000; 1; 75])] [])
      with ([Spec.report "Swimming" "1.000" "0.994" "1.000" "336.000";
             Spec.report "Running" "1.000" "9.750" "9.750" "797.805"],
            Ok [tt; tt] : result (list unit))
      by (vm_compute; reflexivity).
    cbn [OopRefactor.main]. unfold io_bind, io_ret.
    rewrite (walking_sample_line A). reflexivity. }
  split; [|exact M].
  rewrite homework_run_as_main.
  - change Homework.packages with OopRefactor.packages. rewrite M.
    reflexivity.
  - exact homework_packages_recognized.
Qed.

(** X9: in [homework.py] the first type code that is not recognized ends the
    batch: when the packages before it are processed without exception,
    the loop writes their lines and the warning and raises
    [AttributeError], whatever follows; [main] of [oop_refactor.py] writes
    the same lines and goes on with the packages that follow. *)
Theorem first_unknown_code_ends_homework_batch :
  forall p code data q out out1,
  Homework.run p out = (out1, Ok tt) ->
  ~ Spec.recognized code ->
  Homework.run (p ++ (code, data) :: q)%list out
  = ((out1 ++ [Spec.warning])%list, Raise AttributeError)
  /\ exists rs,
       OopRefactor.main p out = (out1, Ok rs)
       /\ OopRefactor.main (p ++ (code, data) :: q)%list out
          = (rs2 <~ OopRefactor.main q ;; io_ret (rs ++ tt :: rs2)%list)
              (out1 ++ [Spec.warning])%list.
Proof.
  intros p code data q out out1 H N. split.
  - rewrite homework_run_app. unfold io_bind. rewrite H.
    apply homework_run_unknown; assumption.
  - destruct (homework_run_appends _ _ H) as (lines & _ & _ & F & _).
    pose proof (homework_run_as_main out F) as E. rewrite H in E.
    destruct (OopRefactor.main p out) as [o [rs|e]] eqn:M;
      cbn [fst snd map_result bind] in E; inversion E; subst.
    exists rs. split; [reflexivity|].
    rewrite refactor_main_app. unfold io_bind at 1. rewrite M.
    unfold io_bind at 1. rewrite (refactor_main_unknown data q o N).
    unfold io_bind, io_ret.
    destruct (OopRefactor.main q (o ++ [Spec.warning])%list)
      as [o2 [rs2|e]]; reflexivity.
Qed.

(** ** Division by zero *)

Lemma eq0_to_float : forall d,
  More.eq0 d = true -> exists f, to_float d = Ok f /\ is_zero f = true.
Proof.
  intros [z|f] H; cbn [More.eq0] in H.
  - apply Z.eqb_eq in H. subst. eexists. split; reflexivity.
  - exists f. split; [reflexivity|].
    destruct f as [s|s| |s m e]; try reflexivity;
      try destruct s; discriminate H.
Qed.

Lemma div_by_zero : forall x (d : num),
  Spec.returns_float x -> More.eq0 d = true ->
  x / d = Raise ZeroDivisionError.
Proof.
  intros x d [f ->] H. destruct (eq0_to_float d H) as (g & E & Z).
  unfold lift2, ret_num. cbn [bind].
  destruct d as [z|h]; cbn [py_truediv to_float bind] in *.
  - rewrite E. cbn [bind]. rewrite Z. reflexivity.
  - inversion E; subst. rewrite Z. reflexivity.
Qed.

(** X10: a duration equal to zero (the int 0 or the float 0.0 or -0.0)
    makes [get_mean_speed] raise [ZeroDivisionError] for every variant, on
    moderate steps and pool sizes; [read_package] of [oop_refactor.py] and
    the loop body of [homework.py] then raise it and write nothing. *)
Theorem zero_duration_raises : forall a d w h l c out,
  More.eq0 d = true ->
  Spec.moderate a -> Spec.moderate l -> Spec.moderate c ->
  (Homework.get_mean_speed (Homework.new_Running a d w)
   = Raise ZeroDivisionError
   /\ Homework.get_mean_speed (Homework.new_SportsWalking a d w h)
      = Raise ZeroDivisionError
   /\ Homework.get_mean_speed (Homework.new_Swimming a d w l c)
      = Raise ZeroDivisionError)
  /\ (OopRefactor.read_package "RUN" [a; d; w] out
      = (out, Raise ZeroDivisionError)
      /\ OopRefactor.read_package "WLK" [a; d; w; h] out
         = (out, Raise ZeroDivisionError)
      /\ OopRefactor.read_package "SWM" [a; d; w; l; c] out
         = (out, Raise ZeroDivisionError))
  /\ ((t <~ Homework.read_package "RUN" [a; d; w] ;; Homework.main t) out
      = (out, Raise ZeroDivisionError)
      /\ (t <~ Homework.read_package "WLK" [a; d; w; h] ;; Homework.main t)
           out
         = (out, Raise ZeroDivisionError)
      /\ (t <~ Homework.read_package "SWM" [a; d; w; l; c] ;;
          Homework.main t) out
         = (out, Raise ZeroDivisionError)).
Proof.
  intros a d w h l c out Hd Ma Ml Mc.
  assert (S1 : Spec.defaultMeanSpeedKmh a d = Raise ZeroDivisionError).
  { unfold Spec.defaultMeanSpeedKmh. apply div_by_zero; [|assumption].
    apply distance_returns_float; assumption. }
  assert (S2 : Spec.poolMeanSpeedKmh l c d = Raise ZeroDivisionError).
  { unfold Spec.poolMeanSpeedKmh. apply div_by_zero; [|assumption].
    apply div_literal; [|discriminate|reflexivity].
    apply mul_moderate; assumption. }
  assert (D1 : Spec.returns_float (Spec.getDistanceKm a 0.65))
    by (apply distance_returns_float; assumption).
  assert (D2 : Spec.returns_float (Spec.getDistanceKm a 1.38))
    by (apply distance_returns_float; assumption).
  destruct D1 as [x D1], D2 as [y D2].
  assert (R : OopRefactor.read_package "RUN" [a; d; w] out
              = (out, Raise ZeroDivisionError)
              /\ OopRefactor.read_package "WLK" [a; d; w; h] out
                 = (out, Raise ZeroDivisionError)
              /\ OopRefactor.read_package "SWM" [a; d; w; l; c] out
                 = (out, Raise ZeroDivisionError)).
  { unfold OopRefactor.read_package.
    cbn [dict_get OopRefactor.workout_code String.eqb Ascii.eqb Bool.eqb
         OopRefactor.instantiate].
    unfold io_bind, eval, OopRefactor.show_training_info.
    change (OopRefactor.get_distance (OopRefactor.new_Running a d w))
      with (Spec.getDistanceKm a 0.65).
    change (OopRefactor.get_distance (OopRefactor.new_SportsWalking a d w h))
      with (Spec.getDistanceKm a 0.65).
    change (OopRefactor.get_distance (OopRefactor.new_Swimming a d w l c))
      with (Spec.getDistanceKm a 1.38).
    change (OopRefactor.get_mean_speed (OopRefactor.new_Running a d w))
      with (Spec.defaultMeanSpeedKmh a d).
    change (OopRefactor.get_mean_speed
              (OopRefactor.new_SportsWalking a d w h))
      with (Spec.defaultMeanSpeedKmh a d).
    change (OopRefactor.get_mean_speed (OopRefactor.new_Swimming a d w l c))
      with (Spec.poolMeanSpeedKmh l c d).
    rewrite S1, S2, D1, D2. repeat split; reflexivity. }
  split; [repeat split; assumption|]. split; [exact R|].
  destruct R as (R1 & R2 & R3).
  rewrite !pipeline_agree by (rewrite recognized_cases; auto).
  repeat split; assumption.
Qed.

Lemma zero_height_quotient : forall h : num,
  More.eq0 h = true ->
  exists f, h / 100 = Ok (PyFloat f) /\ is_zero f = true.
Proof.
  intros [z|f] H; cbn [More.eq0] in H.
  - apply Z.eqb_eq in H. subst. eexists. split; reflexivity.
  - destruct f as [s|s| |s m e]; try destruct s; try discriminate H;
      eexists; split; reflexivity.
Qed.

(** X11: a sports walking of height zero gets no calories: with a positive
    duration and moderate inputs [get_spent_calories] raises
    [ZeroDivisionError], unless the square of the speed overflows first and
    it raises [OverflowError]; no record is produced. *)
Theorem zero_height_gives_no_calories : forall a d w h : num,
  More.eq0 h = true -> gt0 d = true ->
  Spec.moderate a -> Spec.moderate d -> Spec.moderate w ->
  (Homework.get_spent_calories (Homework.new_SportsWalking a d w h)
   = Raise ZeroDivisionError
   \/ Homework.get_spent_calories (Homework.new_SportsWalking a d w h)
      = Raise OverflowError)
  /\ (forall s, (Spec.defaultMeanSpeedKmh a d * 0.278) ** 2 = Ok s ->
      Homework.get_spent_calories (Homework.new_SportsWalking a d w h)
      = Raise ZeroDivisionError)
  /\ (forall r,
        Homework.show_training_info (Homework.new_SportsWalking a d w h)
        <> Ok r)
  /\ OopRefactor.get_spent_calories (OopRefactor.new_SportsWalking a d w h)
     = Homework.get_spent_calories (Homework.new_SportsWalking a d w h).
Proof.
  intros a d w h Hh Hd Ma Md Mw.
  change (Homework.get_spent_calories (Homework.new_SportsWalking a d w h))
    with (Spec.sportsWalkingCalories (Spec.defaultMeanSpeedKmh a d) w h d).
  destruct (zero_height_quotient h Hh) as (z & Q & Z).
  assert (W : Spec.returns_float (0.035 * w)).
  { apply mul_float_l; [apply literal_float|].
    apply moderate_operand; assumption. }
  destruct W as [f W].
  assert (S : Spec.returns_float (Spec.defaultMeanSpeedKmh a d * 0.278)).
  { apply mul_float_l; [|apply float_operand, literal_float].
    apply default_speed_returns_float; assumption. }
  destruct S as [v S].
  assert (C : forall s, (Spec.defaultMeanSpeedKmh a d * 0.278) ** 2 = Ok s ->
              Spec.sportsWalkingCalories (Spec.defaultMeanSpeedKmh a d) w h d
              = Raise ZeroDivisionError).
  { intros s P. unfold Spec.sportsWalkingCalories.
    rewrite W, P, Q. rewrite S in P. cbn [bind py_pow2] in P.
    destruct (float_pow2 v) as [y|]; [|discriminate P].
    cbn [bind] in P. inversion P; subst.
    unfold lift2. cbn [bind ret_num py_truediv to_float]. rewrite Z.
    reflexivity. }
  assert (O : Spec.sportsWalkingCalories (Spec.defaultMeanSpeedKmh a d) w h d
              = Raise ZeroDivisionError
              \/ Spec.sportsWalkingCalories
                   (Spec.defaultMeanSpeedKmh a d) w h d
                 = Raise OverflowError).
  { destruct ((Spec.defaultMeanSpeedKmh a d * 0.278) ** 2) as [s|e] eqn:P.
    - left. apply (C s). reflexivity.
    - right. unfold Spec.sportsWalkingCalories. rewrite W, P.
      rewrite S in P. cbn [bind py_pow2] in P.
      destruct (float_pow2_cases v) as [[y E]|E]; rewrite E in P;
        cbn [bind] in P; inversion P. reflexivity. }
  split; [exact O|]. split; [exact C|]. split; [|reflexivity].
  intros r H. destruct (homework_record_parts _ H) as (_ & _ & K & _).
  change (Homework.get_spent_calories (Homework.new_SportsWalking a d w h))
    with (Spec.sportsWalkingCalories (Spec.defaultMeanSpeedKmh a d) w h d)
    in K.
  destruct O as [O|O]; rewrite O in K; discriminate K.
Qed.

(** ** The base class *)

(** X12: an instance of the base class [Training] never yields a record:
    its [get_spent_calories] raises [NotImplementedError], which
    [show_training_info] passes on once the distance and the mean speed are
    computed; and no type code of either script selects the base class. *)
Theorem base_class_never_summarizes : forall a d w : num,
  (forall r, Homework.show_training_info (Homework.new_Training a d w)
             <> Ok r)
  /\ (forall r, OopRefactor.show_training_info
                  (OopRefactor.new_Training a d w) <> Ok r)
  /\ (Spec.moderate a -> Spec.moderate d -> gt0 d = true ->
      Homework.show_training_info (Homework.new_Training a d w)
      = Raise NotImplementedError
      /\ OopRefactor.show_training_info (OopRefactor.new_Training a d w)
         = Raise NotImplementedError)
  /\ (forall code,
        dict_get code Homework.workout_code <> Some Homework.Training
        /\ dict_get code OopRefactor.workout_code
           <> Some OopRefactor.Training).
Proof.
  intros a d w. split; [|split; [|split]].
  - intros r H. destruct (homework_record_parts _ H) as (_ & _ & K & _).
    discriminate K.
  - intros r H. destruct (refactor_record_parts _ H) as (_ & _ & K & _).
    discriminate K.
  - intros Ma Md Hd.
    assert (D : Spec.returns_float (Spec.getDistanceKm a 0.65))
      by (apply distance_returns_float; assumption).
    assert (S : Spec.returns_float (Spec.defaultMeanSpeedKmh a d))
      by (apply default_speed_returns_float; assumption).
    destruct D as [x D], S as [y S].
    unfold Homework.show_training_info, OopRefactor.show_training_info.
    change (Homework.get_distance (Homework.new_Training a d w))
      with (Spec.getDistanceKm a 0.65).
    change (OopRefactor.get_distance (OopRefactor.new_Training a d w))
      with (Spec.getDistanceKm a 0.65).
    change (Homework.get_mean_speed (Homework.new_Training a d w))
      with (Spec.defaultMeanSpeedKmh a d).
    change (OopRefactor.get_mean_speed (OopRefactor.new_Training a d w))
      with (Spec.defaultMeanSpeedKmh a d).
    rewrite D, S. split; reflexivity.
  - intros code. unfold Homework.workout_code, OopRefactor.workout_code.
    cbn [dict_get].
    destruct (code =? "SWM")%string; [split; discriminate|].
    destruct (code =? "RUN")%string; [split; discriminate|].
    destruct (code =? "WLK")%string; split; discriminate.
Qed.

(** ** Rendering *)

(** X13: a number that [.3f] renders is written in fixed-point notation with
    three decimal digits exactly when it is finite; an infinite or NaN
    float is written as [inf], [-inf] or [nan], and the only numbers not
    rendered are the ints too large for a float, on which the rendering
    raises [OverflowError]. *)
Theorem rendering_is_fixed_point_iff_finite : forall v,
  (forall s, format_3f v = Ok s ->
     (Spec.is_fixed3 s = true <-> Spec.finite v = true)
     /\ (Spec.finite v = false -> s = "inf" \/ s = "-inf" \/ s = "nan"))
  /\ (forall e, format_3f v = Raise e ->
        e = OverflowError /\ exists z, v = PyInt z /\ Spec.finite v = false).
Proof.
  intros v. split.
  - intros s H. split; [split|].
    + intros F. destruct (Spec.finite v) eqn:E; [reflexivity|].
      destruct (format_3f_not_finite _ H E) as [-> | [-> | ->]]; discriminate F.
    + intros F. destruct (format_3f_finite _ F) as (s' & E & F').
      congruence.
    + apply format_3f_not_finite. assumption.
  - intros e H. unfold format_3f, Spec.finite in *.
    destruct v as [z|f]; cbn [to_float bind] in *; [|discriminate H].
    destruct (to_float_cases (PyInt z)) as [[g E]|E]; cbn [to_float] in E;
      rewrite E in *; cbn [bind] in H; inversion H; subst.
    split; [reflexivity|]. exists z. split; reflexivity.
Qed.

Example read_back_examples :
  More.read_fixed3 "797.805" = Some (797805 # 1000)%Q
  /\ More.read_fixed3 "-0.000" = Some (-0 # 1000)%Q
  /\ More.read_fixed3 "inf" = None
  /\ More.read_fixed3 "1.00" = None
  /\ More.read_fixed3 ".000" = None
  /\ More.read_fixed3 "1a.000" = None.
Proof. repeat split; vm_compute; reflexivity. Qed.

(** ** Reading a rendered number back *)

Lemma split_point_digits : forall ds t,
  Spec.all_digits ds = true ->
  More.split_point (ds ++ String "." t) = Some (ds, t).
Proof.
  induction ds as [|c ds IH]; intros t H; cbn [append More.split_point].
  - reflexivity.
  - cbn [Spec.all_digits] in H. apply andb_true_iff in H as [Hc Hd].
    destruct (digit_is_not_point _ Hc) as [-> _]. rewrite (IH t Hd).
    reflexivity.
Qed.

Lemma to_uint_not_nil : forall n, N.to_uint n <> Decimal.Nil.
Proof.
  intros [|p]; [discriminate|]. apply DecimalPos.Unsigned.to_uint_nonnil.
Qed.

Lemma read_digits_decimal : forall n, (0 <= n)%Z ->
  More.read_digits (decimal n) = Some n.
Proof.
  intros n Hn. unfold decimal, NilZero.string_of_uint.
  pose proof (to_uint_not_nil (Z.to_N n)) as Nn.
  pose proof (DecimalN.Unsigned.of_to (Z.to_N n)) as R.
  destruct (N.to_uint (Z.to_N n)) as [|u|u|u|u|u|u|u|u|u|u] eqn:E;
    [contradiction|..];
    unfold More.read_digits;
    (match goal with
     | |- context [NilEmpty.string_of_uint ?d] =>
         change (match NilEmpty.string_of_uint d with
                 | "" => None
                 | _ => option_map (fun u => Z.of_N (N.of_uint u))
                          (NilEmpty.uint_of_string
                             (NilEmpty.string_of_uint d))
                 end = Some n);
         rewrite (NilEmpty.usu d)
     end);
    cbn [NilEmpty.string_of_uint option_map]; rewrite R;
    f_equal; apply Z2N.id; assumption.
Qed.

Lemma read_three_digits : forall r, (0 <= r < 1000)%Z ->
  More.read_digits (three_digits r) = Some r.
Proof.
  intros r H.
  assert (A : forallb
                (fun k =>
                   match More.read_digits (three_digits (Z.of_nat k)) with
                   | Some v => (v =? Z.of_nat k)%Z
                   | None => false
                   end) (seq 0 1000) = true) by (vm_compute; reflexivity).
  rewrite forallb_forall in A. specialize (A (Z.to_nat r)).
  rewrite Z2Nat.id in A by lia.
  assert (I : In (Z.to_nat r) (seq 0 1000)) by (apply in_seq; lia).
  specialize (A I).
  destruct (More.read_digits (three_digits r)) as [v|]; [|discriminate A].
  apply Z.eqb_eq in A. subst. reflexivity.
Qed.

Lemma read_unsigned3_fixed : forall n, (0 <= n)%Z ->
  More.read_unsigned3
    (decimal (n / 1000) ++ "." ++ three_digits (n mod 1000))
  = Some n.
Proof.
  intros n Hn. unfold More.read_unsigned3.
  destruct (decimal_digits (n / 1000)) as [Hd _].
  change ("." ++ three_digits (n mod 1000))
    with (String "." (three_digits (n mod 1000))).
  rewrite (@split_point_digits _ (three_digits (n mod 1000)) Hd).
  assert (B : (0 <= n mod 1000 < 1000)%Z) by (apply Z.mod_pos_bound; lia).
  destruct (@three_digits_shape _ B) as [_ ->]. cbn [Nat.eqb].
  rewrite read_digits_decimal by (apply Z.div_pos; lia).
  rewrite (@read_three_digits _ B). f_equal.
  rewrite (Z.div_mod n 1000) at 3 by lia. lia.
Qed.

(** Reading a count of thousandths back gives the count, signed. *)
Lemma read_fixed3_fixed3 : forall negative n, (0 <= n)%Z ->
  More.read_fixed3 (fixed3 negative n)
  = Some ((if negative then - n else n) # 1000)%Q.
Proof.
  intros negative n Hn. unfold fixed3. destruct negative.
  - change ("-" ++ decimal (n / 1000) ++ "." ++ three_digits (n mod 1000))
      with (String "-"
              (decimal (n / 1000) ++ "." ++ three_digits (n mod 1000))).
    unfold More.read_fixed3. change ("-" =? "-")%char with true. cbn iota.
    rewrite (@read_unsigned3_fixed n Hn). reflexivity.
  - change ("" ++ decimal (n / 1000) ++ "." ++ three_digits (n mod 1000))
      with (decimal (n / 1000) ++ "." ++ three_digits (n mod 1000)).
    pose proof (@read_unsigned3_fixed n Hn) as R.
    destruct (decimal_digits (n / 1000)) as [Hd He].
    destruct (decimal (n / 1000)) as [|c s] eqn:E; [contradiction|].
    cbn [Spec.all_digits] in Hd. apply andb_true_iff in Hd as [Hc _].
    cbn [append] in *. unfold More.read_fixed3.
    destruct (digit_is_not_point _ Hc) as [_ ->]. rewrite R. reflexivity.
Qed.

(** Rounding to the nearest multiple is off by at most half a step. *)
Lemma round_half_even_error : forall a d, (0 <= a)%Z -> (0 < d)%Z ->
  (- d <= 2 * (round_half_even a d * d - a) <= d)%Z.
Proof.
  intros a d Ha Hd. unfold round_half_even.
  pose proof (Z.div_mod a d ltac:(lia)) as E.
  pose proof (Z.mod_pos_bound a d Hd) as B.
  destruct (Z.compare_spec (2 * (a mod d)) d) as [C|C|C];
    [destruct (Z.even (a / d))| |]; nia.
Qed.

Lemma pos_pow_1_l : forall p, (1 ^ p)%positive = 1%positive.
Proof.
  intros p. apply Pos2Z.inj. rewrite Pos2Z.inj_pow. apply Z.pow_1_l. lia.
Qed.

Ltac q_to_z :=
  unfold Qle, Qminus, Qplus, Qopp, Qmult, Qinv;
  cbn [Qnum Qden Qinv]; rewrite ?Pos2Z.inj_mul; cbn [Z.opp].

Lemma rendering_error : forall s m e,
  exists x,
    exact (S754_finite s m e) = Some x
    /\ (x - 0.0005
        <= (if s then - thousandths m e else thousandths m e) # 1000)%Q
    /\ ((if s then - thousandths m e else thousandths m e) # 1000
        <= x + 0.0005)%Q.
Proof.
  intros s m e. eexists. split; [reflexivity|].
  destruct e as [|p|k]; cbn [Qpower thousandths].
  - destruct s; split; q_to_z; lia.
  - change 2%Q with (2 # 1)%Q. rewrite Qpower.Qpower_decomp_positive.
    rewrite pos_pow_1_l.
    assert (P : (0 < 2 ^ Zpos p)%Z) by (apply Z.pow_pos_nonneg; lia).
    set (D := (2 ^ Zpos p)%Z) in *.
    destruct s; split; q_to_z; nia.
  - change 2%Q with (2 # 1)%Q. rewrite Qpower.Qpower_decomp_positive.
    rewrite pos_pow_1_l.
    pose proof (@round_half_even_error (Zpos m * 1000) (2 ^ Zpos k)
                  ltac:(lia) ltac:(apply Z.pow_pos_nonneg; lia)) as E.
    rewrite <- Pos2Z.inj_pow in *.
    set (n := round_half_even (Zpos m * 1000) (Zpos (2 ^ k))) in *.
    set (D := (2 ^ k)%positive) in *.
    destruct s; split; q_to_z; nia.
Qed.

(** X14: a finite number is rendered within 0.0005 of its value: both
    scripts write it in the form that reads back as a decimal [q] with
    [x - 0.0005 <= q <= x + 0.0005], where [x] is the exact value of the
    float rendered (for an int, of the float it converts to). *)
Theorem rendered_number_reads_back : forall v,
  Spec.finite v = true ->
  exists s f x q,
    format_3f v = Ok s /\ to_float v = Ok f /\ exact f = Some x
    /\ More.read_fixed3 s = Some q
    /\ (x - 0.0005 <= q)%Q /\ (q <= x + 0.0005)%Q.
Proof.
  intros v. unfold Spec.finite, format_3f.
  destruct (to_float v) as [f|]; [|discriminate].
  intros F. cbn [bind].
  destruct f as [s|s| |s m e]; try discriminate F.
  - exists (fixed3 s 0), (S754_zero s), 0%Q,
      ((if s then - 0 else 0)%Z # 1000)%Q.
    split; [reflexivity|]. split; [reflexivity|]. split; [reflexivity|].
    split; [apply read_fixed3_fixed3; lia|].
    destruct s; split; q_to_z; lia.
  - destruct (rendering_error s m e) as (x & E & L & U).
    exists (fixed3 s (thousandths m e)), (S754_finite s m e), x,
      ((if s then - thousandths m e else thousandths m e) # 1000)%Q.
    split; [reflexivity|]. split; [reflexivity|]. split; [exact E|].
    split; [apply read_fixed3_fixed3; apply thousandths_nonneg|].
    split; assumption.
Qed.

(** ** Signs *)

Section Signs.
Local Open Scope Z_scope.

Lemma shr_fexp_nonneg : forall m e l, 0 <= m ->
  0 <= shr_m (fst (shr_fexp prec emax m e l)).
Proof.
  intros m e l Hm. unfold shr_fexp, shr.
  destruct (fexp prec emax (Zdigits2 m + e) - e) as [|n|n]; simpl fst;
    rewrite ?shr_m_record_of_loc; try assumption.
  rewrite iter_pos_shr_m by (rewrite shr_m_record_of_loc; assumption).
  rewrite shr_m_record_of_loc. apply Z.shiftr_nonneg. assumption.
Qed.

(** Rounding a mantissa that is not negative keeps the sign given. *)
Lemma binary_round_aux_sign : forall s m e l, 0 <= m ->
  binary_round_aux prec emax s m e l = S754_zero s
  \/ binary_round_aux prec emax s m e l = S754_infinity s
  \/ exists m' e', binary_round_aux prec emax s m e l = S754_finite s m' e'.
Proof.
  intros s m e l Hm. unfold binary_round_aux.
  pose proof (shr_fexp_nonneg e l Hm) as P1.
  destruct (shr_fexp prec emax m e l) as [mrs' e']. simpl in P1.
  assert (P2 : 0 <= round_nearest_even (shr_m mrs') (loc_of_shr_record mrs')).
  { destruct (loc_of_shr_record mrs') as [|[]]; simpl; try lia.
    destruct (Z.even (shr_m mrs')); lia. }
  pose proof (shr_fexp_nonneg e' loc_Exact P2) as P3.
  destruct (shr_fexp prec emax _ e' loc_Exact) as [mrs'' e'']. simpl in P3.
  destruct (shr_m mrs'') as [|p|p]; [auto| |lia].
  destruct (e'' <=? emax - prec); eauto.
Qed.

End Signs.

Section SignsOfOperations.
Local Open Scope Z_scope.

Lemma round_sign_nonneg : forall m e l, 0 <= m ->
  More.nonneg (binary_round_aux prec emax false m e l).
Proof.
  intros m e l Hm.
  destruct (@binary_round_aux_sign false m e l Hm) as [E|[E|(m' & e' & E)]];
    rewrite E; exact I.
Qed.

Lemma div_core_nonneg : forall m1 e1 m2 e2, 0 <= m1 -> 0 < m2 ->
  let '(q, e, l) := SFdiv_core_binary prec emax m1 e1 m2 e2 in 0 <= q.
Proof.
  intros m1 e1 m2 e2 H1 H2. unfold SFdiv_core_binary.
  set (e' := IntDef.Z.min _ _).
  set (m' := match (e1 - e2 - e') with Z0 => _ | _ => _ end).
  assert (Hm : 0 <= m').
  { unfold m'. destruct (e1 - e2 - e'); try lia.
    change (IntDef.Z.shiftl m1 (Zpos p)) with (Z.shiftl m1 (Zpos p)).
    apply Z.shiftl_nonneg. assumption. }
  pose proof (Z_div_mod m' m2 ltac:(lia)) as Hq.
  change (Z.div_eucl m' m2) with (IntDef.Z.div_eucl m' m2) in Hq.
  destruct (IntDef.Z.div_eucl m' m2) as [q r]. nia.
Qed.

Lemma finite_nonneg_nonneg : forall f, More.finite_nonneg f -> More.nonneg f.
Proof. intros [?|?| |[] ? ?] H; try exact I; destruct H. Qed.

Lemma finite_pos_nonzero : forall f, More.finite_pos f -> is_zero f = false.
Proof. intros [?|?| |[] ? ?] H; try reflexivity; destruct H. Qed.

(** [f >= 0] holds of such a float. *)
Lemma nonneg_ge0 : forall f, More.nonneg f -> ge0 (PyFloat f) = true.
Proof. intros [[]|[]| |[] ? ?] H; try reflexivity; destruct H. Qed.

Lemma fmul_nonneg : forall x y,
  More.finite_nonneg x -> More.finite_nonneg y -> More.nonneg (fmul x y).
Proof.
  intros [sx|sx| |[] mx ex] [sy|sy| |[] my ey] Hx Hy;
    try (destruct Hx; fail); try (destruct Hy; fail); try exact I.
  apply round_sign_nonneg. lia.
Qed.

Lemma fdiv_nonneg : forall x y,
  More.nonneg x -> More.finite_pos y -> More.nonneg (fdiv x y).
Proof.
  intros [sx|[]| |[] mx ex] [sy|sy| |[] my ey] Hx Hy;
    try (destruct Hx; fail); try (destruct Hy; fail); try exact I.
  unfold fdiv, SFdiv. cbn [xorb].
  pose proof (@div_core_nonneg (Zpos mx) ex (Zpos my) ey) as C.
  destruct (SFdiv_core_binary prec emax (Zpos mx) ex (Zpos my) ey)
    as [[q e] l].
  apply round_sign_nonneg. apply C; lia.
Qed.

Lemma float_of_int_sign : forall z f, 0 <= z ->
  float_of_int z = Ok f -> More.finite_nonneg f.
Proof.
  intros z f Hz. unfold float_of_int, binary_normalize.
  destruct z as [|p|p]; [| |lia].
  - intros H; inversion H; exact I.
  - assert (R : forall m e, 0 <= m -> forall g,
      finite_or_overflow (binary_round_aux prec emax false m e loc_Exact)
      = Ok g -> More.finite_nonneg g).
    { intros m e Hm g.
      destruct (@binary_round_aux_sign false m e loc_Exact Hm)
        as [E|[E|(m' & e' & E)]]; rewrite E; simpl;
        intros H; inversion H; exact I. }
    unfold binary_round, shl_align.
    destruct (fexp prec emax (Zpos (digits2_pos p) + 0) - 0);
      apply R; lia.
Qed.

Lemma ratio_sign : forall a b f, 0 <= a -> 0 < b ->
  int_true_divide a b = Ok f -> More.finite_nonneg f.
Proof.
  intros a b f Ha Hb. unfold int_true_divide.
  destruct (Z.eqb_spec b 0) as [|_]; [lia|].
  unfold ratio_to_float.
  replace (a <? 0) with false by (symmetry; apply Z.ltb_ge; lia).
  replace (b <? 0) with false by (symmetry; apply Z.ltb_ge; lia).
  cbn [xorb].
  destruct (Z.eqb_spec a 0) as [|Hn].
  { intros H; inversion H; exact I. }
  pose proof (@div_core_nonneg (Z.abs a) 0 (Z.abs b) 0) as C.
  destruct (SFdiv_core_binary prec emax (Z.abs a) 0 (Z.abs b) 0)
    as [[q e] l].
  destruct (@binary_round_aux_sign false q e l)
    as [E|[E|(m' & e' & E)]]; [apply C; lia| | |]; rewrite E; simpl;
    intros H; inversion H; exact I.
Qed.

End SignsOfOperations.

Lemma to_float_nonneg : forall v,
  ge0 v = true -> Spec.finite v = true ->
  exists f, to_float v = Ok f /\ More.finite_nonneg f.
Proof.
  intros v G F. unfold Spec.finite in F.
  destruct (to_float v) as [f|e] eqn:E; [|discriminate].
  exists f. split; [reflexivity|].
  destruct v as [z|g]; simpl in *.
  - eapply float_of_int_sign; [|exact E]. apply Z.leb_le. assumption.
  - inversion E; subst.
    destruct f as [?|?| |[] ? ?]; try exact I; discriminate.
Qed.

Lemma to_float_pos : forall v,
  gt0 v = true -> Spec.finite v = true ->
  exists f, to_float v = Ok f /\ More.finite_pos f.
Proof.
  intros v G F. unfold Spec.finite in F.
  destruct (to_float v) as [f|e] eqn:E; [|discriminate].
  exists f. split; [reflexivity|].
  destruct v as [z|g]; simpl in *.
  - apply Z.ltb_lt in G.
    assert (N : More.finite_nonneg f)
      by (eapply float_of_int_sign; [|exact E]; lia).
    assert (Z : is_zero f = false)
      by (eapply float_of_int_nonzero; [|exact E]; lia).
    destruct f as [?|?| |[] ? ?]; try exact I; try discriminate;
      destruct N.
  - inversion E; subst.
    destruct f as [?|?| |[] ? ?]; try exact I; discriminate.
Qed.

(** A product with a float operand. *)
Lemma mul_float_nonneg : forall (a : num) k,
  ge0 a = true -> Spec.finite a = true -> More.finite_nonneg k ->
  More.returns_nonneg (a * PyFloat k).
Proof.
  intros a k G F K. destruct (to_float_nonneg a G F) as (x & E & X).
  exists (fmul x k). split; [|apply fmul_nonneg; assumption].
  unfold lift2, ret_num. cbn [bind].
  destruct a as [z|g]; cbn [py_mul to_float bind] in *.
  - rewrite E. reflexivity.
  - inversion E; subst. reflexivity.
Qed.

(** A product of two inputs: an int that is not negative, or such a
    float. *)
Lemma mul_inputs_nonneg : forall a b : num,
  ge0 a = true -> Spec.finite a = true ->
  ge0 b = true -> Spec.finite b = true ->
  (exists z, a * b = Ok (PyInt z) /\ (0 <= z)%Z)
  \/ More.returns_nonneg (a * b).
Proof.
  intros a b Ga Fa Gb Fb.
  destruct b as [y|k].
  - destruct a as [x|g].
    + left. exists (x * y)%Z. split; [reflexivity|].
      simpl in Ga, Gb. apply Z.leb_le in Ga, Gb. nia.
    + right. destruct (to_float_nonneg (PyInt y) Gb Fb) as (fy & E & Y).
      destruct (to_float_nonneg (PyFloat g) Ga Fa) as (fx & Ex & X).
      inversion Ex; subst fx.
      exists (fmul g fy). split; [|apply fmul_nonneg; assumption].
      unfold lift2, ret_num. cbn [bind py_mul to_float] in *.
      rewrite E. reflexivity.
  - right. apply mul_float_nonneg; try assumption.
    destruct (to_float_nonneg (PyFloat k) Gb Fb) as (fx & Ex & X).
    inversion Ex; subst. assumption.
Qed.

(** A quotient by a positive number. *)
Lemma div_pos_nonneg : forall x (d : num),
  More.returns_nonneg x -> gt0 d = true -> Spec.finite d = true ->
  More.returns_nonneg (x / d).
Proof.
  intros x d (f & -> & N) G F. destruct (to_float_pos d G F) as (y & E & Y).
  pose proof (finite_pos_nonzero y Y) as Z.
  exists (fdiv f y). split; [|apply fdiv_nonneg; assumption].
  unfold lift2, ret_num. cbn [bind].
  destruct d as [z|g]; cbn [py_truediv to_float bind] in *.
  - rewrite E. cbn [bind]. rewrite Z. reflexivity.
  - inversion E; subst. rewrite Z. reflexivity.
Qed.

(** The quotient of such a product by the int 1000. *)
Lemma div_1000_nonneg : forall x,
  (exists z, x = Ok (PyInt z) /\ (0 <= z)%Z) \/ More.returns_nonneg x ->
  More.returns_nonneg (x / 1000) \/ x / 1000 = Raise OverflowError.
Proof.
  intros x [(z & -> & Hz)|N].
  - unfold lift2, ret_num. cbn [bind py_truediv].
    destruct (int_true_divide z 1000) as [f|e] eqn:E.
    + left. exists f. split; [reflexivity|].
      apply finite_nonneg_nonneg.
      eapply ratio_sign; [exact Hz| |exact E]. lia.
    + right. unfold int_true_divide in E. cbn [Z.eqb] in E.
      destruct (ratio_to_float z 1000); simpl in E; inversion E.
      reflexivity.
  - left. apply div_pos_nonneg; [assumption|reflexivity|reflexivity].
Qed.

Lemma binary_round_nonneg : forall p e,
  More.nonneg (binary_round prec emax false p e).
Proof.
  intros p e. unfold binary_round, shl_align.
  destruct (fexp prec emax (Zpos (digits2_pos p) + e) - e)%Z;
    apply round_sign_nonneg; lia.
Qed.

Lemma fadd_nonneg : forall x y,
  More.nonneg x -> More.finite_pos y -> More.nonneg (fadd x y).
Proof.
  intros [sx|[]| |[] mx ex] [sy|sy| |[] my ey] Hx Hy;
    try (destruct Hx; fail); try (destruct Hy; fail); try exact I.
  unfold fadd, SFadd. cbn [cond_Zopp].
  set (p := fst (shl_align mx ex _)). set (q := fst (shl_align my ey _)).
  change (IntDef.Z.add (Zpos p) (Zpos q)) with (Zpos (p + q)).
  apply binary_round_nonneg.
Qed.

Lemma fmul_nonneg_pos : forall x y,
  More.nonneg x -> More.finite_pos y -> More.nonneg (fmul x y).
Proof.
  intros [sx|[]| |[] mx ex] [sy|sy| |[] my ey] Hx Hy;
    try (destruct Hx; fail); try (destruct Hy; fail); try exact I.
  apply round_sign_nonneg. lia.
Qed.

(** A product by a positive number. *)
Lemma mul_pos_nonneg : forall x (v : num),
  More.returns_nonneg x -> gt0 v = true -> Spec.finite v = true ->
  More.returns_nonneg (x * v).
Proof.
  intros x v (f & -> & N) G F. destruct (to_float_pos v G F) as (y & E & Y).
  exists (fmul f y). split; [|apply fmul_nonneg_pos; assumption].
  unfold lift2, ret_num. cbn [bind].
  destruct v as [z|g]; cbn [py_mul to_float bind] in *.
  - rewrite E. reflexivity.
  - inversion E; subst. reflexivity.
Qed.

(** A sum with a positive float. *)
Lemma add_pos_nonneg : forall x k,
  More.returns_nonneg x -> More.finite_pos k ->
  More.returns_nonneg (x + PyFloat k).
Proof.
  intros x k (f & -> & N) K.
  exists (fadd f k). split; [reflexivity|apply fadd_nonneg; assumption].
Qed.

Lemma returns_nonneg_not_negative : forall r,
  More.returns_nonneg r -> More.not_negative r.
Proof. intros r (f & E & N). exists f. auto using nonneg_ge0. Qed.

Lemma distance_nonneg : forall (a : num) k,
  ge0 a = true -> Spec.finite a = true -> More.finite_pos k ->
  More.returns_nonneg (Spec.getDistanceKm a (PyFloat k)).
Proof.
  intros a k G F K. unfold Spec.getDistanceKm.
  apply div_pos_nonneg; [|reflexivity|reflexivity].
  apply mul_float_nonneg; try assumption.
  destruct k as [?|?| |[] ? ?]; try exact I; destruct K.
Qed.

Lemma pool_speed_nonneg : forall l c d : num,
  ge0 l = true -> Spec.finite l = true ->
  ge0 c = true -> Spec.finite c = true ->
  gt0 d = true -> Spec.finite d = true ->
  More.returns_nonneg (Spec.poolMeanSpeedKmh l c d)
  \/ Spec.poolMeanSpeedKmh l c d = Raise OverflowError.
Proof.
  intros l c d Gl Fl Gc Fc Gd Fd. unfold Spec.poolMeanSpeedKmh.
  destruct (div_1000_nonneg (mul_inputs_nonneg l c Gl Fl Gc Fc)) as [N|E].
  - left. apply div_pos_nonneg; assumption.
  - right. rewrite E. reflexivity.
Qed.

(** X15: for steps that are not negative and a positive duration, both
    finite, [get_distance] and the inherited [get_mean_speed] return a
    float [f] with [f >= 0], so never a negative number or NaN, in both
    scripts.  For pool sizes that are not negative, the mean speed of a
    swimming is such a float unless the product of two large ints raises
    [OverflowError], and so are its calories for a positive finite
    weight. *)
Theorem distance_and_speed_are_not_negative : forall a d w h l c : num,
  ge0 a = true -> Spec.finite a = true ->
  gt0 d = true -> Spec.finite d = true ->
  (forall t,
     In t [Homework.new_Running a d w; Homework.new_SportsWalking a d w h;
           Homework.new_Swimming a d w l c] ->
     More.not_negative (Homework.get_distance t)
     /\ More.not_negative (OopRefactor.get_distance (to_refactor t)))
  /\ (forall t,
        In t [Homework.new_Running a d w;
              Homework.new_SportsWalking a d w h] ->
        More.not_negative (Homework.get_mean_speed t)
        /\ More.not_negative (OopRefactor.get_mean_speed (to_refactor t)))
  /\ (ge0 l = true -> Spec.finite l = true ->
      ge0 c = true -> Spec.finite c = true ->
      let t := Homework.new_Swimming a d w l c in
      Homework.get_mean_speed t = OopRefactor.get_mean_speed (to_refactor t)
      /\ Homework.get_spent_calories t
         = OopRefactor.get_spent_calories (to_refactor t)
      /\ (More.not_negative (Homework.get_mean_speed t)
          \/ Homework.get_mean_speed t = Raise OverflowError)
      /\ (gt0 w = true -> Spec.finite w = true ->
          More.not_negative (Homework.get_spent_calories t)
          \/ Homework.get_spent_calories t = Raise OverflowError)).
Proof.
  intros a d w h l c Ga Fa Gd Fd.
  assert (D1 : More.returns_nonneg (Spec.getDistanceKm a 0.65))
    by (apply distance_nonneg; [assumption|assumption|exact I]).
  assert (D2 : More.returns_nonneg (Spec.getDistanceKm a 1.38))
    by (apply distance_nonneg; [assumption|assumption|exact I]).
  assert (S1 : More.returns_nonneg (Spec.defaultMeanSpeedKmh a d)).
  { unfold Spec.defaultMeanSpeedKmh.
    apply div_pos_nonneg; [exact D1|assumption|assumption]. }
  split; [|split].
  - intros t [<-|[<-|[<-|[]]]]; split;
      apply returns_nonneg_not_negative; assumption.
  - intros t [<-|[<-|[]]]; split;
      apply returns_nonneg_not_negative; exact S1.
  - intros Gl Fl Gc Fc t. split; [reflexivity|]. split; [reflexivity|].
    change (Homework.get_mean_speed t) with (Spec.poolMeanSpeedKmh l c d).
    change (Homework.get_spent_calories t)
      with (Spec.swimmingCalories (Spec.poolMeanSpeedKmh l c d) w d).
    destruct (pool_speed_nonneg l c d Gl Fl Gc Fc Gd Fd) as [N|E].
    + split; [left; apply returns_nonneg_not_negative; exact N|].
      intros Gw Fw. left. apply returns_nonneg_not_negative.
      unfold Spec.swimmingCalories.
      apply mul_pos_nonneg; [|assumption|assumption].
      apply mul_pos_nonneg; [|assumption|assumption].
      apply mul_pos_nonneg; [|reflexivity|reflexivity].
      apply add_pos_nonneg; [exact N|exact I].
    + split; [right; exact E|].
      intros _ _. right. rewrite E. reflexivity.
Qed.

End Properties.

(** * The properties at sample workouts

    The statements below have no parameter: they are the theorems above
    at sample workouts and, where a library is needed, at the library
    that rounds squares correctly, which is accurate to one unit in the
    last place. *)

#[local] Existing Instance correctly_rounded.

Lemma unknown_type_is_warned_and_not_built_witness :
  ~ Spec.recognized "XYZ"
  /\ Homework.read_package "XYZ" [1; 2; 3] []
     = ([Spec.warning], Ok None)
  /\ OopRefactor.read_package "XYZ" [1; 2; 3] [] = ([Spec.warning], Ok tt).
Proof.
  assert (N : ~ Spec.recognized "XYZ").
  { rewrite recognized_cases. intros [H|[H|H]]; discriminate H. }
  split; [exact N|].
  destruct (@unknown_type_is_warned_and_not_built correctly_rounded
              "XYZ" [1; 2; 3] [] N) as ((_ & H) & (_ & O) & _).
  split; [exact H|exact O].
Defined.

Lemma swimming_mean_speed_from_pool_witness :
  gt0 1 = true
  /\ Homework.get_mean_speed (Homework.new_Swimming 720 1 80 25 40)
     = Spec.poolMeanSpeedKmh 25 40 1.
Proof.
  split; [reflexivity|].
  apply (swimming_mean_speed_from_pool 720 1 80 25 40). reflexivity.
Defined.

Lemma swimming_calories_from_pool_speed_witness :
  gt0 1 = true
  /\ Homework.get_spent_calories (Homework.new_Swimming 720 1 80 25 40)
     = Spec.swimmingCalories (Spec.poolMeanSpeedKmh 25 40 1) 80 1.
Proof.
  split; [reflexivity|].
  apply (swimming_calories_from_pool_speed 720 1 80 25 40). reflexivity.
Defined.

(** C2, as the spec words the sample: the calories of the sample running
    are not 798.000 to three decimal places, neither in the scripts nor by
    the formula over the rationals. *)
Lemma running_sample_calories_are_not_798 :
  ~ (exists c, Homework.get_spent_calories (Homework.new_Running 15000 1 75)
               = Ok c /\ format_3f c = Ok "798.000")
  /\ ~ (exists c,
         OopRefactor.get_spent_calories (OopRefactor.new_Running 15000 1 75)
         = Ok c /\ format_3f c = Ok "798.000")
  /\ ~ (Spec.runningCaloriesExact 9.75 75 1 == 798)%Q.
Proof. exact (@running_sample_over_any_library correctly_rounded). Qed.

Lemma running_calories_witness :
  (ge0 15000 = true /\ gt0 1 = true /\ gt0 75 = true)
  /\ Homework.get_spent_calories (Homework.new_Running 15000 1 75)
     = Spec.runningCalories (Spec.defaultMeanSpeedKmh 15000 1) 75 1.
Proof.
  split; [repeat split; reflexivity|].
  apply (running_calories 15000 1 75); reflexivity.
Defined.

Lemma sports_walking_calories_witness :
  (gt0 1 = true /\ ne0 180 = true)
  /\ Homework.get_spent_calories (Homework.new_SportsWalking 9000 1 75 180)
     = Spec.sportsWalkingCalories (Spec.defaultMeanSpeedKmh 9000 1) 75 180 1
  /\ within_one_ulp correctly_rounded
  /\ (c <- Homework.get_spent_calories
              (Homework.new_SportsWalking 9000 1 75 180) ;;
      format_3f c) = Ok "349.252".
Proof.
  split; [repeat split; reflexivity|].
  destruct (@sports_walking_calories correctly_rounded 9000 1 75 180
              eq_refl eq_refl) as (E & _ & _ & _ & _ & _ & S & _).
  split; [exact E|]. split; [exact correctly_rounded_is_accurate|].
  apply (S correctly_rounded_is_accurate).
Defined.

Lemma wrong_count_is_type_error_witness :
  (Spec.expected_count "RUN" = Some 3%nat
   /\ List.length [PyInt 15000; PyInt 1] <> 3%nat)
  /\ Homework.read_package "RUN" [15000; 1] [] = ([], Raise TypeError).
Proof.
  split; [split; [reflexivity|discriminate]|].
  apply (@wrong_count_is_type_error correctly_rounded
           "RUN" [15000; 1] 3%nat eq_refl).
  discriminate.
Defined.

(** C8, as the spec words it: the running of 15000 steps in one hour by an
    athlete of 1e308 kg has infinite calories, which both scripts render as
    [inf], not in fixed-point notation with three decimal digits. *)
Lemma infinite_calories_are_not_fixed_point :
  Homework.show_training_info (Homework.new_Running 15000 1 1e308)
  = Ok (Homework.InfoMessage.new "Running" 1 9.75 9.75
          (PyFloat (S754_infinity false)))
  /\ ~ Spec.rendered_as_specified "Running" 1 9.75 9.75
         (PyFloat (S754_infinity false))
         (Homework.InfoMessage.get_message
            (Homework.InfoMessage.new "Running" 1 9.75 9.75
               (PyFloat (S754_infinity false))))
  /\ ~ Spec.rendered_as_specified "Running" 1 9.75 9.75
         (PyFloat (S754_infinity false))
         (OopRefactor.InfoMessage.__str__
            (OopRefactor.InfoMessage.new "Running" 1 9.75 9.75
               (PyFloat (S754_infinity false)))).
Proof. exact (@infinite_calories_over_any_library correctly_rounded). Qed.

Lemma summary_line_of_finite_record_witness :
  (Spec.finite 1 = true /\ Spec.finite 9.75 = true
   /\ Spec.finite 797.805 = true)
  /\ Spec.rendered_as_specified "Running" 1 9.75 9.75 797.805
       (Homework.InfoMessage.get_message
          (Homework.InfoMessage.new "Running" 1 9.75 9.75 797.805)).
Proof.
  split; [repeat split; reflexivity|].
  apply (@summary_line_of_finite_record "Running" 1 9.75 9.75 797.805);
    reflexivity.
Defined.

Lemma scripts_agree_witness :
  Spec.recognized "WLK"
  /\ (t <~ Homework.read_package "WLK" [9000; 1; 75; 180] ;; Homework.main t)
       []
     = OopRefactor.read_package "WLK" [9000; 1; 75; 180] [].
Proof.
  assert (H : Spec.recognized "WLK") by (right; right; left; reflexivity).
  split; [exact H|].
  destruct (@scripts_agree correctly_rounded "WLK" [9000; 1; 75; 180] H)
    as (_ & _ & _ & _ & E).
  apply E.
Defined.

Lemma speed_is_distance_over_duration_witness :
  gt0 1 = true
  /\ Homework.show_training_info (Homework.new_Running 15000 1 75)
     = Ok (Homework.InfoMessage.new "Running" 1 9.75 9.75 797.805)
  /\ 9.75 / 1 = 9.75.
Proof.
  split; [reflexivity|].
  assert (H : Homework.show_training_info (Homework.new_Running 15000 1 75)
              = Ok (Homework.InfoMessage.new "Running" 1 9.75 9.75 797.805))
    by (vm_compute; reflexivity).
  split; [exact H|].
  destruct (@speed_is_distance_over_duration correctly_rounded
              15000 1 75 180 eq_refl) as (R & _).
  exact (R _ (or_introl H)).
Defined.

Lemma instantiate_binds_in_order_witness :
  Homework.instantiate Homework.Swimming [720; 1; 80; 25; 40]
  = Ok (Homework.new_Swimming 720 1 80 25 40)
  /\ nth_error [PyInt 720; PyInt 1; PyInt 80; PyInt 25; PyInt 40] 1
     = Some (Homework.duration (Homework.new_Swimming 720 1 80 25 40)).
Proof.
  split; [reflexivity|].
  apply (@instantiate_binds_in_order Homework.Swimming [720; 1; 80; 25; 40]
           (Homework.new_Swimming 720 1 80 25 40) eq_refl).
Defined.

Lemma failing_package_writes_nothing_witness :
  OopRefactor.read_package "RUN" [15000; 0; 75] []
  = ([], Raise ZeroDivisionError)
  /\ Spec.recognized "RUN".
Proof.
  assert (H : OopRefactor.read_package "RUN" [15000; 0; 75] []
              = ([], Raise ZeroDivisionError)) by (vm_compute; reflexivity).
  split; [exact H|].
  destruct (@failing_package_writes_nothing correctly_rounded
              "RUN" [15000; 0; 75] [] [] ZeroDivisionError) as [A _].
  apply (A H).
Defined.

Lemma returning_package_writes_one_line_witness :
  OopRefactor.read_package "XYZ" [] [] = ([Spec.warning], Ok tt)
  /\ exists line,
       [Spec.warning] = ([] ++ [line])%list
       /\ (line = Spec.warning <-> ~ Spec.recognized "XYZ").
Proof.
  assert (H : OopRefactor.read_package "XYZ" [] [] = ([Spec.warning], Ok tt))
    by (vm_compute; reflexivity).
  split; [exact H|].
  apply (@returning_package_writes_one_line correctly_rounded
           "XYZ" [] [] [Spec.warning] H).
Defined.

Lemma summary_reports_name_and_duration_witness :
  (More.type_name "RUN" = Some "Running"
   /\ OopRefactor.read_package "RUN" [15000; 1; 75] []
      = ([Spec.report "Running" "1.000" "9.750" "9.750" "797.805"], Ok tt))
  /\ (t <~ Homework.read_package "RUN" [15000; 1; 75] ;; Homework.main t) []
     = ([Spec.report "Running" "1.000" "9.750" "9.750" "797.805"], Ok tt).
Proof.
  assert (H : OopRefactor.read_package "RUN" [15000; 1; 75] []
              = ([Spec.report "Running" "1.000" "9.750" "9.750" "797.805"],
                 Ok tt)) by (vm_compute; reflexivity).
  split; [split; [reflexivity|exact H]|].
  apply (@summary_reports_name_and_duration correctly_rounded
           "RUN" [15000; 1; 75] [] _ "Running" eq_refl H).
Defined.

Lemma batches_agree_witness :
  Forall (fun p => Spec.recognized (fst p)) Homework.packages
  /\ fst (Homework.run Homework.packages [])
     = fst (OopRefactor.main Homework.packages []).
Proof.
  assert (F : Forall (fun p => Spec.recognized (fst p)) Homework.packages).
  { unfold Homework.packages.
    apply Forall_cons; [left; reflexivity|].
    apply Forall_cons; [right; left; reflexivity|].
    apply Forall_cons; [right; right; left; reflexivity|].
    apply Forall_nil. }
  split; [exact F|].
  apply (@batches_agree correctly_rounded Homework.packages [] F).
Defined.

Lemma first_unknown_code_ends_homework_batch_witness :
  (Homework.run [("RUN", [15000; 1; 75])] []
   = ([Spec.report "Running" "1.000" "9.750" "9.750" "797.805"], Ok tt)
   /\ ~ Spec.recognized "XYZ")
  /\ Homework.run
       ([("RUN", [15000; 1; 75])] ++ ("XYZ", []) :: Homework.packages)%list []
     = (([Spec.report "Running" "1.000" "9.750" "9.750" "797.805"]
         ++ [Spec.warning])%list, Raise AttributeError).
Proof.
  assert (H : Homework.run [("RUN", [15000; 1; 75])] []
              = ([Spec.report "Running" "1.000" "9.750" "9.750" "797.805"],
                 Ok tt)) by (vm_compute; reflexivity).
  assert (N : ~ Spec.recognized "XYZ").
  { rewrite recognized_cases. intros [C|[C|C]]; discriminate C. }
  split; [split; [exact H|exact N]|].
  apply (@first_unknown_code_ends_homework_batch correctly_rounded
           [("RUN", [15000; 1; 75])] "XYZ" [] Homework.packages [] _ H N).
Defined.

Lemma zero_duration_raises_witness :
  (More.eq0 0 = true /\ Spec.moderate 15000 /\ Spec.moderate 25
   /\ Spec.moderate 40)
  /\ OopRefactor.read_package "SWM" [15000; 0; 75; 25; 40] []
     = ([], Raise ZeroDivisionError).
Proof.
  split; [repeat split; reflexivity|].
  apply (@zero_duration_raises correctly_rounded 15000 0 75 180 25 40 []);
    reflexivity.
Defined.

Lemma zero_height_gives_no_calories_witness :
  (More.eq0 0 = true /\ gt0 1 = true /\ Spec.moderate 9000
   /\ Spec.moderate 1 /\ Spec.moderate 75)
  /\ Homework.get_spent_calories (Homework.new_SportsWalking 9000 1 75 0)
     = Raise ZeroDivisionError.
Proof.
  split; [repeat split; reflexivity|].
  destruct (@zero_height_gives_no_calories correctly_rounded 9000 1 75 0
              eq_refl eq_refl eq_refl eq_refl eq_refl) as (_ & C & _).
  eapply C. vm_compute. reflexivity.
Defined.

Lemma rendered_number_reads_back_witness :
  Spec.finite 797.805 = true
  /\ exists s f x q,
       format_3f 797.805 = Ok s /\ to_float 797.805 = Ok f
       /\ exact f = Some x /\ More.read_fixed3 s = Some q
       /\ (x - 0.0005 <= q)%Q /\ (q <= x + 0.0005)%Q.
Proof.
  split; [reflexivity|].
  apply (@rendered_number_reads_back 797.805 eq_refl).
Defined.

Lemma distance_and_speed_are_not_negative_witness :
  (ge0 720 = true /\ Spec.finite 720 = true
   /\ gt0 1 = true /\ Spec.finite 1 = true)
  /\ More.not_negative
       (Homework.get_distance (Homework.new_Swimming 720 1 80 25 40)).
Proof.
  split; [repeat split; reflexivity|].
  destruct (@distance_and_speed_are_not_negative correctly_rounded
              720 1 80 180 25 40 eq_refl eq_refl eq_refl eq_refl)
    as (D & _).
  apply (D (Homework.new_Swimming 720 1 80 25 40)).
  right. right. left. reflexivity.
Defined.
